(** * Training / evaluation / checkpoint loop of [xbd+randargument_editing.py]

    A shallow embedding of [run_epoch] and [train_and_eval].  The script is
    glue code around torch, the data loaders, tqdm, the logger and the
    checkpoint file, so the embedding threads an explicit world (the model,
    optimizer and scheduler objects and the file system) through an error
    monad and records every call to a collaborator in a trace.  What the
    collaborators compute (forward pass, gradients, optimizer update,
    scheduler law, initial parameters, the loaders) is taken as a parameter.

    Python floats are idealised as rationals ([Q]); NaN, infinities and
    rounding are outside the model. *)

From Stdlib Require Import ZArith QArith List Ascii String Bool Lia.
Import ListNotations.

Local Open Scope string_scope.
Local Open Scope list_scope.

(** ** Python values, exceptions and dicts *)

Inductive exn : Type :=
| KeyError (key : string)
| ValueError (msg : string)
| TypeError (msg : string)
| AttributeError (msg : string)
| ZeroDivisionError.

(** A dict with string keys, in insertion order. *)
Definition Dict (V : Type) : Type := list (string * V).

Fixpoint dict_get {V : Type} (k : string) (d : Dict V) : option V :=
  match d with
  | [] => None
  | (k', v) :: d' => if String.eqb k k' then Some v else dict_get k d'
  end.

(** [k in d] *)
Definition dict_mem {V : Type} (k : string) (d : Dict V) : bool :=
  match dict_get k d with Some _ => true | None => false end.

(** [d[k] = v]: an existing key keeps its place, a new key goes last. *)
Fixpoint dict_set {V : Type} (k : string) (v : V) (d : Dict V) : Dict V :=
  match d with
  | [] => [(k, v)]
  | (k', v') :: d' =>
      if String.eqb k k' then (k, v) :: d' else (k', v') :: dict_set k v d'
  end.

(** What a checkpoint file may hold. *)
#[warnings="-register-all"]
Inductive Value : Type :=
| VInt (z : Z)
| VFloat (x : Q)
| VTensor (t : Z)
| VDict (d : list (string * Value)).

(** [s in k] on strings: substring test. *)
Definition str_contains (s k : string) : bool :=
  match String.index 0 s k with Some _ => true | None => false end.

(** Truthiness of an optional string argument ([None] and [''] are falsy). *)
Definition truthy (s : option string) : bool :=
  match s with
  | None => false
  | Some s' => negb (String.eqb s' "")
  end.

(** [range(a, b)] *)
Definition range (a b : Z) : list Z :=
  map (fun i => (a + Z.of_nat i)%Z) (seq 0 (Z.to_nat (b - a))).

Definition Qltb (x y : Q) : bool :=
  match (x ?= y)%Q with Lt => true | _ => false end.

(** ** Accumulator *)

(** Modelled from the spec: the class [Accumulator] of [RandAugment.metrics],
    which is not part of the sources.  Section 4.1 gives its contract: a
    mapping from metric name to running total in insertion order; [add]
    adds to the running total "creating the key at zero if unseen"; [scale]
    "returns a new mapping with every entry divided by divisor" and "fails
    with a domain error if divisor is zero"; [items] yields the entries in
    insertion order. *)
Definition Accumulator : Type := Dict Q.

Definition Accumulator_new : Accumulator := [].

Definition acc_add (key : string) (value : Q) (a : Accumulator) : Accumulator :=
  match dict_get key a with
  | Some total => dict_set key (total + value)%Q a
  | None => dict_set key (0 + value)%Q a
  end.

Definition add_dict (d : Dict Q) (a : Accumulator) : Accumulator :=
  fold_left (fun acc kv => acc_add (fst kv) (snd kv) acc) d a.

(** [metrics / cnt] *)
Definition acc_truediv (a : Accumulator) (divisor : nat) : exn + Accumulator :=
  match divisor with
  | O => inl ZeroDivisionError
  | S _ => inr (map (fun kv => (fst kv, (snd kv / inject_Z (Z.of_nat divisor))%Q)) a)
  end.

Definition acc_items (a : Accumulator) : list (string * Q) := a.

(** ** Configuration ([C.get()]) *)

Record WarmupConf : Type := mkWarmupConf {
  warmup_multiplier : option Q;
  warmup_epoch : option Z
}.

Record LrScheduleConf : Type := mkLrScheduleConf {
  lr_schedule_type : option string;
  lr_schedule_warmup : option WarmupConf
}.

Record OptimizerConf : Type := mkOptimizerConf {
  optimizer_type : option string;
  optimizer_momentum : option Q;
  optimizer_decay : option Q;
  optimizer_nesterov : option bool;
  optimizer_clip : option Q;
  optimizer_label_smoothing : option Q;
  optimizer_lars : option bool
}.

Record Config : Type := mkConfig {
  conf_dataset : option string;
  conf_batch : option Z;
  conf_epoch : option Z;
  conf_model : option string;
  conf_lr : option Q;
  conf_optimizer : option OptimizerConf;
  conf_lr_schedule : option LrScheduleConf
}.

(** [d[key]] on a configuration dict: [KeyError] when the key is missing. *)
Definition getitem {A : Type} (key : string) (field : option A) : exn + A :=
  match field with
  | Some a => inr a
  | None => inl (KeyError key)
  end.

(** [d.get(key, default)] *)
Definition get_default {A : Type} (field : option A) (default : A) : A :=
  match field with
  | Some a => a
  | None => default
  end.

(** Truthiness of the [warmup] entry: a missing entry and an empty dict are
    falsy. *)
Definition warmup_truthy (w : option WarmupConf) : bool :=
  match w with
  | None => false
  | Some c =>
      match warmup_multiplier c, warmup_epoch c with
      | None, None => false
      | _, _ => true
      end
  end.

(** ** Torch objects *)

Record Batch : Type := mkBatch {
  data : list Z;
  label : list Z
}.

Inductive Criterion : Type :=
| SmoothCrossEntropyLoss (smoothing : Q)
| CrossEntropyLoss.

Record Optimizer : Type := mkOptimizer {
  opt_lars : bool;
  opt_lr : Q;                (* param_groups[0]['lr'] *)
  opt_momentum : Q;
  opt_weight_decay : Q;
  opt_nesterov : bool;
  opt_state : Value
}.

Inductive SchedulerKind : Type :=
| CosineAnnealingLR (T_max : Z)
| ResnetSchedule
| GradualWarmupScheduler (multiplier : Q) (total_epoch : Z)
                         (after_scheduler : SchedulerKind).

Record Scheduler : Type := mkScheduler {
  sched_kind : SchedulerKind;
  sched_state : Value
}.

Inductive Writer : Type :=
| SummaryWriterDummy
| SummaryWriter (log_dir : string).

Record Loaders : Type := mkLoaders {
  trainloader : list Batch;
  validloader : list Batch;
  testloader_ : list Batch
}.

(** ** The world and the trace *)

(** A scalar in a tensorboard log: key, value and global step. *)
Definition Scalar : Type := (string * Q * Z)%type.

(** Checkpoint files and tensorboard log directories are kept apart: a
    path names one or the other. *)
Record World : Type := mkWorld {
  w_model : Dict Value;          (* model.state_dict() *)
  w_grad : option (Dict Value);  (* the gradients held by the parameters *)
  w_optimizer : Optimizer;
  w_scheduler : Scheduler;
  w_fs : Dict (Dict Value);      (* path |-> what torch.load returns *)
  w_training : bool;             (* model.training *)
  w_logs : Dict (list Scalar)    (* log directory |-> the scalars in its event files *)
}.

Definition with_model (m : Dict Value) (w : World) : World :=
  mkWorld m (w_grad w) (w_optimizer w) (w_scheduler w) (w_fs w)
          (w_training w) (w_logs w).

Definition with_grad (g : option (Dict Value)) (w : World) : World :=
  mkWorld (w_model w) g (w_optimizer w) (w_scheduler w) (w_fs w)
          (w_training w) (w_logs w).

Definition with_optimizer (o : Optimizer) (w : World) : World :=
  mkWorld (w_model w) (w_grad w) o (w_scheduler w) (w_fs w)
          (w_training w) (w_logs w).

Definition with_scheduler (s : Scheduler) (w : World) : World :=
  mkWorld (w_model w) (w_grad w) (w_optimizer w) s (w_fs w)
          (w_training w) (w_logs w).

Definition with_fs (fs : Dict (Dict Value)) (w : World) : World :=
  mkWorld (w_model w) (w_grad w) (w_optimizer w) (w_scheduler w) fs
          (w_training w) (w_logs w).

Definition with_training (t : bool) (w : World) : World :=
  mkWorld (w_model w) (w_grad w) (w_optimizer w) (w_scheduler w) (w_fs w)
          t (w_logs w).

Definition with_logs (l : Dict (list Scalar)) (w : World) : World :=
  mkWorld (w_model w) (w_grad w) (w_optimizer w) (w_scheduler w) (w_fs w)
          (w_training w) l.

(** [SummaryWriter(log_dir=d)] makes the directory and opens an event
    file in it; what the directory already holds stays. *)
Definition log_open (d : string) (logs : Dict (list Scalar)) : Dict (list Scalar) :=
  match dict_get d logs with
  | Some _ => logs
  | None => dict_set d [] logs
  end.

(** A scalar written to the event file of directory [d]. *)
Definition log_append (d : string) (s : Scalar) (logs : Dict (list Scalar))
  : Dict (list Scalar) :=
  dict_set d (match dict_get d logs with
              | Some l => l ++ [s]
              | None => [s]
              end) logs.

(** The calls the script makes, in order.  [EvRunEpoch] marks the entry
    of [run_epoch] ([training] tells whether an optimizer was passed);
    [EvBackward] carries the gradients [loss.backward()] leaves,
    [EvOptimizerStep] the gradients [optimizer.step()] finds;
    [EvReport] is the call of the reporter, given or the default no-op. *)
Inductive Event : Type :=
| EvRunEpoch (desc : string) (epoch : Z) (training : bool)
| EvZeroGrad
| EvForward (b : Batch) (loss top1 top5 : Q)
| EvBackward (grad : Dict Value)
| EvClipGradNorm (max_norm : Q)
| EvOptimizerStep (grad : option (Dict Value))
| EvSchedulerStep (at_epoch : Q)
| EvAddScalar (log_dir key : string) (value : Q) (epoch : Z)
| EvLoadStateDict (state : Dict Value)
| EvOptimizerLoad (state : Value)
| EvSchedulerLoad (state : Value)
| EvSave (path : string) (checkpoint : Dict Value)
| EvReport (epoch : Z) (train valid : Accumulator) (test : option Accumulator).

(** What the collaborators compute.  The network runs in the mode it is
    in ([model.training]); a forward pass may change its state (the
    running statistics of its normalisation layers).  The constructors
    of the optimizer and of the schedulers check their arguments and
    refuse with a [ValueError], whose message they give. *)
Record Extern : Type := mkExtern {
  get_dataloaders : string -> Z -> string -> Q -> Z -> Loaders;
  get_model : string -> string -> Dict Value;
  (* loss.item(), top1.item(), top5.item() of a batch under the model *)
  forward : Criterion -> bool -> Dict Value -> Batch -> Q * Q * Q;
  (* the state of the model after the forward pass *)
  forward_state : bool -> Dict Value -> Batch -> Dict Value;
  (* the gradients after loss.backward(), from the mode and the state the
     loss was computed in and the gradients held before *)
  backward : Criterion -> bool -> Dict Value -> Batch -> option (Dict Value)
             -> Dict Value;
  clip_grad_norm : Dict Value -> Q -> Dict Value;
  optimizer_step : Optimizer -> Dict Value -> option (Dict Value) -> Optimizer * Dict Value;
  scheduler_step : Scheduler -> Q -> Optimizer -> Scheduler * Optimizer;
  (* optim.SGD(params, lr, momentum, weight_decay, nesterov) *)
  sgd_init : Dict Value -> Q -> Q -> Q -> bool -> string + Value;
  lars_wrap : Value -> Value;
  scheduler_init : SchedulerKind -> Optimizer -> string + Value;
  model_load_state_dict : Dict Value -> Dict Value -> Dict Value;
  optimizer_load_state_dict : Optimizer -> Value -> Optimizer;
  scheduler_load_state_dict : Scheduler -> Value -> Scheduler;
  (* Accumulator.__getitem__ on a name that was never added *)
  metric_missing : string -> exn + Q;
  (* on a tensor: t + 1, operator.index(t) as range() calls it, what
     '%04d' % t shows, and the number a tensor of one element holds, as
     a comparison with a float takes it (the truth value of the
     comparison is an error on any other tensor) *)
  tensor_succ : Z -> Z;
  tensor_index : Z -> exn + Z;
  tensor_int : Z -> exn + Z;
  tensor_scalar : Z -> exn + Q
}.

(** ** The monad: state, exceptions and the trace of calls *)

Record Run (A : Type) : Type := mkRun {
  trace : list Event;
  final : World;
  outcome : exn + A
}.
Arguments mkRun {A} _ _ _.
Arguments trace {A} _.
Arguments final {A} _.
Arguments outcome {A} _.

Definition M (A : Type) : Type := World -> Run A.

Definition ret {A : Type} (a : A) : M A :=
  fun w => mkRun [] w (inr a).

Definition raise {A : Type} (e : exn) : M A :=
  fun w => mkRun [] w (inl e).

Definition bind {A B : Type} (m : M A) (k : A -> M B) : M B :=
  fun w =>
    match m w with
    | mkRun t w1 (inl e) => mkRun t w1 (inl e)
    | mkRun t w1 (inr a) =>
        match k a w1 with
        | mkRun t' w2 o => mkRun (t ++ t') w2 o
        end
    end.

Definition lift {A : Type} (x : exn + A) : M A :=
  match x with
  | inl e => raise e
  | inr a => ret a
  end.

Definition emit (e : Event) : M unit :=
  fun w => mkRun [e] w (inr tt).

Definition get_world : M World :=
  fun w => mkRun [] w (inr w).

Definition put_world (w' : World) : M unit :=
  fun _ => mkRun [] w' (inr tt).

Declare Scope py_scope.
Delimit Scope py_scope with py.
Notation "x <- c1 ;; c2" := (bind c1 (fun x => c2))
  (at level 100, c1 at next level, right associativity) : py_scope.
Notation "' pat <- c1 ;; c2" := (bind c1 (fun x => match x with pat => c2 end))
  (at level 100, pat pattern, c1 at next level, right associativity) : py_scope.
Notation "c1 ;; c2" := (bind c1 (fun _ => c2))
  (at level 100, right associativity) : py_scope.
Local Open Scope py_scope.

(** [if c: body] with no else branch. *)
Definition when (c : bool) (body : M unit) : M unit :=
  if c then body else ret tt.

(** [[f(a) for a in l]] *)
Fixpoint map_m {A B : Type} (f : A -> M B) (l : list A) : M (list B) :=
  match l with
  | [] => ret []
  | a :: l' => b <- f a ;; bs <- map_m f l' ;; ret (b :: bs)
  end.

(** [for a in l: s = f(a, s)] *)
Fixpoint for_each {A S : Type} (f : A -> S -> M S) (l : list A) (s : S) : M S :=
  match l with
  | [] => ret s
  | a :: l' => s' <- f a s ;; for_each f l' s'
  end.

(** ** The script *)

Section Script.

(** The collaborators, the configuration singleton [C.get()] and the
    environment variable [TASK_NAME]. *)
Variable T : Extern.
Variable C : Config.
Variable TASK_NAME : string.

(** *** Calls to the collaborators *)

Definition zero_grad : M unit :=
  w <- get_world ;;
  put_world (with_grad None w) ;;
  emit EvZeroGrad.

(** [model.train()] and [model.eval()] *)
Definition model_train : M unit :=
  w <- get_world ;;
  put_world (with_training true w).

Definition model_eval : M unit :=
  w <- get_world ;;
  put_world (with_training false w).

(** [preds = model(data)], [loss = loss_fn(preds, label)] and
    [accuracy(preds, label, (1, 5))]: the three scalars of the batch.
    The pass is made in the mode the model is in and leaves the model in
    the state [forward_state] gives. *)
Definition model_forward (loss_fn : Criterion) (b : Batch) : M (Q * Q * Q) :=
  w <- get_world ;;
  let r := forward T loss_fn (w_training w) (w_model w) b in
  put_world (with_model (forward_state T (w_training w) (w_model w) b) w) ;;
  emit (EvForward b (fst (fst r)) (snd (fst r)) (snd r)) ;;
  ret r.

(** [loss.backward()], for the loss computed in mode [training] on the
    state [m0]. *)
Definition loss_backward (loss_fn : Criterion) (training : bool)
           (m0 : Dict Value) (b : Batch) : M unit :=
  w <- get_world ;;
  let g := backward T loss_fn training m0 b (w_grad w) in
  put_world (with_grad (Some g) w) ;;
  emit (EvBackward g).

Definition clip_grad_norm_ (max_norm : Q) : M unit :=
  w <- get_world ;;
  put_world (with_grad (match w_grad w with
                        | Some g => Some (clip_grad_norm T g max_norm)
                        | None => None
                        end) w) ;;
  emit (EvClipGradNorm max_norm).

Definition optimizer_do_step : M unit :=
  w <- get_world ;;
  let r := optimizer_step T (w_optimizer w) (w_model w) (w_grad w) in
  put_world (with_optimizer (fst r) (with_model (snd r) w)) ;;
  emit (EvOptimizerStep (w_grad w)).

(** [scheduler.step(x)] *)
Definition scheduler_do_step (x : Q) : M unit :=
  w <- get_world ;;
  let r := scheduler_step T (w_scheduler w) x (w_optimizer w) in
  put_world (with_scheduler (fst r) (with_optimizer (snd r) w)) ;;
  emit (EvSchedulerStep x).

(** [writer.add_scalar(key, value, epoch)]: a tensorboard writer puts
    the scalar in the event file of its directory; the dummy writer does
    nothing, and [None] has no such attribute. *)
Definition add_scalar (writer : option Writer) (key : string) (value : Q)
           (epoch : Z) : M unit :=
  match writer with
  | None => raise (AttributeError "'NoneType' object has no attribute 'add_scalar'")
  | Some SummaryWriterDummy => ret tt
  | Some (SummaryWriter log_dir) =>
      w <- get_world ;;
      put_world (with_logs (log_append log_dir (key, value, epoch) (w_logs w)) w) ;;
      emit (EvAddScalar log_dir key value epoch)
  end.

(** [valid_metrics[metric]] *)
Definition metric_value (m : Accumulator) (name : string) : exn + Q :=
  match dict_get name m with
  | Some v => inr v
  | None => metric_missing T name
  end.

Definition metrics_getitem (m : Accumulator) (name : string) : M Q :=
  lift (metric_value m name).

(** *** run_epoch *)

Definition len_data (b : Batch) : nat := List.length (data b).

Definition Qnat (n : nat) : Q := inject_Z (Z.of_nat n).

(** The loop variables [metrics], [cnt] and [steps]. *)
Definition LoopState : Type := (Accumulator * nat * nat)%type.

(** One iteration of [for data, label in loader] (lines 39-70). *)
Definition batch_body (loss_fn : Criterion) (optimizer : bool) (epoch : Z)
           (verbose : bool) (scheduler : bool) (total_steps : nat)
           (b : Batch) (st : LoopState) : M LoopState :=
  let metrics := fst (fst st) in
  let cnt := snd (fst st) in
  let steps := S (snd st) in
  when optimizer zero_grad ;;
  w0 <- get_world ;;
  r <- model_forward loss_fn b ;;
  let loss := fst (fst r) in
  let top1 := snd (fst r) in
  let top5 := snd r in
  when optimizer
    (loss_backward loss_fn (w_training w0) (w_model w0) b ;;
     opt <- lift (getitem "optimizer" (conf_optimizer C)) ;;
     when (Qltb 0 (get_default (optimizer_clip opt) 5))
          (clip_grad_norm_ (get_default (optimizer_clip opt) 5)) ;;
     optimizer_do_step) ;;
  let metrics := add_dict [("loss", loss * Qnat (len_data b));
                           ("top1", top1 * Qnat (len_data b));
                           ("top5", top5 * Qnat (len_data b))]%Q metrics in
  let cnt := (cnt + len_data b)%nat in
  when verbose (_ <- lift (acc_truediv metrics cnt) ;; ret tt) ;;
  when scheduler
    (scheduler_do_step (inject_Z (epoch - 1) + Qnat steps / Qnat total_steps)%Q) ;;
  ret (metrics, cnt, steps).

Fixpoint add_scalars (writer : option Writer) (items : list (string * Q))
         (epoch : Z) : M unit :=
  match items with
  | [] => ret tt
  | (key, value) :: rest =>
      add_scalar writer key value epoch ;;
      add_scalars writer rest epoch
  end.

(** After the loop (lines 72-84): the log line, whose arguments
    [C.get()['epoch']] and [metrics / cnt] are evaluated in this order,
    the averages, the learning rate, the scalars sent to the writer. *)
Definition epoch_end (optimizer : bool) (epoch : Z) (writer : option Writer)
           (verbose : bool) (st : LoopState) : M Accumulator :=
  let tqdm_disable := negb (String.eqb TASK_NAME "") in
  let metrics := fst (fst st) in
  let cnt := snd (fst st) in
  when tqdm_disable (_ <- lift (getitem "epoch" (conf_epoch C)) ;;
                     _ <- lift (acc_truediv metrics cnt) ;;
                     ret tt) ;;
  metrics <- lift (acc_truediv metrics cnt) ;;
  metrics <- (if optimizer
              then w <- get_world ;; ret (dict_set "lr" (opt_lr (w_optimizer w)) metrics)
              else ret metrics) ;;
  when verbose (add_scalars writer (acc_items metrics) epoch) ;;
  ret metrics.

(** [optimizer] and [scheduler] tell whether the object is passed
    ([True]) or [None]; the objects themselves live in the world. *)
Definition run_epoch (loader : list Batch) (loss_fn : Criterion)
           (optimizer : bool) (desc_default : string) (epoch : Z)
           (writer : option Writer) (verbose : bool) (scheduler : bool)
  : M Accumulator :=
  emit (EvRunEpoch desc_default epoch optimizer) ;;
  when verbose (_ <- lift (getitem "epoch" (conf_epoch C)) ;; ret tt) ;;
  let total_steps := List.length loader in
  st <- for_each (batch_body loss_fn optimizer epoch verbose scheduler total_steps)
                 loader (Accumulator_new, O, O) ;;
  epoch_end optimizer epoch writer verbose st.

(** *** train_and_eval *)

Inductive Ret : Type :=
| RetMetrics (valid_metrics : Accumulator)
| RetResult (result : Dict Value).

(** What the build phase (lines 91-139) leaves in local variables. *)
Record Built : Type := mkBuilt {
  max_epoch : Z;
  loaders : Loaders;
  criterion : Criterion;
  writers : list Writer
}.

Definition set_model (m : Dict Value) : M unit :=
  w <- get_world ;;
  put_world (with_model m w).

Definition set_optimizer (o : Optimizer) : M unit :=
  w <- get_world ;;
  put_world (with_optimizer o w).

Definition set_scheduler (s : Scheduler) : M unit :=
  w <- get_world ;;
  put_world (with_scheduler s w).

(** What a constructor gives: the object, or the [ValueError] it
    refuses its arguments with. *)
Definition constructed {A : Type} (x : string + A) : exn + A :=
  match x with
  | inl msg => inl (ValueError msg)
  | inr a => inr a
  end.

Definition new_scheduler (k : SchedulerKind) : M unit :=
  w <- get_world ;;
  st <- lift (constructed (scheduler_init T k (w_optimizer w))) ;;
  set_scheduler (mkScheduler k st).

(** ['./logs/%s/%s' % (tag, x)] *)
Definition log_dir (tag : option string) (x : string) : string :=
  String.append "./logs/"
    (String.append (get_default tag "None") (String.append "/" x)).

(** [SummaryWriter(log_dir='./logs/%s/%s' % (tag, x))], with the class
    lines 134-138 bind to that name. *)
Definition new_writer (tag : option string) (x : string) : M Writer :=
  if truthy tag
  then
    w <- get_world ;;
    put_world (with_logs (log_open (log_dir tag x) (w_logs w)) w) ;;
    ret (SummaryWriter (log_dir tag x))
  else ret SummaryWriterDummy.

(** Lines 91-139: loaders, model, loss, optimizer, scheduler, writers. *)
Definition build (tag : option string) (dataroot : string) (test_ratio : Q)
           (cv_fold : Z) : M Built :=
  max_epoch <- lift (getitem "epoch" (conf_epoch C)) ;;
  dataset <- lift (getitem "dataset" (conf_dataset C)) ;;
  batch <- lift (getitem "batch" (conf_batch C)) ;;
  let loaders := get_dataloaders T dataset batch dataroot test_ratio cv_fold in
  model_name <- lift (getitem "model" (conf_model C)) ;;
  set_model (get_model T model_name dataset) ;;
  opt <- lift (getitem "optimizer" (conf_optimizer C)) ;;
  let lb_smooth := get_default (optimizer_label_smoothing opt) 0%Q in
  let criterion := if Qltb 0 lb_smooth
                   then SmoothCrossEntropyLoss lb_smooth
                   else CrossEntropyLoss in
  ty <- lift (getitem "type" (optimizer_type opt)) ;;
  (if String.eqb ty "sgd"
   then
     lr <- lift (getitem "lr" (conf_lr C)) ;;
     decay <- lift (getitem "decay" (optimizer_decay opt)) ;;
     nesterov <- lift (getitem "nesterov" (optimizer_nesterov opt)) ;;
     w <- get_world ;;
     let momentum := get_default (optimizer_momentum opt) (9 # 10) in
     st <- lift (constructed (sgd_init T (w_model w) lr momentum decay nesterov)) ;;
     set_optimizer (mkOptimizer false lr momentum decay nesterov st)
   else raise (ValueError (String.append "invalid optimizer type=" ty))) ;;
  when (get_default (optimizer_lars opt) false)
       (w <- get_world ;;
        let o := w_optimizer w in
        set_optimizer (mkOptimizer true (opt_lr o) (opt_momentum o)
                                   (opt_weight_decay o) (opt_nesterov o)
                                   (lars_wrap T (opt_state o)))) ;;
  sch <- lift (getitem "lr_schedule" (conf_lr_schedule C)) ;;
  let lr_scheduler_type := get_default (lr_schedule_type sch) "cosine" in
  (if String.eqb lr_scheduler_type "cosine"
   then new_scheduler (CosineAnnealingLR max_epoch)
   else if String.eqb lr_scheduler_type "resnet"
   then new_scheduler ResnetSchedule
   else raise (ValueError (String.append "invalid lr_schduler=" lr_scheduler_type))) ;;
  when (warmup_truthy (lr_schedule_warmup sch))
       (wu <- lift (getitem "warmup" (lr_schedule_warmup sch)) ;;
        multiplier <- lift (getitem "multiplier" (warmup_multiplier wu)) ;;
        total_epoch <- lift (getitem "epoch" (warmup_epoch wu)) ;;
        w <- get_world ;;
        new_scheduler (GradualWarmupScheduler multiplier total_epoch
                                              (sched_kind (w_scheduler w)))) ;;
  writers <- map_m (new_writer tag) ["train"; "valid"; "test"] ;;
  ret (mkBuilt max_epoch loaders criterion writers).

(** [k if 'module.' in k else 'module.'+k] *)
Definition module_key (k : string) : string :=
  if str_contains "module." k then k else String.append "module." k.

(** [{k if 'module.' in k else 'module.'+k: v for k, v in items}] *)
Definition module_keys (items : Dict Value) : Dict Value :=
  fold_left (fun d kv => dict_set (module_key (fst kv)) (snd kv) d) items [].

Definition load_state_dict (state : Dict Value) : M unit :=
  w <- get_world ;;
  set_model (model_load_state_dict T (w_model w) state) ;;
  emit (EvLoadStateDict state).

(** [data[key].items()] *)
Definition value_items (v : Value) : exn + Dict Value :=
  match v with
  | VDict d => inr d
  | _ => inl (AttributeError "object has no attribute 'items'")
  end.

(** [data['epoch'] + 1] *)
Definition value_succ (v : Value) : exn + Value :=
  match v with
  | VInt n => inr (VInt (n + 1))
  | VFloat x => inr (VFloat (x + 1))
  | VTensor t => inr (VTensor (tensor_succ T t))
  | VDict _ => inl (TypeError "unsupported operand type(s) for +: 'dict' and 'int'")
  end.

(** [epoch_start] as the first argument of [range]: an integer, or what
    stands for one. *)
Definition range_start (v : Value) : exn + Z :=
  match v with
  | VInt n => inr n
  | VFloat _ => inl (TypeError "'float' object cannot be interpreted as an integer")
  | VTensor t => tensor_index T t
  | VDict _ => inl (TypeError "'dict' object cannot be interpreted as an integer")
  end.

(** [epoch_start] as ['%04d'] shows it in the description of the
    progress bar: a float is truncated towards zero. *)
Definition epoch_shown (v : Value) : exn + Z :=
  match v with
  | VInt n => inr n
  | VFloat x => inr (Z.quot (Qnum x) (Zpos (Qden x)))
  | VTensor t => tensor_int T t
  | VDict _ => inl (TypeError "%d format: a real number is required, not dict")
  end.

(** Lines 141-158: [result], [epoch_start] and the restored objects. *)
Definition resume (metric : string) (save_path : option string)
  : M (Dict Value * Value) :=
  let result : Dict Value := [] in
  let epoch_start := VInt 1 in
  w <- get_world ;;
  if truthy save_path && dict_mem (get_default save_path "") (w_fs w)
  then
    data <- lift (getitem (get_default save_path "")
                          (dict_get (get_default save_path "") (w_fs w))) ;;
    result <-
      (if dict_mem "model" data || dict_mem "state_dict" data
       then
         let key := if dict_mem "model" data then "model" else "state_dict" in
         inner <- lift (getitem key (dict_get key data)) ;;
         items <- lift (value_items inner) ;;
         load_state_dict (module_keys items) ;;
         match dict_get metric data with
         | Some best => ret (dict_set "best_valid" best result)
         | None => ret result
         end
       else
         load_state_dict (module_keys data) ;;
         ret result) ;;
    match dict_get "optimizer" data with
    | Some st =>
        w <- get_world ;;
        set_optimizer (optimizer_load_state_dict T (w_optimizer w) st) ;;
        emit (EvOptimizerLoad st)
    | None => ret tt
    end ;;
    match dict_get "scheduler" data with
    | Some st =>
        w <- get_world ;;
        set_scheduler (scheduler_load_state_dict T (w_scheduler w) st) ;;
        emit (EvSchedulerLoad st)
    | None => ret tt
    end ;;
    match dict_get "epoch" data with
    | Some e => epoch_start <- lift (value_succ e) ;; ret (result, epoch_start)
    | None => ret (result, epoch_start)
    end
  else ret (result, epoch_start).

Definition nth_writer (ws : list Writer) (i : nat) : option Writer :=
  nth_error ws i.

(** Lines 161-175: the evaluation-only exit.  Both passes are made
    without optimizer, scheduler and writer, so that all they do with
    [epoch_start] is to show it in the progress bar: they are given what
    is shown there. *)
Definition eval_only (b : Built) (epoch_start : Value) : M Ret :=
  model_eval ;;
  epoch <- lift (epoch_shown epoch_start) ;;
  valid_metrics <- run_epoch (validloader (loaders b)) (criterion b) false
                             "valid" epoch None true false ;;
  test_metrics <- run_epoch (testloader_ (loaders b)) (criterion b) false
                            "test " epoch None true false ;;
  ret (RetMetrics valid_metrics).

(** [result['best_valid'] < v] *)
Definition value_lt (best : Value) (v : Q) : exn + bool :=
  match best with
  | VInt n => inr (Qltb (inject_Z n) v)
  | VFloat x => inr (Qltb x v)
  | VTensor t =>
      match tensor_scalar T t with
      | inr x => inr (Qltb x v)
      | inl e => inl e
      end
  | VDict _ =>
      inl (TypeError "'<' not supported between instances of 'dict' and 'float'")
  end.

Definition torch_save (path : string) (obj : Dict Value) : M unit :=
  w <- get_world ;;
  put_world (with_fs (dict_set path obj (w_fs w)) w) ;;
  emit (EvSave path obj).

(** Lines 194-205: save if best accuracy. *)
Definition save_if_best (metric : string) (save_path : option string)
           (epoch : Z) (valid_metrics : Accumulator) (result : Dict Value)
  : M (Dict Value) :=
  better <- match dict_get "best_valid" result with
            | None => ret true
            | Some best =>
                v <- metrics_getitem valid_metrics metric ;;
                lift (value_lt best v)
            end ;;
  if better : bool
  then
    v <- metrics_getitem valid_metrics metric ;;
    when (truthy save_path)
         (w <- get_world ;;
          torch_save (get_default save_path "")
                     (dict_set "scheduler" (sched_state (w_scheduler w))
                        (dict_set "optimizer" (opt_state (w_optimizer w))
                           (dict_set "model" (VDict (w_model w))
                              (dict_set metric (VFloat v)
                                 (dict_set "epoch" (VInt epoch) [])))))) ;;
    ret (dict_set "best_valid" (VFloat v) result)
  else ret result.

(** Lines 207-213: the test pass of the last epochs. *)
Definition test_pass (b : Built) (epoch : Z) : M (option Accumulator) :=
  cur_max <- lift (getitem "epoch" (conf_epoch C)) ;;
  if (cur_max - epoch <=? 5)%Z
  then
    test_metrics <- run_epoch (testloader_ (loaders b)) (criterion b) false
                              "test " epoch (nth_writer (writers b) 2) true false ;;
    ret (Some test_metrics)
  else ret None.

(** One iteration of the training loop (lines 180-216). *)
Definition epoch_body (b : Built) (metric : string) (save_path : option string)
           (epoch : Z) (result : Dict Value) : M (Dict Value) :=
  model_train ;;
  train_metrics <- run_epoch (trainloader (loaders b)) (criterion b) true
                             "train" epoch (nth_writer (writers b) 0) true false ;;
  model_eval ;;
  valid_metrics <- run_epoch (validloader (loaders b)) (criterion b) false
                             "valid" epoch (nth_writer (writers b) 1) true false ;;
  result <- save_if_best metric save_path epoch valid_metrics result ;;
  test_metrics <- test_pass b epoch ;;
  emit (EvReport epoch train_metrics valid_metrics test_metrics) ;;
  scheduler_do_step (inject_Z epoch) ;;
  ret result.

(** Lines 179-216: [range] is given [epoch_start] before the first
    iteration. *)
Definition train_loop (b : Built) (metric : string) (save_path : option string)
           (epoch_start : Value) (result : Dict Value) : M (Dict Value) :=
  start <- lift (range_start epoch_start) ;;
  for_each (epoch_body b metric save_path)
           (range start (max_epoch b + 1)) result.

(** The [reporter] argument is left out: the loop calls it, or the no-op
    that stands in for it, once per epoch either way, and the trace
    records that call as [EvReport]. *)
Definition train_and_eval (tag : option string) (dataroot : string)
           (test_ratio : Q) (cv_fold : Z) (metric : string)
           (save_path : option string) (only_eval : bool) : M Ret :=
  b <- build tag dataroot test_ratio cv_fold ;;
  re <- resume metric save_path ;;
  let result := fst re in
  let epoch_start := snd re in
  if only_eval
  then eval_only b epoch_start
  else
    result <- train_loop b metric save_path epoch_start result ;;
    ret (RetResult result).

End Script.

(** The logs once the writer of directory [d] has been sent [items]
    under [epoch]. *)
Definition logged (d : string) (items : list (string * Q)) (epoch : Z)
           (logs : Dict (list Scalar)) : Dict (list Scalar) :=
  fold_left (fun l kv => log_append d (fst kv, snd kv, epoch) l) items logs.

(** The writer [x] of a run tagged [tag], and the tensorboard
    directories of the run. *)
Definition writer_of (tag : option string) (x : string) : Writer :=
  if truthy tag then SummaryWriter (log_dir tag x) else SummaryWriterDummy.

Definition log_dirs (tag : option string) : list string :=
  if truthy tag then map (log_dir tag) ["train"; "valid"; "test"] else [].

(** The logs once the writers [l] of a run tagged [tag] are made. *)
Definition opened (tag : option string) (l : list string)
           (logs : Dict (list Scalar)) : Dict (list Scalar) :=
  if truthy tag
  then fold_left (fun lg x => log_open (log_dir tag x) lg) l logs
  else logs.

(** What a pass without optimizer and scheduler leaves alone: the
    gradients, the optimizer, the scheduler, the checkpoint files and
    the mode of the model. *)
Definition frame (w : World)
  : option (Dict Value) * Optimizer * Scheduler * Dict (Dict Value) * bool :=
  (w_grad w, w_optimizer w, w_scheduler w, w_fs w, w_training w).

(** The world but for the tensorboard logs. *)
Definition no_logs (w : World) : World := with_logs [] w.

(** ** Observations on a trace *)

(** A projection keeps, of every event, what an observer looks at. *)
Definition proj {X : Type} (f : Event -> list X) (tr : list Event) : list X :=
  flat_map f tr.

(** A computation that emits nothing the observer [f] looks at. *)
Definition quiet {X A : Type} (f : Event -> list X) (m : M A) : Prop :=
  forall w, proj f (trace (m w)) = [].

(** A computation that leaves the view [g] of the world as it found it;
    with [w_fs], it leaves the file system alone. *)
Definition keeps {Y A : Type} (g : World -> Y) (m : M A) : Prop :=
  forall w, g (final (m w)) = g w.

(** The passes: entries of [run_epoch]. *)
Definition see_pass (e : Event) : list Event :=
  match e with
  | EvRunEpoch _ _ _ => [e]
  | _ => []
  end.

(** The epochs at which a training pass (optimizer passed) starts. *)
Definition see_train_epoch (e : Event) : list Z :=
  match e with
  | EvRunEpoch _ epoch true => [epoch]
  | _ => []
  end.

(** The test passes of the training loop. *)
Definition see_test_pass (e : Event) : list Z :=
  match e with
  | EvRunEpoch desc epoch false => if String.eqb desc "test " then [epoch] else []
  | _ => []
  end.

Definition see_save (e : Event) : list (string * Dict Value) :=
  match e with
  | EvSave path obj => [(path, obj)]
  | _ => []
  end.

Definition see_report (e : Event) : list (Z * option Accumulator) :=
  match e with
  | EvReport epoch _ _ test => [(epoch, test)]
  | _ => []
  end.

Definition see_load (e : Event) : list (Dict Value) :=
  match e with
  | EvLoadStateDict st => [st]
  | _ => []
  end.

(** Backward pass, gradient clipping and optimizer step. *)
Definition see_grad (e : Event) : list Event :=
  match e with
  | EvBackward _ | EvClipGradNorm _ | EvOptimizerStep _ => [e]
  | _ => []
  end.

Definition see_scheduler (e : Event) : list Q :=
  match e with
  | EvSchedulerStep x => [x]
  | _ => []
  end.

(** What the loop saw of one batch: its size and its three scalars. *)
Record Observation : Type := mkObservation {
  obs_size : nat;
  obs_loss : Q;
  obs_top1 : Q;
  obs_top5 : Q
}.

Definition see_forward (e : Event) : list Observation :=
  match e with
  | EvForward b loss top1 top5 => [mkObservation (len_data b) loss top1 top5]
  | _ => []
  end.

(** Everything but the entry marker that [run_epoch] can emit. *)
Definition batch_event (e : Event) : bool :=
  match e with
  | EvZeroGrad | EvForward _ _ _ _ | EvBackward _ | EvClipGradNorm _
  | EvOptimizerStep _ | EvSchedulerStep _ | EvAddScalar _ _ _ _ => true
  | _ => false
  end.

(** An observer that ignores what happens inside a pass. *)
Definition above_batches {X : Type} (f : Event -> list X) : Prop :=
  forall e, batch_event e = true -> f e = [].

(** ** The sample-weighted mean, as the specification words it *)

(** Sum of value times batch size over the batches. *)
Definition weighted_total (value : Observation -> Q) (obs : list Observation) : Q :=
  fold_right (fun o s => (value o * Qnat (obs_size o) + s)%Q) 0%Q obs.

Definition sample_count (obs : list Observation) : nat :=
  fold_right (fun o n => (obs_size o + n)%nat) O obs.

Definition weighted_mean (value : Observation -> Q) (obs : list Observation) : Q :=
  (weighted_total value obs / Qnat (sample_count obs))%Q.

(** The plain average of the per-batch values, for contrast. *)
Definition batch_mean (value : Observation -> Q) (obs : list Observation) : Q :=
  (fold_right (fun o s => (value o + s)%Q) 0%Q obs / Qnat (List.length obs))%Q.

(** ** Configuration errors *)

Definition is_config_error (e : exn) : bool :=
  match e with
  | KeyError _ | ValueError _ => true
  | _ => false
  end.

(** Failing at construction: a configuration error and not a single call
    made, so no epoch has run. *)
Definition fails_fast {A : Type} (r : Run A) (w : World) : Prop :=
  exists e, outcome r = inl e /\ is_config_error e = true /\
            trace r = [] /\ w_fs (final r) = w_fs w.

(** ** Accepted configurations *)

Definition is_some {A : Type} (x : option A) : bool :=
  match x with Some _ => true | None => false end.

(** The configuration [build] accepts: every key it reads without a
    default is present, the optimizer type is ["sgd"], and the schedule
    type, when given, is ["cosine"] or ["resnet"]. *)
Definition optimizer_ok (opt : OptimizerConf) : bool :=
  match optimizer_type opt with
  | Some ty => String.eqb ty "sgd"
  | None => false
  end
  && is_some (optimizer_decay opt) && is_some (optimizer_nesterov opt).

Definition warmup_ok (w : option WarmupConf) : bool :=
  match w with
  | None => true
  | Some c =>
      match warmup_multiplier c, warmup_epoch c with
      | None, None => true
      | Some _, Some _ => true
      | _, _ => false
      end
  end.

Definition lr_schedule_ok (sch : LrScheduleConf) : bool :=
  match lr_schedule_type sch with
  | None => true
  | Some ty => String.eqb ty "cosine" || String.eqb ty "resnet"
  end
  && warmup_ok (lr_schedule_warmup sch).

Definition config_ok (C : Config) : bool :=
  is_some (conf_epoch C) && is_some (conf_dataset C) && is_some (conf_batch C)
  && is_some (conf_model C) && is_some (conf_lr C)
  && match conf_optimizer C with
     | Some opt => optimizer_ok opt
     | None => false
     end
  && match conf_lr_schedule C with
     | Some sch => lr_schedule_ok sch
     | None => false
     end.

(** The configuration with its [lr_schedule.type] set to [ty]. *)
Definition with_lr_schedule_type (C : Config) (ty : option string) : Config :=
  mkConfig (conf_dataset C) (conf_batch C) (conf_epoch C) (conf_model C)
           (conf_lr C) (conf_optimizer C)
           (match conf_lr_schedule C with
            | Some sch => Some (mkLrScheduleConf ty (lr_schedule_warmup sch))
            | None => None
            end).

(** Every exception a computation can raise satisfies [P]. *)
Definition raises {A : Type} (P : exn -> Prop) (m : M A) : Prop :=
  forall w e, outcome (m w) = inl e -> P e.

(** ** A small run *)

Definition demo_step (m : Dict Value) : Z :=
  match dict_get "module.step" m with
  | Some (VInt k) => k
  | _ => 0%Z
  end.

Definition demo_loaders : Loaders :=
  mkLoaders [mkBatch [1; 2]%Z [0; 1]%Z; mkBatch [3]%Z [1]%Z]
            [mkBatch [4; 5]%Z [0; 1]%Z; mkBatch [6]%Z [1]%Z]
            [mkBatch [7]%Z [0]%Z].

(** The network counts its optimizer steps in the parameter [module.step];
    the validation top-1 is 0.40, 0.55 and 0.50 after 2, 4 and 6 steps. *)
Definition demo_extern : Extern :=
  mkExtern
    (fun _ _ _ _ _ => demo_loaders)
    (fun _ _ => [("module.step", VInt 0)])
    (fun _ _ m b => (Qnat (len_data b),
                     match demo_step m with
                     | 2%Z => 40 # 100
                     | 4%Z => 55 # 100
                     | _ => 50 # 100
                     end,
                     1%Q))
    (fun _ m _ => m)
    (fun _ _ _ _ _ => [])
    (fun g _ => g)
    (fun o m _ => (o, dict_set "module.step" (VInt (demo_step m + 1)) m))
    (fun s _ o => (s, o))
    (fun _ _ _ _ _ => inr (VInt 0))
    (fun v => v)
    (fun _ _ => inr (VInt 0))
    (fun _ st => st)
    (fun o _ => o)
    (fun s _ => s)
    (fun _ => inr 0%Q)
    (fun t => (t + 1)%Z)
    (fun t => inr t)
    (fun t => inr t)
    (fun t => inr (inject_Z t)).

(** The same collaborators, but backpropagation leaves the gradient 8
    on the parameter [w], and clipping caps it at [max_norm]; the norm
    of the gradients is their entry for [w]. *)
Definition demo_norm (g : Dict Value) : Q :=
  match dict_get "w" g with
  | Some (VFloat x) => x
  | _ => 0
  end.

Definition demo_clip (g : Dict Value) (c : Q) : Dict Value :=
  match dict_get "w" g with
  | Some (VFloat x) => [("w", VFloat (if Qltb c x then c else x))]
  | _ => []
  end.

Definition clip_extern : Extern :=
  mkExtern
    (get_dataloaders demo_extern) (get_model demo_extern) (forward demo_extern)
    (forward_state demo_extern)
    (fun _ _ _ _ _ => [("w", VFloat 8)])
    demo_clip
    (optimizer_step demo_extern) (scheduler_step demo_extern)
    (sgd_init demo_extern) (lars_wrap demo_extern) (scheduler_init demo_extern)
    (model_load_state_dict demo_extern) (optimizer_load_state_dict demo_extern)
    (scheduler_load_state_dict demo_extern) (metric_missing demo_extern)
    (tensor_succ demo_extern) (tensor_index demo_extern) (tensor_int demo_extern)
    (tensor_scalar demo_extern).

Definition demo_optimizer_conf : OptimizerConf :=
  mkOptimizerConf (Some "sgd") None (Some (1 # 1000)) (Some true) None None None.

(** Three epochs, no [lr_schedule.type], no [optimizer.clip]. *)
Definition demo_config : Config :=
  mkConfig (Some "cifar10") (Some 2%Z) (Some 3%Z) (Some "wresnet") (Some (1 # 10))
           (Some demo_optimizer_conf) (Some (mkLrScheduleConf None None)).

Definition demo_world : World :=
  mkWorld [] None (mkOptimizer false 0 0 0 false (VInt 0))
          (mkScheduler ResnetSchedule (VInt 0)) [] true [].

(** The fractional epoch position handed to a per-batch scheduler after
    batch number [b] of [total]. *)
Definition position (epoch : Z) (total : nat) (b : nat) : Q :=
  (inject_Z (epoch - 1) + Qnat b / Qnat total)%Q.

(** Whether [run_epoch] gets past its progress-bar set-up: with [verbose]
    the description reads [C.get()['epoch']]. *)
Definition enters (C : Config) (verbose : bool) : bool :=
  match verbose, conf_epoch C with
  | true, None => false
  | _, _ => true
  end.

(** The gradient calls of one training batch in which [loss.backward()]
    leaves the gradients [g]: under a positive clip threshold [t] the
    optimizer steps on what [clip_grad_norm_] makes of [g], otherwise on
    [g] itself. *)
Definition clipped_step (T : Extern) (t : Q) (g : Dict Value) : list Event :=
  [EvBackward g; EvClipGradNorm t; EvOptimizerStep (Some (clip_grad_norm T g t))].

Definition unclipped_step (g : Dict Value) : list Event :=
  [EvBackward g; EvOptimizerStep (Some g)].

(** The gradient calls of one training batch under the threshold [t]. *)
Definition grad_step (T : Extern) (t : Q) (g : Dict Value) : list Event :=
  if Qltb 0 t then clipped_step T t g else unclipped_step g.

(** The gradients the optimizer steps on. *)
Definition see_stepped (e : Event) : list (option (Dict Value)) :=
  match e with
  | EvOptimizerStep g => [g]
  | _ => []
  end.

(** The running totals of the three metrics, in the order the loop
    inserts them. *)
Definition totals (a b c : Q) : Accumulator :=
  [("loss", a); ("top1", b); ("top5", c)].

(** The loop's [metrics] holds the totals [a], [b], [c]; before the first
    batch it is empty and they are zero. *)
Definition accumulated (m : Accumulator) (a b c : Q) : Prop :=
  m = totals a b c \/ (m = [] /\ a = 0%Q /\ b = 0%Q /\ c = 0%Q).

(** A key that [build] reads without a default is missing. *)
Definition missing_required_key (C : Config) : Prop :=
  conf_epoch C = None \/ conf_dataset C = None \/ conf_batch C = None \/
  conf_model C = None \/ conf_lr C = None \/
  conf_optimizer C = None \/ conf_lr_schedule C = None \/
  (exists opt, conf_optimizer C = Some opt /\
               (optimizer_type opt = None \/ optimizer_decay opt = None \/
                optimizer_nesterov opt = None)) \/
  (exists sch wu, conf_lr_schedule C = Some sch /\
                  lr_schedule_warmup sch = Some wu /\
                  ((warmup_multiplier wu = None /\ warmup_epoch wu <> None) \/
                   (warmup_multiplier wu <> None /\ warmup_epoch wu = None))).

(** The demo configuration with [optimizer.type = "adam"]. *)
Definition adam_config : Config :=
  mkConfig (Some "cifar10") (Some 2%Z) (Some 3%Z) (Some "wresnet") (Some (1 # 10))
           (Some (mkOptimizerConf (Some "adam") None (Some (1 # 1000)) (Some true)
                                  None None None))
           (Some (mkLrScheduleConf None None)).

(** The number a stored best value stands for, if it is one. *)
Definition value_num (T : Extern) (v : Value) : option Q :=
  match v with
  | VInt n => Some (inject_Z n)
  | VFloat x => Some x
  | VTensor t =>
      match tensor_scalar T t with
      | inr x => Some x
      | inl _ => None
      end
  | VDict _ => None
  end.

(** The validation value [v] strictly exceeds the best seen so far, or
    there is no best yet. *)
Definition improves (T : Extern) (result : Dict Value) (v : Q) : Prop :=
  match dict_get "best_valid" result with
  | None => True
  | Some best =>
      match value_num T best with
      | Some b => (b < v)%Q
      | None => False
      end
  end.

(** The tracked best, when there is one, is a number. *)
Definition best_comparable (T : Extern) (result : Dict Value) : Prop :=
  match dict_get "best_valid" result with
  | None => True
  | Some best => value_num T best <> None
  end.

(** The record [torch.save] is given at [epoch] with target value [v]. *)
Definition checkpoint_of (metric : string) (epoch : Z) (v : Q) (w : World)
  : Dict Value :=
  dict_set "scheduler" (sched_state (w_scheduler w))
    (dict_set "optimizer" (opt_state (w_optimizer w))
       (dict_set "model" (VDict (w_model w))
          (dict_set metric (VFloat v)
             (dict_set "epoch" (VInt epoch) [])))).

(** A bare model state, and the same state wrapped with metadata of
    epoch 10. *)
Definition demo_state : Dict Value :=
  [("conv.weight", VTensor 1); ("module.fc.bias", VTensor 2)].

Definition demo_wrapped : Dict Value :=
  [("epoch", VInt 10); ("top1", VFloat (1 # 2)); ("model", VDict demo_state);
   ("optimizer", VInt 0); ("scheduler", VInt 0)].

Definition world_with_file (data : Dict Value) : World :=
  mkWorld [] None (mkOptimizer false 0 0 0 false (VInt 0))
          (mkScheduler ResnetSchedule (VInt 0)) [("ckpt.pth", data)] true [].

(** What [torch.load(save_path)] yields when [resume] loads at all. *)
Definition checkpoint_at (save_path : option string) (fs : Dict (Dict Value))
  : option (Dict Value) :=
  if truthy save_path then dict_get (get_default save_path "") fs else None.

(** The training passes of a run are those of the epochs [start],
    [start + 1], ... in order; a run that returns has made all of them up
    to [max]. *)
Definition starts_at {A : Type} (r : Run A) (start max : Z) : Prop :=
  (exists n, proj see_train_epoch (trace r) = firstn n (range start (max + 1))) /\
  (forall a, outcome r = inr a ->
             proj see_train_epoch (trace r) = range start (max + 1)).

(** Whether [run_epoch] reads [C.get()['epoch']]: a verbose pass does
    for its progress bar, and every pass does for its log line when
    [TASK_NAME] is set. *)
Definition reads_epoch (TASK_NAME : string) (verbose : bool) : bool :=
  verbose || negb (String.eqb TASK_NAME "").

(** The gate of the test pass. *)
Definition near_end (max epoch : Z) : bool := (max - epoch <=? 5)%Z.

(** What [build] leaves for the demo configuration without a tag. *)
Definition demo_built : Built :=
  mkBuilt 3 demo_loaders CrossEntropyLoss
          [SummaryWriterDummy; SummaryWriterDummy; SummaryWriterDummy].

(** The demo configuration with eight epochs. *)
Definition long_config : Config :=
  mkConfig (Some "cifar10") (Some 2%Z) (Some 8%Z) (Some "wresnet") (Some (1 # 10))
           (Some demo_optimizer_conf) (Some (mkLrScheduleConf None None)).

(** A checkpoint written after epoch 1. *)
Definition demo_checkpoint1 : Dict Value :=
  [("epoch", VInt 1); ("top1", VFloat (4 # 10));
   ("model", VDict [("module.step", VInt 2)]);
   ("optimizer", VInt 0); ("scheduler", VInt 0)].

(** ** What a checkpoint restores *)

(** The model state a checkpoint holds: its entry ["model"], else its
    entry ["state_dict"], else the checkpoint itself (the bare form);
    none when that entry is not a mapping. *)
Definition checkpoint_state (data : Dict Value) : option (Dict Value) :=
  match dict_get "model" data with
  | Some (VDict state) => Some state
  | Some _ => None
  | None =>
      match dict_get "state_dict" data with
      | Some (VDict state) => Some state
      | Some _ => None
      | None => Some data
      end
  end.

(** The tracked best value a checkpoint holds under the name of the
    target metric; the bare form holds none. *)
Definition checkpoint_best (metric : string) (data : Dict Value) : Dict Value :=
  if dict_mem "model" data || dict_mem "state_dict" data
  then match dict_get metric data with
       | Some best => [("best_valid", best)]
       | None => []
       end
  else [].

(** The world once the checkpoint [data], of model state [state], is
    restored: the model has loaded the state under its normalised keys,
    the optimizer and the scheduler their states when the checkpoint
    holds them. *)
Definition restored (T : Extern) (data state : Dict Value) (w : World) : World :=
  let w1 := with_model (model_load_state_dict T (w_model w) (module_keys state)) w in
  let w2 := match dict_get "optimizer" data with
            | Some st =>
                with_optimizer (optimizer_load_state_dict T (w_optimizer w1) st) w1
            | None => w1
            end in
  match dict_get "scheduler" data with
  | Some st => with_scheduler (scheduler_load_state_dict T (w_scheduler w2) st) w2
  | None => w2
  end.

(** The loads that restore it, in order. *)
Definition restore_events (data state : Dict Value) : list Event :=
  EvLoadStateDict (module_keys state) ::
  match dict_get "optimizer" data with
  | Some st => [EvOptimizerLoad st]
  | None => []
  end ++
  match dict_get "scheduler" data with
  | Some st => [EvSchedulerLoad st]
  | None => []
  end.

(** The run [r] continues from the world [w0] with the tracked result
    [result]: after the events [evs] it is the training loop over the
    epochs [start], [start + 1], ..., run from [w0]. *)
Definition continues_from (T : Extern) (C : Config) (TASK_NAME : string)
           (b : Built) (metric : string) (save_path : option string)
           (r : Run Ret) (evs : list Event) (start : Z) (result : Dict Value)
           (w0 : World) : Prop :=
  let loop := for_each (epoch_body T C TASK_NAME b metric save_path)
                       (range start (max_epoch b + 1)) result w0 in
  trace r = evs ++ trace loop /\
  final r = final loop /\
  outcome r = match outcome loop with
              | inr res => inr (RetResult res)
              | inl e => inl e
              end.

(** ** Further observers *)

(** Everything that changes the model, the gradients, the optimizer or
    the scheduler. *)
Definition see_update (e : Event) : list Event :=
  match e with
  | EvZeroGrad | EvBackward _ | EvClipGradNorm _ | EvOptimizerStep _
  | EvSchedulerStep _ | EvLoadStateDict _ | EvOptimizerLoad _
  | EvSchedulerLoad _ => [e]
  | _ => []
  end.

(** The scalars sent to a tensorboard writer. *)
Definition see_scalar (e : Event) : list (string * string * Q * Z) :=
  match e with
  | EvAddScalar log_dir key value epoch => [(log_dir, key, value, epoch)]
  | _ => []
  end.

(** The validation metrics handed to the reporter. *)
Definition see_valid (e : Event) : list Accumulator :=
  match e with
  | EvReport _ _ valid _ => [valid]
  | _ => []
  end.

(** The tracked best value, as a number. *)
Definition best_of (T : Extern) (result : Dict Value) : option Q :=
  match dict_get "best_valid" result with
  | Some best => value_num T best
  | None => None
  end.

(** The checkpoints written anywhere but at [path]. *)
Definition see_save_elsewhere (path : string) (e : Event) : list string :=
  match e with
  | EvSave p _ => if String.eqb p path then [] else [p]
  | _ => []
  end.

(** What [resume] restores. *)
Definition see_restore (e : Event) : list Event :=
  match e with
  | EvLoadStateDict _ | EvOptimizerLoad _ | EvSchedulerLoad _ => [e]
  | _ => []
  end.

(** The steps of an iteration of the training loop: passes, checkpoint
    writes, the report and the scheduler step. *)
Definition see_step (e : Event) : list Event :=
  match e with
  | EvRunEpoch _ _ _ | EvSave _ _ | EvReport _ _ _ _ | EvSchedulerStep _ => [e]
  | _ => []
  end.

(** ** The entry point *)

(** [os.path.basename(p)]: what follows the last slash. *)
Fixpoint basename (p : string) : string :=
  match p with
  | EmptyString => EmptyString
  | String c rest =>
      if str_contains "/" rest then basename rest
      else if Ascii.eqb c "/"%char then rest
      else p
  end.

(** [s.split('.')[0]]: what precedes the first dot. *)
Fixpoint before_dot (s : string) : string :=
  match s with
  | EmptyString => EmptyString
  | String c rest =>
      if Ascii.eqb c "."%char then EmptyString else String c (before_dot rest)
  end.

(** Lines 220-228.  [conf] is [args.conf]; [load p] is the configuration
    that [C.get().load(p)] installs and [C0] the one in place without
    it.  The arguments of the call are evaluated first, and
    [os.path.basename(None)] raises. *)
Definition main (T : Extern) (C0 : Config) (load : string -> Config)
           (TASK_NAME : string) (conf : option string) : M Ret :=
  let C := if truthy conf then load (get_default conf "") else C0 in
  match conf with
  | None =>
      raise (TypeError "expected str, bytes or os.PathLike object, not NoneType")
  | Some p =>
      train_and_eval T C TASK_NAME (Some (before_dot (basename p))) "./data"
                     0 0 "last" None false
  end.

(** No character of [s] is [c]. *)
Fixpoint without (c : Ascii.ascii) (s : string) : Prop :=
  match s with
  | EmptyString => True
  | String x rest => x <> c /\ without c rest
  end.

(** * Proofs *)

(** ** Dicts *)

Lemma dict_get_set_same {V : Type} (k : string) (v : V) (d : Dict V) :
  dict_get k (dict_set k v d) = Some v.
Proof.
  induction d as [| [k1 v1] d IH]; simpl.
  - rewrite String.eqb_refl. reflexivity.
  - destruct (String.eqb k k1) eqn:E; simpl.
    + rewrite String.eqb_refl. reflexivity.
    + rewrite E. exact IH.
Qed.

Lemma dict_get_set_other {V : Type} (k k' : string) (v : V) (d : Dict V) :
  String.eqb k k' = false ->
  dict_get k (dict_set k' v d) = dict_get k d.
Proof.
  intros H. induction d as [| [k1 v1] d IH]; simpl.
  - rewrite H. reflexivity.
  - destruct (String.eqb k' k1) eqn:E; simpl.
    + apply String.eqb_eq in E. subst k1. rewrite H. reflexivity.
    + destruct (String.eqb k k1); [reflexivity | exact IH].
Qed.

(** ** The monad *)

Section MonadFacts.

Context {A B : Type}.

Lemma bind_ok (m : M A) (k : A -> M B) (w : World) (a : A) :
  outcome (m w) = inr a ->
  bind m k w = mkRun (trace (m w) ++ trace (k a (final (m w))))
                     (final (k a (final (m w))))
                     (outcome (k a (final (m w)))).
Proof.
  unfold bind. destruct (m w) as [t w1 o]. simpl. intros ->.
  destruct (k a w1); reflexivity.
Qed.

Lemma bind_err (m : M A) (k : A -> M B) (w : World) (e : exn) :
  outcome (m w) = inl e ->
  bind m k w = mkRun (trace (m w)) (final (m w)) (inl e).
Proof.
  unfold bind. destruct (m w) as [t w1 o]. simpl. intros ->. reflexivity.
Qed.

Lemma bind_inr_inv (m : M A) (k : A -> M B) (w : World) (b : B) :
  outcome (bind m k w) = inr b ->
  exists a, outcome (m w) = inr a /\ outcome (k a (final (m w))) = inr b.
Proof.
  unfold bind. destruct (m w) as [t w1 [e | a]]; simpl.
  - discriminate.
  - intros H. exists a. split; [reflexivity |].
    destruct (k a w1); exact H.
Qed.

Lemma proj_bind {X : Type} (f : Event -> list X) (m : M A) (k : A -> M B)
      (w : World) :
  proj f (trace (bind m k w)) =
  proj f (trace (m w)) ++
  match outcome (m w) with
  | inr a => proj f (trace (k a (final (m w))))
  | inl _ => []
  end.
Proof.
  unfold bind, proj. destruct (m w) as [t w1 [e | a]]; simpl.
  - symmetry. apply app_nil_r.
  - destruct (k a w1); simpl. apply flat_map_app.
Qed.

Lemma final_bind (m : M A) (k : A -> M B) (w : World) :
  final (bind m k w) =
  match outcome (m w) with
  | inr a => final (k a (final (m w)))
  | inl _ => final (m w)
  end.
Proof.
  unfold bind. destruct (m w) as [t w1 [e | a]]; simpl; [reflexivity |].
  destruct (k a w1); reflexivity.
Qed.

Lemma quiet_bind {X : Type} (f : Event -> list X) (m : M A) (k : A -> M B) :
  quiet f m -> (forall a, quiet f (k a)) -> quiet f (bind m k).
Proof.
  intros Hm Hk w. rewrite proj_bind, Hm.
  destruct (outcome (m w)); [reflexivity | apply Hk].
Qed.

Lemma keeps_bind {Y : Type} (g : World -> Y) (m : M A) (k : A -> M B) :
  keeps g m -> (forall a, keeps g (k a)) -> keeps g (bind m k).
Proof.
  intros Hm Hk w. rewrite final_bind.
  destruct (outcome (m w)); [apply Hm | rewrite Hk; apply Hm].
Qed.

End MonadFacts.

Section QuietFacts.

Context {X : Type} (f : Event -> list X).

Lemma quiet_ret {A : Type} (a : A) : quiet f (ret a).
Proof. intros w. reflexivity. Qed.

Lemma quiet_raise {A : Type} (e : exn) : quiet f (@raise A e).
Proof. intros w. reflexivity. Qed.

Lemma quiet_lift {A : Type} (x : exn + A) : quiet f (lift x).
Proof. destruct x; intros w; reflexivity. Qed.

Lemma quiet_get_world : quiet f get_world.
Proof. intros w. reflexivity. Qed.

Lemma quiet_put_world (w' : World) : quiet f (put_world w').
Proof. intros w. reflexivity. Qed.

Lemma quiet_emit (e : Event) : f e = [] -> quiet f (emit e).
Proof. intros H w. unfold proj. simpl. rewrite H. reflexivity. Qed.

Lemma quiet_when (c : bool) (body : M unit) :
  quiet f body -> quiet f (when c body).
Proof. intros H. destruct c; [exact H | apply quiet_ret]. Qed.

Lemma quiet_map_m {A B : Type} (g : A -> M B) (l : list A) :
  (forall a, quiet f (g a)) -> quiet f (map_m g l).
Proof.
  intros H. induction l as [| a l IH]; simpl.
  - apply quiet_ret.
  - apply quiet_bind; [apply H | intros b].
    apply quiet_bind; [exact IH | intros bs]. apply quiet_ret.
Qed.

Lemma quiet_for_each {A S : Type} (g : A -> S -> M S) (l : list A) :
  (forall a s, quiet f (g a s)) -> forall s, quiet f (for_each g l s).
Proof.
  intros Hg. induction l as [| a l IH]; intros s; simpl.
  - apply quiet_ret.
  - apply quiet_bind; [apply Hg | exact IH].
Qed.

End QuietFacts.

Section KeepsFacts.

Context {Y : Type} (g : World -> Y).

Lemma keeps_ret {A : Type} (a : A) : keeps g (ret a).
Proof. intros w. reflexivity. Qed.

Lemma keeps_raise {A : Type} (e : exn) : keeps g (@raise A e).
Proof. intros w. reflexivity. Qed.

Lemma keeps_lift {A : Type} (x : exn + A) : keeps g (lift x).
Proof. destruct x; intros w; reflexivity. Qed.

Lemma keeps_get_world : keeps g get_world.
Proof. intros w. reflexivity. Qed.

Lemma keeps_emit (e : Event) : keeps g (emit e).
Proof. intros w. reflexivity. Qed.

Lemma keeps_when (c : bool) (body : M unit) :
  keeps g body -> keeps g (when c body).
Proof. intros H. destruct c; [exact H | apply keeps_ret]. Qed.

Lemma keeps_map_m {A B : Type} (h : A -> M B) (l : list A) :
  (forall a, keeps g (h a)) -> keeps g (map_m h l).
Proof.
  intros H. induction l as [| a l IH]; simpl.
  - apply keeps_ret.
  - apply keeps_bind; [apply H | intros b].
    apply keeps_bind; [exact IH | intros bs]. apply keeps_ret.
Qed.

Lemma keeps_for_each {A S : Type} (h : A -> S -> M S) (l : list A) :
  (forall a s, keeps g (h a s)) -> forall s, keeps g (for_each h l s).
Proof.
  intros Hh. induction l as [| a l IH]; intros s; simpl.
  - apply keeps_ret.
  - apply keeps_bind; [apply Hh | exact IH].
Qed.

End KeepsFacts.

Create HintDb quiet.
#[local] Hint Resolve quiet_ret quiet_raise quiet_lift quiet_get_world
  quiet_put_world quiet_when : quiet.
#[local] Hint Resolve keeps_ret keeps_raise keeps_lift
  keeps_get_world keeps_emit keeps_when : quiet.

(** Peels binds, branches and loops off a [quiet] or [keeps] goal. *)
Ltac quiet_step :=
  match goal with
  | |- quiet _ (bind _ _) => apply quiet_bind; [| intros ?]
  | |- keeps _ (bind _ _) => apply keeps_bind; [| intros ?]
  | |- quiet _ (when _ _) => apply quiet_when
  | |- keeps _ (when _ _) => apply keeps_when
  | |- quiet _ (for_each _ _ _) => apply quiet_for_each; intros ? ?
  | |- keeps _ (for_each _ _ _) => apply keeps_for_each; intros ? ?
  | |- quiet _ (map_m _ _) => apply quiet_map_m; intros ?
  | |- keeps _ (map_m _ _) => apply keeps_map_m; intros ?
  | |- quiet _ (emit _) => apply quiet_emit; solve [reflexivity | auto]
  | |- quiet _ (if ?c then _ else _) => destruct c
  | |- keeps _ (if ?c then _ else _) => destruct c
  | |- quiet _ (match ?c with _ => _ end) => destruct c
  | |- keeps _ (match ?c with _ => _ end) => destruct c
  | |- _ => solve [auto with quiet]
  end.

Ltac quiet_tac := repeat quiet_step.

(** ** What a pass emits and touches *)

Section PassFacts.

Variable T : Extern.
Variable C : Config.
Variable TASK_NAME : string.

Lemma keeps_fs_zero_grad : keeps w_fs zero_grad.
Proof. intros w. reflexivity. Qed.

Lemma keeps_fs_model_forward loss_fn b : keeps w_fs (model_forward T loss_fn b).
Proof. intros w. reflexivity. Qed.

Lemma keeps_fs_loss_backward loss_fn tr m0 b :
  keeps w_fs (loss_backward T loss_fn tr m0 b).
Proof. intros w. reflexivity. Qed.

Lemma keeps_fs_model_train : keeps w_fs model_train.
Proof. intros w. reflexivity. Qed.

Lemma keeps_fs_model_eval : keeps w_fs model_eval.
Proof. intros w. reflexivity. Qed.

Lemma keeps_fs_clip_grad_norm_ c : keeps w_fs (clip_grad_norm_ T c).
Proof. intros w. reflexivity. Qed.

Lemma keeps_fs_optimizer_do_step : keeps w_fs (optimizer_do_step T).
Proof. intros w. reflexivity. Qed.

Lemma keeps_fs_scheduler_do_step x : keeps w_fs (scheduler_do_step T x).
Proof. intros w. reflexivity. Qed.

Lemma keeps_fs_add_scalar writer key value epoch :
  keeps w_fs (add_scalar writer key value epoch).
Proof. destruct writer as [[| d] |]; intros w; reflexivity. Qed.

Lemma keeps_fs_set_model m : keeps w_fs (set_model m).
Proof. intros w. reflexivity. Qed.

Lemma keeps_fs_set_optimizer o : keeps w_fs (set_optimizer o).
Proof. intros w. reflexivity. Qed.

Lemma keeps_fs_set_scheduler s : keeps w_fs (set_scheduler s).
Proof. intros w. reflexivity. Qed.

Lemma keeps_fs_new_scheduler k : keeps w_fs (new_scheduler T k).
Proof.
  intros w. unfold new_scheduler, set_scheduler, bind, lift, get_world. simpl.
  destruct (constructed (scheduler_init T k (w_optimizer w))); reflexivity.
Qed.

Lemma keeps_fs_load_state_dict st : keeps w_fs (load_state_dict T st).
Proof. intros w. reflexivity. Qed.

Hint Resolve keeps_fs_zero_grad keeps_fs_model_forward keeps_fs_loss_backward
  keeps_fs_clip_grad_norm_ keeps_fs_optimizer_do_step
  keeps_fs_scheduler_do_step keeps_fs_add_scalar keeps_fs_set_model
  keeps_fs_set_optimizer keeps_fs_set_scheduler keeps_fs_new_scheduler
  keeps_fs_load_state_dict keeps_fs_model_train keeps_fs_model_eval : quiet.

Lemma keeps_fs_batch_body loss_fn optimizer epoch verbose scheduler total b st :
  keeps w_fs (batch_body T C loss_fn optimizer epoch verbose scheduler total b st).
Proof. unfold batch_body. quiet_tac. Qed.

Lemma keeps_fs_add_scalars writer items epoch :
  keeps w_fs (add_scalars writer items epoch).
Proof.
  induction items as [| [key value] rest IH]; simpl; quiet_tac.
Qed.

Hint Resolve keeps_fs_batch_body keeps_fs_add_scalars : quiet.

Lemma keeps_fs_run_epoch loader loss_fn optimizer desc epoch writer verbose
      scheduler :
  keeps w_fs (run_epoch T C TASK_NAME loader loss_fn optimizer desc epoch
                      writer verbose scheduler).
Proof. unfold run_epoch, epoch_end. quiet_tac. Qed.

Section Above.

Context {X : Type} (f : Event -> list X).
Hypothesis Hf : above_batches f.

Lemma quiet_zero_grad : quiet f zero_grad.
Proof. intros w. unfold proj. simpl. rewrite Hf; reflexivity. Qed.

Lemma quiet_model_forward loss_fn b : quiet f (model_forward T loss_fn b).
Proof. intros w. unfold proj. simpl. rewrite Hf; reflexivity. Qed.

Lemma quiet_loss_backward loss_fn tr m0 b :
  quiet f (loss_backward T loss_fn tr m0 b).
Proof. intros w. unfold proj. simpl. rewrite Hf; reflexivity. Qed.

Lemma quiet_clip_grad_norm_ c : quiet f (clip_grad_norm_ T c).
Proof. intros w. unfold proj. simpl. rewrite Hf; reflexivity. Qed.

Lemma quiet_optimizer_do_step : quiet f (optimizer_do_step T).
Proof. intros w. unfold proj. simpl. rewrite Hf; reflexivity. Qed.

Lemma quiet_scheduler_do_step x : quiet f (scheduler_do_step T x).
Proof. intros w. unfold proj. simpl. rewrite Hf; reflexivity. Qed.

Lemma quiet_add_scalar writer key value epoch :
  quiet f (add_scalar writer key value epoch).
Proof.
  destruct writer as [[| d] |]; intros w; unfold proj; simpl;
    try rewrite Hf; reflexivity.
Qed.

Hint Resolve quiet_zero_grad quiet_model_forward quiet_loss_backward
  quiet_clip_grad_norm_ quiet_optimizer_do_step quiet_scheduler_do_step
  quiet_add_scalar : quiet.

Lemma quiet_batch_body loss_fn optimizer epoch verbose scheduler total b st :
  quiet f (batch_body T C loss_fn optimizer epoch verbose scheduler total b st).
Proof. unfold batch_body. quiet_tac. Qed.

Lemma quiet_add_scalars writer items epoch :
  quiet f (add_scalars writer items epoch).
Proof.
  induction items as [| [key value] rest IH]; simpl; quiet_tac.
Qed.

Hint Resolve quiet_batch_body quiet_add_scalars : quiet.

(** Seen from above the batches, a pass is its entry marker. *)
Lemma proj_run_epoch loader loss_fn optimizer desc epoch writer verbose
      scheduler w :
  proj f (trace (run_epoch T C TASK_NAME loader loss_fn optimizer desc epoch
                           writer verbose scheduler w)) =
  f (EvRunEpoch desc epoch optimizer).
Proof.
  unfold run_epoch, epoch_end. rewrite proj_bind. simpl.
  rewrite !app_nil_r.
  match goal with
  | |- _ ++ proj f (trace (?m _)) = _ =>
      assert (Hq : quiet f m) by quiet_tac
  end.
  rewrite Hq. apply app_nil_r.
Qed.

End Above.

End PassFacts.

#[local] Hint Resolve keeps_fs_model_train keeps_fs_model_eval : quiet.

Arguments Qltb : simpl never.
Arguments acc_truediv : simpl never.
Arguments add_dict : simpl never.
Arguments nth_writer : simpl never.

Ltac unfold_prims :=
  unfold when, zero_grad, model_forward, loss_backward, clip_grad_norm_,
    optimizer_do_step, scheduler_do_step, lift, getitem, bind, get_world,
    put_world, emit, ret, raise in *.

(** ** The pass, batch by batch *)

Section BatchFacts.

Variable T : Extern.
Variable C : Config.
Variable TASK_NAME : string.

Lemma final_when_getitem {A : Type} (c : bool) (key : string) (x : option A) w :
  final (when c (_ <- lift (getitem key x) ;; ret tt) w) = w.
Proof. destruct c; [destruct x |]; reflexivity. Qed.

Lemma keeps_world_add_scalars writer items epoch :
  keeps no_logs (add_scalars writer items epoch).
Proof.
  induction items as [| [k v] rest IH]; simpl; quiet_tac.
  destruct writer as [[| d] |]; intros w; reflexivity.
Qed.

(** The end of a pass changes nothing but the tensorboard logs. *)
Lemma final_epoch_end optimizer epoch writer verbose st w :
  no_logs (final (epoch_end C TASK_NAME optimizer epoch writer verbose st w)) =
  no_logs w.
Proof.
  revert w. change (keeps no_logs
                          (epoch_end C TASK_NAME optimizer epoch writer verbose st)).
  pose proof keeps_world_add_scalars.
  unfold epoch_end. quiet_tac.
Qed.

(** A pass that returns has run its loop to the end and divided what the
    loop accumulated by the sample count. *)
Lemma run_epoch_inr_inv loader loss_fn optimizer desc epoch writer verbose
      scheduler w m :
  outcome (run_epoch T C TASK_NAME loader loss_fn optimizer desc epoch writer
                     verbose scheduler w) = inr m ->
  enters C verbose = true /\
  exists st m0,
    outcome (for_each (batch_body T C loss_fn optimizer epoch verbose scheduler
                                  (List.length loader))
                      loader (Accumulator_new, O, O) w) = inr st /\
    acc_truediv (fst (fst st)) (snd (fst st)) = inr m0 /\
    dict_get "loss" m = dict_get "loss" m0 /\
    dict_get "top1" m = dict_get "top1" m0 /\
    dict_get "top5" m = dict_get "top5" m0.
Proof.
  unfold run_epoch. intros H.
  apply bind_inr_inv in H. destruct H as [[] [_ H]]. simpl in H.
  apply bind_inr_inv in H. destruct H as [[] [Hv H]].
  split.
  { unfold enters. destruct verbose; [| reflexivity].
    destruct (conf_epoch C); [reflexivity | discriminate]. }
  rewrite final_when_getitem in H. clear Hv.
  apply bind_inr_inv in H. destruct H as [st [Hst H]].
  exists st. unfold epoch_end in H.
  apply bind_inr_inv in H. destruct H as [[] [_ H]].
  apply bind_inr_inv in H. destruct H as [m0 [Hm0 H]].
  exists m0.
  destruct (acc_truediv (fst (fst st)) (snd (fst st))) as [e | m0'] eqn:E;
    simpl in Hm0; [discriminate |].
  injection Hm0 as ->.
  split; [exact Hst | split; [reflexivity |]].
  apply bind_inr_inv in H. destruct H as [m1 [Hm1 H]].
  apply bind_inr_inv in H. destruct H as [[] [_ H]].
  simpl in H. injection H as <-.
  destruct optimizer; simpl in Hm1; injection Hm1 as <-.
  - rewrite !dict_get_set_other by reflexivity. auto.
  - auto.
Qed.

(** A pass that returns has found the [epoch] key if it has read it. *)
Lemma run_epoch_inr_epoch loader loss_fn optimizer desc epoch writer verbose
      scheduler w m :
  outcome (run_epoch T C TASK_NAME loader loss_fn optimizer desc epoch writer
                     verbose scheduler w) = inr m ->
  reads_epoch TASK_NAME verbose = true -> conf_epoch C <> None.
Proof.
  unfold run_epoch, reads_epoch. intros H Hr He.
  apply bind_inr_inv in H. destruct H as [[] [_ H]]. simpl in H.
  apply bind_inr_inv in H. destruct H as [[] [Hv H]].
  apply bind_inr_inv in H. destruct H as [st [_ H]].
  unfold epoch_end in H.
  apply bind_inr_inv in H. destruct H as [[] [Ht _]].
  rewrite He in Hv, Ht.
  destruct verbose; [discriminate |].
  destruct (negb (String.eqb TASK_NAME "")); discriminate.
Qed.

Section Scalars.

Context {X : Type} (f : Event -> list X).
Hypothesis Hs : forall d k v e, f (EvAddScalar d k v e) = [].

Lemma quiet_epoch_end optimizer epoch writer verbose st :
  quiet f (epoch_end C TASK_NAME optimizer epoch writer verbose st).
Proof.
  assert (Ha : forall items, quiet f (add_scalars writer items epoch)).
  { induction items as [| [key value] rest IH]; simpl; quiet_tac.
    destruct writer as [[| d] |]; simpl; auto with quiet.
    apply quiet_emit. apply Hs. }
  unfold epoch_end. quiet_tac.
Qed.

(** Seen by an observer of the batches, a pass is its entry marker and
    its loop. *)
Lemma proj_run_epoch_batches loader loss_fn optimizer desc epoch writer
      verbose scheduler w :
  proj f (trace (run_epoch T C TASK_NAME loader loss_fn optimizer desc epoch
                           writer verbose scheduler w)) =
  f (EvRunEpoch desc epoch optimizer) ++
  (if enters C verbose
   then proj f (trace (for_each (batch_body T C loss_fn optimizer epoch verbose
                                            scheduler (List.length loader))
                                loader (Accumulator_new, O, O) w))
   else []).
Proof.
  unfold run_epoch. rewrite proj_bind. simpl. rewrite app_nil_r. f_equal.
  rewrite proj_bind. unfold enters.
  destruct verbose; [destruct (conf_epoch C) |]; simpl; try reflexivity;
    rewrite proj_bind;
    match goal with
    | |- _ ++ match ?o with _ => _ end = _ => destruct o
    end;
    try rewrite quiet_epoch_end; apply app_nil_r.
Qed.

End Scalars.

End BatchFacts.

Lemma Qltb_lt (x y : Q) : Qltb x y = true <-> (x < y)%Q.
Proof.
  unfold Qltb. rewrite Qlt_alt.
  destruct (x ?= y)%Q; split; intros H; try reflexivity; discriminate.
Qed.

Lemma Qltb_ge (x y : Q) : Qltb x y = false <-> (y <= x)%Q.
Proof.
  split; intros H.
  - apply Qnot_lt_le. intros Hlt. apply Qltb_lt in Hlt. congruence.
  - destruct (Qltb x y) eqn:E; [| reflexivity].
    apply Qltb_lt in E. exfalso. exact (Qle_not_lt _ _ H E).
Qed.

(** An observer of what another observer keeps sees the same. *)
Lemma proj_proj {X : Type} (f : Event -> list X) (g : Event -> list Event)
      (tr : list Event) :
  (forall e, proj f (g e) = f e) ->
  proj f tr = proj f (proj g tr).
Proof.
  intros H. unfold proj in *. induction tr as [| e tr IH]; simpl; [reflexivity |].
  rewrite flat_map_app, <- IH, H. reflexivity.
Qed.

Section LoopFacts.

Variable T : Extern.
Variable C : Config.
Variable TASK_NAME : string.

(** *** The per-batch scheduler *)

Lemma batch_body_scheduler loss_fn optimizer epoch verbose total b st w :
  let r := batch_body T C loss_fn optimizer epoch verbose true total b st w in
  match outcome r with
  | inr st' => proj see_scheduler (trace r) = [position epoch total (S (snd st))]
               /\ snd st' = S (snd st)
  | inl _ => proj see_scheduler (trace r) = []
  end.
Proof.
  unfold batch_body. unfold_prims.
  destruct optimizer, verbose, (conf_optimizer C) as [opt |]; simpl;
    repeat match goal with
    | |- context [Qltb ?a ?b] => destruct (Qltb a b); simpl
    | |- context [acc_truediv ?a ?b] => destruct (acc_truediv a b); simpl
    end; auto.
Qed.

Lemma batches_scheduler loss_fn optimizer epoch verbose total l :
  forall st w,
    let r := for_each (batch_body T C loss_fn optimizer epoch verbose true total)
                      l st w in
    exists k, (k <= List.length l)%nat /\
      proj see_scheduler (trace r) =
        map (position epoch total) (seq (S (snd st)) k) /\
      (forall st', outcome r = inr st' -> k = List.length l).
Proof.
  induction l as [| b l IH]; intros st w; simpl.
  - exists O. repeat split; auto.
  - pose proof (batch_body_scheduler loss_fn optimizer epoch verbose total b st w)
      as Hb. simpl in Hb.
    rewrite proj_bind.
    destruct (outcome (batch_body T C loss_fn optimizer epoch verbose true total b st w))
      as [e | st1] eqn:E.
    + exists O. rewrite Hb. split; [lia |]. split; [reflexivity |].
      intros st' H. rewrite (bind_err _ _ _ _ E) in H. discriminate.
    + destruct Hb as [Hb Hs].
      destruct (IH st1 (final (batch_body T C loss_fn optimizer epoch verbose true
                                          total b st w)))
        as [k [Hk [Htr Hok]]].
      exists (S k). rewrite Hb, Htr, Hs. simpl.
      split; [lia |]. split; [reflexivity |].
      intros st' H. rewrite (bind_ok _ _ _ _ E) in H. simpl in H.
      f_equal. eapply Hok. exact H.
Qed.

(** *** Gradient clipping *)

(** A training batch backpropagates from the cleared gradients, and the
    optimizer steps on what the clipping, if any, leaves. *)
Lemma batch_body_grad loss_fn epoch verbose scheduler total b st w opt :
  conf_optimizer C = Some opt ->
  proj see_grad
       (trace (batch_body T C loss_fn true epoch verbose scheduler total b st w)) =
  grad_step T (get_default (optimizer_clip opt) 5)
            (backward T loss_fn (w_training w) (w_model w) b None).
Proof.
  intros Hc. unfold grad_step, batch_body. unfold_prims. rewrite Hc.
  destruct verbose, scheduler; simpl;
    repeat match goal with
    | |- context [Qltb ?a ?b] => destruct (Qltb a b); simpl
    | |- context [acc_truediv ?a ?b] => destruct (acc_truediv a b); simpl
    end; reflexivity.
Qed.

Lemma batches_grad loss_fn epoch verbose scheduler total opt l :
  conf_optimizer C = Some opt ->
  forall st w,
    let r := for_each (batch_body T C loss_fn true epoch verbose scheduler total)
                      l st w in
    exists gs, (List.length gs <= List.length l)%nat /\
      proj see_grad (trace r) =
        flat_map (grad_step T (get_default (optimizer_clip opt) 5)) gs /\
      (forall st', outcome r = inr st' -> List.length gs = List.length l).
Proof.
  intros Hc. induction l as [| b l IH]; intros st w; simpl.
  - exists []. repeat split; auto.
  - rewrite proj_bind, (batch_body_grad _ _ _ _ _ _ _ _ _ Hc).
    destruct (outcome (batch_body T C loss_fn true epoch verbose scheduler total b st w))
      as [e | st1] eqn:E.
    + exists [backward T loss_fn (w_training w) (w_model w) b None].
      simpl. rewrite !app_nil_r.
      split; [lia |]. split; [reflexivity |].
      intros st' H. rewrite (bind_err _ _ _ _ E) in H. discriminate.
    + destruct (IH st1 (final (batch_body T C loss_fn true epoch verbose scheduler
                                          total b st w)))
        as [gs [Hk [Htr Hok]]].
      exists (backward T loss_fn (w_training w) (w_model w) b None :: gs).
      rewrite Htr. simpl.
      split; [lia |]. split; [reflexivity |].
      intros st' H. rewrite (bind_ok _ _ _ _ E) in H. simpl in H.
      f_equal. eapply Hok. exact H.
Qed.

Lemma stepped_clipped (norm : Dict Value -> Q) (t : Q) (gs : list (Dict Value)) :
  (forall g c, (0 < c)%Q -> (norm (clip_grad_norm T g c) <= c)%Q) ->
  (0 < t)%Q ->
  Forall (fun s => exists g, s = Some g /\ (norm g <= t)%Q)
         (proj see_stepped (flat_map (clipped_step T t) gs)).
Proof.
  intros Hn Ht. induction gs as [| g gs IH]; simpl; constructor.
  - exists (clip_grad_norm T g t). split; [reflexivity | apply Hn, Ht].
  - exact IH.
Qed.

End LoopFacts.

(** ** Properties of [run_epoch] *)

(** C10: an empty loader leaves the sample count at 0, and the division
    of the accumulated metrics by it fails: [run_epoch] never returns a
    metric mapping for an empty stream.  The failure is the division by
    zero, unless the pass reads [C.get()['epoch']] first (for the
    progress bar of a verbose pass, or for the log line when [TASK_NAME]
    is set) and the key is missing: then it is the [KeyError]. *)
Theorem run_epoch_empty_loader_fails
        T C TASK_NAME loss_fn optimizer desc epoch writer verbose scheduler w :
  let r := run_epoch T C TASK_NAME [] loss_fn optimizer desc epoch writer
                     verbose scheduler w in
  outcome (for_each (batch_body T C loss_fn optimizer epoch verbose scheduler O)
                    [] (Accumulator_new, O, O) w) = inr (Accumulator_new, O, O) /\
  (exists e, outcome r = inl e) /\
  (conf_epoch C <> None \/ reads_epoch TASK_NAME verbose = false ->
   outcome r = inl ZeroDivisionError) /\
  (conf_epoch C = None -> reads_epoch TASK_NAME verbose = true ->
   outcome r = inl (KeyError "epoch")).
Proof.
  unfold run_epoch, epoch_end, reads_epoch.
  destruct verbose, (conf_epoch C), (negb (String.eqb TASK_NAME ""));
    repeat split; try (eexists; reflexivity); try reflexivity;
    try (intros [H | H]; first [reflexivity | discriminate | congruence]);
    intros; first [reflexivity | discriminate].
Qed.

Lemma run_epoch_empty_loader_fails_witness :
  outcome (run_epoch demo_extern demo_config "task" [] CrossEntropyLoss false
                     "valid" 1 (Some SummaryWriterDummy) true false demo_world)
  = inl ZeroDivisionError.
Proof.
  apply (run_epoch_empty_loader_fails demo_extern demo_config "task" CrossEntropyLoss
           false "valid" 1%Z (Some SummaryWriterDummy) true false demo_world).
  left. discriminate.
Defined.

(** C6, as the code has it: with a per-batch scheduler, the scheduler is
    advanced once after each completed batch, batch number [b] of [E] at
    position [epoch - 1 + b / E], where [epoch] is the epoch argument of
    [run_epoch]; a pass that returns has advanced it for all [E] batches. *)
Theorem run_epoch_scheduler_positions
        T C TASK_NAME loader loss_fn optimizer desc epoch writer verbose w :
  let r := run_epoch T C TASK_NAME loader loss_fn optimizer desc epoch writer
                     verbose true w in
  let E := List.length loader in
  exists k, (k <= E)%nat /\
    proj see_scheduler (trace r) =
      map (fun b => (inject_Z (epoch - 1) + Qnat b / Qnat E)%Q) (seq 1 k) /\
    (forall m, outcome r = inr m -> k = E).
Proof.
  simpl.
  rewrite (proj_run_epoch_batches T C TASK_NAME see_scheduler) by reflexivity.
  simpl.
  destruct (batches_scheduler T C loss_fn optimizer epoch verbose
                              (List.length loader) loader (Accumulator_new, O, O) w)
    as [k [Hk [Htr Hok]]].
  destruct (enters C verbose) eqn:En.
  - exists k. repeat split; [exact Hk | exact Htr |].
    intros m Hm. apply run_epoch_inr_inv in Hm.
    destruct Hm as [_ [st [m0 [Hst _]]]]. eapply Hok. exact Hst.
  - exists O. repeat split; [lia |].
    intros m Hm. apply run_epoch_inr_inv in Hm. destruct Hm as [Hm _]. congruence.
Qed.

(** C9: in a training pass, every batch that reaches backpropagation
    has its gradients clipped to the configured threshold, between the
    backward pass and the optimizer step, exactly when the threshold is
    positive: with the gradients [gs] that backpropagation leaves batch
    by batch, the optimizer steps on what [clip_grad_norm_] makes of
    them under that threshold, so on gradients whose norm is at most the
    threshold (for every norm that [clip_grad_norm_] bounds by its
    [max_norm]).  Under a threshold of zero or less it steps on the
    gradients as they are; a missing [clip] key means the threshold 5. *)
Theorem run_epoch_clips_iff_positive
        T C TASK_NAME loader loss_fn desc epoch writer verbose scheduler w opt :
  conf_optimizer C = Some opt ->
  let threshold := get_default (optimizer_clip opt) 5 in
  let r := run_epoch T C TASK_NAME loader loss_fn true desc epoch writer
                     verbose scheduler w in
  exists gs, (List.length gs <= List.length loader)%nat /\
    ((0 < threshold)%Q ->
     proj see_grad (trace r) = flat_map (clipped_step T threshold) gs /\
     forall norm,
       (forall g c, (0 < c)%Q -> (norm (clip_grad_norm T g c) <= c)%Q) ->
       Forall (fun s => exists g, s = Some g /\ (norm g <= threshold)%Q)
              (proj see_stepped (trace r))) /\
    ((threshold <= 0)%Q ->
     proj see_grad (trace r) = flat_map unclipped_step gs /\
     proj see_stepped (trace r) = map Some gs) /\
    (optimizer_clip opt = None ->
     proj see_grad (trace r) = flat_map (clipped_step T 5) gs) /\
    (forall m, outcome r = inr m -> List.length gs = List.length loader).
Proof.
  intros Hc. simpl.
  assert (Hst : proj see_stepped
                     (trace (run_epoch T C TASK_NAME loader loss_fn true desc epoch
                                       writer verbose scheduler w)) =
                proj see_stepped
                     (proj see_grad
                           (trace (run_epoch T C TASK_NAME loader loss_fn true desc
                                             epoch writer verbose scheduler w)))).
  { apply proj_proj. intros [] ; reflexivity. }
  rewrite Hst. clear Hst.
  rewrite (proj_run_epoch_batches T C TASK_NAME see_grad) by reflexivity.
  simpl.
  destruct (batches_grad T C loss_fn epoch verbose scheduler (List.length loader)
                         opt loader Hc (Accumulator_new, O, O) w)
    as [gs [Hk [Htr Hok]]].
  destruct (enters C verbose) eqn:En.
  - exists gs. rewrite Htr. unfold grad_step. split; [exact Hk |].
    split; [| split; [| split]].
    + intros Hpos. pose proof Hpos as Hb. apply Qltb_lt in Hb. rewrite Hb.
      split; [reflexivity |].
      intros norm Hn. apply stepped_clipped; assumption.
    + intros Hle. apply Qltb_ge in Hle. rewrite Hle.
      split; [reflexivity |].
      clear. induction gs as [| g gs IH]; simpl; [reflexivity |].
      f_equal. exact IH.
    + intros Hn. rewrite Hn. reflexivity.
    + intros m Hm. apply run_epoch_inr_inv in Hm.
      destruct Hm as [_ [st [m0 [Hst _]]]]. eapply Hok. exact Hst.
  - exists []. simpl. split; [lia |].
    split; [| split; [| split]].
    + intros _. split; [reflexivity |]. intros norm _. constructor.
    + intros _. split; reflexivity.
    + intros _. reflexivity.
    + intros m Hm. apply run_epoch_inr_inv in Hm. destruct Hm as [Hm _]. congruence.
Qed.

(** ** Weighted averaging *)

Lemma acc_truediv_inr (a : Accumulator) (n : nat) :
  n <> O ->
  acc_truediv a n = inr (map (fun kv => (fst kv, (snd kv / Qnat n)%Q)) a).
Proof.
  intros H. destruct n as [| n]; [congruence | reflexivity].
Qed.

Lemma acc_truediv_inv (a : Accumulator) (n : nat) (m : Accumulator) :
  acc_truediv a n = inr m ->
  n <> O /\ m = map (fun kv => (fst kv, (snd kv / Qnat n)%Q)) a.
Proof.
  destruct n as [| n]; unfold acc_truediv; intros H.
  - discriminate.
  - injection H as <-. split; [discriminate | reflexivity].
Qed.

Lemma add_dict_accumulated (m : Accumulator) (a b c x y z : Q) :
  accumulated m a b c ->
  add_dict [("loss", x); ("top1", y); ("top5", z)] m =
  totals (a + x) (b + y) (c + z).
Proof.
  intros [-> | [-> [-> [-> ->]]]]; reflexivity.
Qed.

Section Averaging.

Variable T : Extern.
Variable C : Config.
Variable TASK_NAME : string.

Lemma batch_body_forward loss_fn optimizer epoch verbose scheduler total b st w :
  let r := batch_body T C loss_fn optimizer epoch verbose scheduler total b st w in
  exists o,
    obs_size o = len_data b /\
    proj see_forward (trace r) = [o] /\
    (forall st', outcome r = inr st' ->
       st' = (add_dict [("loss", obs_loss o * Qnat (len_data b));
                        ("top1", obs_top1 o * Qnat (len_data b));
                        ("top5", obs_top5 o * Qnat (len_data b))]%Q (fst (fst st)),
              (snd (fst st) + len_data b)%nat, S (snd st))) /\
    ((optimizer = true -> conf_optimizer C <> None) ->
     (verbose = true -> (snd (fst st) + len_data b)%nat <> O) ->
     exists st', outcome r = inr st').
Proof.
  exists (mkObservation (len_data b)
                        (fst (fst (forward T loss_fn (w_training w) (w_model w) b)))
                        (snd (fst (forward T loss_fn (w_training w) (w_model w) b)))
                        (snd (forward T loss_fn (w_training w) (w_model w) b))).
  unfold batch_body. unfold_prims.
  destruct optimizer, verbose, scheduler, (conf_optimizer C) as [opt |]; simpl;
    repeat match goal with
    | |- context [Qltb ?a ?b] => destruct (Qltb a b); simpl
    | |- context [acc_truediv ?a ?b] =>
        let E := fresh "E" in destruct (acc_truediv a b) eqn:E; simpl
    end;
    (split; [reflexivity |]); (split; [reflexivity |]);
    (split; [intros st' H; first [discriminate | injection H as <-; reflexivity] |]);
    intros Ho Hv; try (eexists; reflexivity);
    try (exfalso; apply Ho; reflexivity);
    exfalso;
    match goal with
    | E : acc_truediv ?a ?n = inl _ |- _ =>
        rewrite (acc_truediv_inr a n (Hv eq_refl)) in E; discriminate
    end.
Qed.

Lemma batches_totals loss_fn optimizer epoch verbose scheduler total l :
  forall m a b c cnt s w st',
    accumulated m a b c ->
    let r := for_each (batch_body T C loss_fn optimizer epoch verbose scheduler total)
                      l (m, cnt, s) w in
    outcome r = inr st' ->
    let obs := proj see_forward (trace r) in
    map obs_size obs = map len_data l /\
    snd (fst st') = (cnt + sample_count obs)%nat /\
    exists a' b' c',
      accumulated (fst (fst st')) a' b' c' /\
      (m <> [] \/ l <> [] -> fst (fst st') = totals a' b' c') /\
      (a' == a + weighted_total obs_loss obs)%Q /\
      (b' == b + weighted_total obs_top1 obs)%Q /\
      (c' == c + weighted_total obs_top5 obs)%Q.
Proof.
  induction l as [| x l IH]; intros m a b c cnt s w st' Hacc; simpl.
  - intros H. injection H as <-. simpl.
    split; [reflexivity |]. split; [lia |].
    exists a, b, c. split; [exact Hacc |].
    split.
    { intros [Hm | Hl]; [| congruence].
      destruct Hacc as [-> | [-> _]]; [reflexivity | congruence]. }
    repeat split; ring.
  - intros H.
    destruct (batch_body_forward loss_fn optimizer epoch verbose scheduler total
                                 x (m, cnt, s) w)
      as [o [Hsize [Htr [Hst _]]]].
    rewrite proj_bind, Htr.
    apply bind_inr_inv in H. destruct H as [st1 [H1 H]].
    rewrite H1. specialize (Hst st1 H1). simpl in Hst.
    rewrite (add_dict_accumulated _ _ _ _ _ _ _ Hacc) in Hst. subst st1.
    eapply IH in H; [| left; reflexivity].
    destruct H as [Hsz [Hcnt [a' [b' [c' [Ha [Hne [Ea [Eb Ec]]]]]]]]].
    simpl. rewrite Hsz, Hsize. split; [reflexivity |].
    split; [rewrite Hcnt; lia |].
    exists a', b', c'. split; [exact Ha |].
    split.
    { intros _. apply Hne. left. discriminate. }
    rewrite Ea, Eb, Ec. repeat split; ring.
Qed.

Lemma batches_succeed loss_fn optimizer epoch verbose scheduler total l :
  (optimizer = true -> conf_optimizer C <> None) ->
  (forall b, In b l -> data b <> []) ->
  forall st w,
  exists st',
    outcome (for_each (batch_body T C loss_fn optimizer epoch verbose scheduler total)
                      l st w) = inr st'.
Proof.
  intros Ho. induction l as [| x l IH]; intros Hd st w; simpl.
  - eexists. reflexivity.
  - destruct (batch_body_forward loss_fn optimizer epoch verbose scheduler total
                                 x st w)
      as [o [_ [_ [_ Hok]]]].
    destruct Hok as [st1 H1]; [exact Ho | |].
    { intros _. unfold len_data.
      assert (Hx : data x <> []) by (apply Hd; left; reflexivity).
      destruct (data x); [congruence | simpl; lia]. }
    rewrite (bind_ok _ _ _ _ H1). simpl.
    apply IH. intros b Hb. apply Hd. right. exact Hb.
Qed.

Lemma add_scalars_ok wr items epoch :
  forall w, exists t w', add_scalars (Some wr) items epoch w = mkRun t w' (inr tt).
Proof.
  induction items as [| [k v] rest IH]; intros w; simpl.
  - eexists. eexists. reflexivity.
  - destruct wr as [| d]; unfold bind; simpl.
    + destruct (IH w) as [t [w' Ht]]. rewrite Ht. eexists. eexists. reflexivity.
    + match goal with
      | |- context [add_scalars _ rest epoch ?v] =>
          destruct (IH v) as [t [w' Ht]]; rewrite Ht
      end.
      eexists. eexists. reflexivity.
Qed.

Lemma epoch_end_ok optimizer epoch writer verbose st w m0 :
  acc_truediv (fst (fst st)) (snd (fst st)) = inr m0 ->
  (verbose = true -> writer <> None) ->
  (reads_epoch TASK_NAME verbose = true -> conf_epoch C <> None) ->
  exists m, outcome (epoch_end C TASK_NAME optimizer epoch writer verbose st w) = inr m.
Proof.
  intros E Hw He. unfold epoch_end. rewrite E.
  assert (Hk : negb (String.eqb TASK_NAME "") = true ->
               exists max, conf_epoch C = Some max).
  { intros Ht. destruct (conf_epoch C) as [max |]; [exists max; reflexivity |].
    exfalso. apply He; [| reflexivity].
    unfold reads_epoch. rewrite Ht. apply orb_true_r. }
  destruct verbose.
  - destruct writer as [wr |]; [| exfalso; apply Hw; reflexivity].
    destruct (negb (String.eqb TASK_NAME "")), optimizer;
      try (destruct (Hk eq_refl) as [max ->]);
      unfold_prims; simpl;
      match goal with
      | |- context [add_scalars (Some ?x) ?i ?e ?v] =>
          destruct (add_scalars_ok x i e v) as [t [w' Ht]]; rewrite Ht
      end; simpl; eexists; reflexivity.
  - destruct (negb (String.eqb TASK_NAME "")), optimizer;
      try (destruct (Hk eq_refl) as [max ->]);
      unfold_prims; simpl; eexists; reflexivity.
Qed.

Lemma sample_count_pos (obs : list Observation) :
  obs <> [] -> (forall o, In o obs -> obs_size o <> O) -> sample_count obs <> O.
Proof.
  destruct obs as [| o obs]; [congruence |].
  intros _ H. simpl. specialize (H o (or_introl eq_refl)). lia.
Qed.

(** Whenever a pass over a non-empty stream returns, its three averages
    are the sample-weighted means of what the loop saw. *)
Lemma run_epoch_returns_weighted_mean
      loader loss_fn optimizer desc epoch writer verbose scheduler w m :
  loader <> [] ->
  let r := run_epoch T C TASK_NAME loader loss_fn optimizer desc epoch writer
                     verbose scheduler w in
  outcome r = inr m ->
  let obs := proj see_forward (trace r) in
  map obs_size obs = map len_data loader /\
  exists loss top1 top5,
    dict_get "loss" m = Some loss /\ (loss == weighted_mean obs_loss obs)%Q /\
    dict_get "top1" m = Some top1 /\ (top1 == weighted_mean obs_top1 obs)%Q /\
    dict_get "top5" m = Some top5 /\ (top5 == weighted_mean obs_top5 obs)%Q.
Proof.
  intros Hne r Hm obs. subst r obs.
  rewrite (proj_run_epoch_batches T C TASK_NAME see_forward) by reflexivity.
  apply run_epoch_inr_inv in Hm.
  destruct Hm as [En [st [m0 [Hst [Hdiv [Hl [H1 H5]]]]]]].
  rewrite En. simpl.
  eapply batches_totals in Hst; [| right; repeat split; reflexivity].
  destruct Hst as [Hsz [Hcnt [a [b [c [_ [Htot [Ea [Eb Ec]]]]]]]]].
  split; [exact Hsz |].
  specialize (Htot (or_intror Hne)). rewrite Htot in Hdiv.
  apply acc_truediv_inv in Hdiv. destruct Hdiv as [Hn ->].
  simpl in Hcnt. rewrite Hl, H1, H5. simpl.
  unfold weighted_mean. rewrite <- Hcnt.
  exists (a / Qnat (snd (fst st)))%Q, (b / Qnat (snd (fst st)))%Q,
         (c / Qnat (snd (fst st)))%Q.
  repeat split; try reflexivity.
  - rewrite Ea. apply Qdiv_comp; [ring | reflexivity].
  - rewrite Eb. apply Qdiv_comp; [ring | reflexivity].
  - rewrite Ec. apply Qdiv_comp; [ring | reflexivity].
Qed.

(** A pass over non-empty batches returns, given a writer when it is
    verbose and the configuration keys it reads. *)
Lemma run_epoch_returns
      loader loss_fn optimizer desc epoch writer verbose scheduler w :
  loader <> [] ->
  (forall b, In b loader -> data b <> []) ->
  (verbose = true -> writer <> None) ->
  (reads_epoch TASK_NAME verbose = true -> conf_epoch C <> None) ->
  (optimizer = true -> conf_optimizer C <> None) ->
  exists m,
    outcome (run_epoch T C TASK_NAME loader loss_fn optimizer desc epoch writer
                       verbose scheduler w) = inr m.
Proof.
  intros Hne Hd Hv He Ho. unfold run_epoch.
  rewrite (bind_ok _ _ _ tt) by reflexivity. simpl.
  assert (En : outcome (when verbose
                          (bind (lift (getitem "epoch" (conf_epoch C)))
                                (fun _ => ret tt)) w) = inr tt).
  { destruct verbose; [| reflexivity].
    destruct (conf_epoch C); [reflexivity |].
    exfalso. apply He; reflexivity. }
  rewrite (bind_ok _ _ _ tt En). simpl. rewrite final_when_getitem.
  destruct (batches_succeed loss_fn optimizer epoch verbose scheduler
                            (List.length loader) loader Ho Hd
                            (Accumulator_new, O, O) w) as [st Hst].
  rewrite (bind_ok _ _ _ st Hst). simpl.
  pose proof Hst as Htot.
  eapply batches_totals in Htot; [| right; repeat split; reflexivity].
  destruct Htot as [Hsz [Hcnt _]]. simpl in Hcnt.
  apply epoch_end_ok with
    (m0 := map (fun kv => (fst kv, (snd kv / Qnat (snd (fst st)))%Q)) (fst (fst st))).
  - apply acc_truediv_inr. rewrite Hcnt.
    apply sample_count_pos.
    + intros Hnil. rewrite Hnil in Hsz. destruct loader; [congruence | discriminate].
    + intros o Hin.
      apply (in_map obs_size) in Hin. rewrite Hsz in Hin.
      apply in_map_iff in Hin. destruct Hin as [b [Hb Hin]].
      rewrite <- Hb. unfold len_data. specialize (Hd b Hin).
      destruct (data b); [congruence | discriminate].
  - exact Hv.
  - exact He.
Qed.

End Averaging.

(** C3: over a non-empty stream of non-empty batches, [run_epoch]
    returns, and the loss, top-1 and top-5 it returns are the
    sample-weighted means of the per-batch values: the sum of value times
    batch size, divided by the number of samples.  (It returns when a
    verbose pass is given a writer and the configuration holds the keys
    the pass reads: [epoch] when the pass is verbose or [TASK_NAME] is
    set, [optimizer] when it trains.) *)
Theorem run_epoch_weighted_mean
        T C TASK_NAME loader loss_fn optimizer desc epoch writer verbose scheduler w :
  loader <> [] ->
  (forall b, In b loader -> data b <> []) ->
  (verbose = true -> writer <> None) ->
  (reads_epoch TASK_NAME verbose = true -> conf_epoch C <> None) ->
  (optimizer = true -> conf_optimizer C <> None) ->
  let r := run_epoch T C TASK_NAME loader loss_fn optimizer desc epoch writer
                     verbose scheduler w in
  let obs := proj see_forward (trace r) in
  map obs_size obs = map len_data loader /\
  exists m loss top1 top5,
    outcome r = inr m /\
    dict_get "loss" m = Some loss /\ (loss == weighted_mean obs_loss obs)%Q /\
    dict_get "top1" m = Some top1 /\ (top1 == weighted_mean obs_top1 obs)%Q /\
    dict_get "top5" m = Some top5 /\ (top5 == weighted_mean obs_top5 obs)%Q.
Proof.
  intros Hne Hd Hv He Ho r obs.
  destruct (run_epoch_returns T C TASK_NAME loader loss_fn optimizer desc epoch
                              writer verbose scheduler w Hne Hd Hv He Ho) as [m Hm].
  destruct (run_epoch_returns_weighted_mean T C TASK_NAME loader loss_fn optimizer
              desc epoch writer verbose scheduler w m Hne Hm)
    as [Hsz [loss [top1 [top5 H]]]].
  split; [exact Hsz |].
  exists m, loss, top1, top5. split; [exact Hm | exact H].
Qed.

Lemma run_epoch_weighted_mean_witness :
  let r := run_epoch demo_extern demo_config "task" (validloader demo_loaders)
                     CrossEntropyLoss false "valid" 1
                     (Some SummaryWriterDummy) true false demo_world in
  exists m loss,
    outcome r = inr m /\ dict_get "loss" m = Some loss /\
    (loss == weighted_mean obs_loss (proj see_forward (trace r)))%Q.
Proof.
  intros r.
  destruct (run_epoch_weighted_mean demo_extern demo_config "task"
              (validloader demo_loaders) CrossEntropyLoss false "valid" 1%Z
              (Some SummaryWriterDummy) true false demo_world)
    as [_ [m [loss [top1 [top5 [Hm [Hl [He _]]]]]]]].
  - discriminate.
  - intros b [<- | [<- | []]]; discriminate.
  - discriminate.
  - discriminate.
  - discriminate.
  - exists m, loss. repeat split; assumption.
Defined.

(** On batches of 2 and 1 samples with losses 2 and 1 the pass returns
    5/3, the weighted mean, and not 3/2, the mean of the two batch
    values. *)
Example run_epoch_not_batch_mean :
  let r := run_epoch demo_extern demo_config "" (validloader demo_loaders)
                     CrossEntropyLoss false "valid" 1
                     (Some SummaryWriterDummy) true false demo_world in
  exists m loss,
    outcome r = inr m /\ dict_get "loss" m = Some loss /\
    (loss == 5 # 3)%Q /\
    (batch_mean obs_loss (proj see_forward (trace r)) == 3 # 2)%Q.
Proof.
  eexists. eexists. split; [vm_compute; reflexivity |].
  split; [reflexivity |]. split; reflexivity.
Qed.

Lemma run_epoch_scheduler_positions_witness :
  let r := run_epoch demo_extern demo_config "" (validloader demo_loaders)
                     CrossEntropyLoss false "valid" 3
                     (Some SummaryWriterDummy) true true demo_world in
  proj see_scheduler (trace r) =
  [(inject_Z (3 - 1) + Qnat 1 / Qnat 2)%Q; (inject_Z (3 - 1) + Qnat 2 / Qnat 2)%Q].
Proof.
  intros r.
  destruct (run_epoch_scheduler_positions demo_extern demo_config ""
              (validloader demo_loaders) CrossEntropyLoss false "valid" 3%Z
              (Some SummaryWriterDummy) true demo_world)
    as [k [_ [Htr Hk]]].
  fold r in Htr, Hk.
  assert (Hm : exists m, outcome r = inr m) by (vm_compute; eexists; reflexivity).
  destruct Hm as [m Hm].
  rewrite Htr, (Hk m Hm). reflexivity.
Defined.

(** C6 as stated fails: at epoch 1, after the only batch of the pass, the
    scheduler is advanced to position 1 (the end of the first epoch), not
    to 1 + 1/1 = 2. *)
Lemma scheduler_position_is_not_epoch_plus_progress :
  let r := run_epoch demo_extern demo_config "" [mkBatch [1]%Z [0]%Z]
                     CrossEntropyLoss false "valid" 1 None false true demo_world in
  exists m x,
    outcome r = inr m /\
    proj see_scheduler (trace r) = [x] /\
    ~ (x == inject_Z 1 + Qnat 1 / Qnat 1)%Q.
Proof.
  eexists. eexists. split; [vm_compute; reflexivity |].
  split; [vm_compute; reflexivity |].
  intros H. vm_compute in H. discriminate.
Qed.

Lemma demo_clip_bounds (g : Dict Value) (c : Q) :
  (0 < c)%Q -> (demo_norm (clip_grad_norm clip_extern g c) <= c)%Q.
Proof.
  intros Hc. unfold demo_norm. simpl. unfold demo_clip.
  destruct (dict_get "w" g) as [[n | x | t | d] |]; simpl;
    try (apply Qlt_le_weak; exact Hc).
  destruct (Qltb c x) eqn:E.
  - apply Qle_refl.
  - apply Qltb_ge, E.
Qed.

Lemma run_epoch_clips_iff_positive_witness :
  let r := run_epoch clip_extern demo_config "" (trainloader demo_loaders)
                     CrossEntropyLoss true "train" 1
                     (Some SummaryWriterDummy) true false demo_world in
  proj see_grad (trace r) =
    [EvBackward [("w", VFloat 8)]; EvClipGradNorm 5;
     EvOptimizerStep (Some [("w", VFloat 5)]);
     EvBackward [("w", VFloat 8)]; EvClipGradNorm 5;
     EvOptimizerStep (Some [("w", VFloat 5)])] /\
  Forall (fun s => exists g, s = Some g /\ (demo_norm g <= 5)%Q)
         (proj see_stepped (trace r)).
Proof.
  intros r.
  destruct (run_epoch_clips_iff_positive clip_extern demo_config ""
              (trainloader demo_loaders) CrossEntropyLoss "train" 1%Z
              (Some SummaryWriterDummy) true false demo_world
              demo_optimizer_conf eq_refl)
    as [gs [_ [Hpos _]]].
  destruct (Hpos ltac:(reflexivity)) as [_ Hn].
  split; [vm_compute; reflexivity |].
  apply Hn. exact demo_clip_bounds.
Defined.

(** ** Construction *)

Lemma proj_all (tr : list Event) : proj (fun e => [e]) tr = tr.
Proof.
  induction tr as [| e tr IH]; simpl; [reflexivity | f_equal; exact IH].
Qed.

Lemma quiet_all_trace {A : Type} (m : M A) (w : World) :
  quiet (fun e => [e]) m -> trace (m w) = [].
Proof.
  intros H. rewrite <- (proj_all (trace (m w))). apply H.
Qed.

Section RaisesFacts.

Variable P : exn -> Prop.

Lemma raises_ret {A : Type} (a : A) : raises P (ret a).
Proof. intros w e H. discriminate. Qed.

Lemma raises_raise {A : Type} (e : exn) : P e -> raises P (@raise A e).
Proof. intros He w e' H. injection H as <-. exact He. Qed.

Lemma raises_getitem {A : Type} (key : string) (x : option A) :
  P (KeyError key) -> raises P (lift (getitem key x)).
Proof.
  intros He. destruct x; simpl; [apply raises_ret | apply raises_raise, He].
Qed.

Lemma raises_get_world : raises P get_world.
Proof. intros w e H. discriminate. Qed.

Lemma raises_put_world (w' : World) : raises P (put_world w').
Proof. intros w e H. discriminate. Qed.

Lemma raises_bind {A B : Type} (m : M A) (k : A -> M B) :
  raises P m -> (forall a, raises P (k a)) -> raises P (bind m k).
Proof.
  intros Hm Hk w e H.
  destruct (outcome (m w)) as [e' | a] eqn:E.
  - rewrite (bind_err _ _ _ _ E) in H. injection H as <-. eapply Hm, E.
  - rewrite (bind_ok _ _ _ _ E) in H. eapply Hk, H.
Qed.

Lemma raises_map_m {A B : Type} (g : A -> M B) (l : list A) :
  (forall a, raises P (g a)) -> raises P (map_m g l).
Proof.
  intros H. induction l as [| a l IH]; simpl.
  - apply raises_ret.
  - apply raises_bind; [apply H | intros b].
    apply raises_bind; [exact IH | intros bs]. apply raises_ret.
Qed.

Lemma raises_when (c : bool) (body : M unit) :
  raises P body -> raises P (when c body).
Proof. intros H. destruct c; [exact H | apply raises_ret]. Qed.

End RaisesFacts.

#[local] Hint Resolve raises_ret raises_get_world raises_put_world : quiet.

(** Switching the mode of the model is silent and cannot fail. *)
Lemma bind_model_train {B : Type} (k : unit -> M B) (w : World) :
  bind model_train k w = k tt (with_training true w).
Proof.
  unfold bind, model_train, get_world, put_world. simpl.
  destruct (k tt (with_training true w)); reflexivity.
Qed.

Lemma bind_model_eval {B : Type} (k : unit -> M B) (w : World) :
  bind model_eval k w = k tt (with_training false w).
Proof.
  unfold bind, model_eval, get_world, put_world. simpl.
  destruct (k tt (with_training false w)); reflexivity.
Qed.

Lemma quiet_model_train {X : Type} (f : Event -> list X) : quiet f model_train.
Proof. intros w. reflexivity. Qed.

Lemma quiet_model_eval {X : Type} (f : Event -> list X) : quiet f model_eval.
Proof. intros w. reflexivity. Qed.

#[local] Hint Resolve quiet_model_train quiet_model_eval : quiet.

(** Case analysis on an innermost scrutinee of the goal. *)
Ltac case_step :=
  match goal with
  | |- context [match ?x with _ => _ end] =>
      lazymatch x with
      | context [match _ with _ => _ end] => fail
      | _ => destruct x eqn:?; simpl
      end
  end.

(** Splits on the outcome of the first computation of an outermost bind. *)
Ltac bind_cases E :=
  rewrite ?bind_model_train, ?bind_model_eval;
  match goal with
  | |- context [bind ?m ?k ?w] =>
      let e := fresh "e" in
      let a := fresh "a" in
      destruct (outcome (m w)) as [e | a] eqn:E;
      [rewrite (bind_err m k w _ E) | rewrite (bind_ok m k w _ E)];
      simpl
  end.

Lemma raises_constructed {A : Type} (x : string + A) :
  raises (fun e => is_config_error e = true) (lift (constructed x)).
Proof.
  destruct x as [msg | a]; intros w e H; simpl in H.
  - injection H as <-. reflexivity.
  - discriminate.
Qed.

Ltac raises_step :=
  match goal with
  | |- raises _ (bind _ _) => apply raises_bind; [| intros ?]
  | |- raises _ (when _ _) => apply raises_when
  | |- raises _ (map_m _ _) => apply raises_map_m; intros ?
  | |- raises _ (lift (constructed _)) => apply raises_constructed
  | |- raises _ (lift (getitem _ _)) => apply raises_getitem; reflexivity
  | |- raises _ (raise _) => apply raises_raise; reflexivity
  | |- raises _ (if ?c then _ else _) => destruct c
  | |- _ => solve [auto with quiet]
  end.

Section BuildFacts.

Variable T : Extern.
Variable C : Config.

Lemma quiet_build {X : Type} (f : Event -> list X) tag dataroot test_ratio cv_fold :
  quiet f (build T C tag dataroot test_ratio cv_fold).
Proof.
  unfold build, set_model, set_optimizer, new_scheduler, set_scheduler,
    new_writer.
  quiet_tac.
Qed.

Lemma keeps_fs_new_writer tag x : keeps w_fs (new_writer tag x).
Proof. unfold new_writer. destruct (truthy tag); intros w; reflexivity. Qed.

Lemma keeps_fs_build tag dataroot test_ratio cv_fold :
  keeps w_fs (build T C tag dataroot test_ratio cv_fold).
Proof.
  unfold build. pose proof (keeps_fs_new_scheduler T).
  pose proof keeps_fs_set_model. pose proof keeps_fs_set_optimizer.
  pose proof keeps_fs_new_writer.
  quiet_tac.
Qed.

(** Construction calls no collaborator that the trace records. *)
Lemma trace_build tag dataroot test_ratio cv_fold w :
  trace (build T C tag dataroot test_ratio cv_fold w) = [].
Proof. apply quiet_all_trace, quiet_build. Qed.

(** Construction only fails with a configuration error. *)
Lemma raises_build tag dataroot test_ratio cv_fold :
  raises (fun e => is_config_error e = true)
         (build T C tag dataroot test_ratio cv_fold).
Proof.
  unfold build, set_model, set_optimizer, new_scheduler, set_scheduler,
    new_writer.
  repeat raises_step.
Qed.

(** Construction succeeds only on the configurations [config_ok]
    accepts. *)
Lemma build_returns_ok tag dataroot test_ratio cv_fold w :
  (exists b, outcome (build T C tag dataroot test_ratio cv_fold w) = inr b) ->
  config_ok C = true.
Proof.
  destruct C as [ds ba ep mo lr opt sch].
  unfold build, config_ok, optimizer_ok, lr_schedule_ok, warmup_ok,
    warmup_truthy, set_model, set_optimizer, new_scheduler, set_scheduler,
    get_default, is_some, constructed.
  unfold_prims. simpl.
  repeat case_step;
    intros [built Hb]; first [discriminate | reflexivity].
Qed.

End BuildFacts.

Section FailFast.

Variable T : Extern.
Variable C : Config.
Variable TASK_NAME : string.

Lemma train_and_eval_build_fails
      tag dataroot test_ratio cv_fold metric save_path only_eval w :
  config_ok C = false ->
  fails_fast (train_and_eval T C TASK_NAME tag dataroot test_ratio cv_fold
                             metric save_path only_eval w) w.
Proof.
  intros Hc.
  destruct (outcome (build T C tag dataroot test_ratio cv_fold w)) as [e | b] eqn:E.
  - unfold train_and_eval. rewrite (bind_err _ _ _ _ E).
    exists e. simpl. split; [reflexivity |].
    split; [eapply raises_build, E |].
    split; [apply trace_build | apply keeps_fs_build].
  - assert (Hok : config_ok C = true).
    { eapply build_returns_ok. exists b. exact E. }
    congruence.
Qed.

Lemma unsupported_optimizer_type opt ty :
  conf_optimizer C = Some opt -> optimizer_type opt = Some ty -> ty <> "sgd" ->
  config_ok C = false.
Proof.
  intros Ho Ht Hn. apply String.eqb_neq in Hn.
  unfold config_ok, optimizer_ok. rewrite Ho, Ht, Hn. simpl.
  rewrite andb_false_r. reflexivity.
Qed.

Lemma unsupported_lr_schedule_type sch ty :
  conf_lr_schedule C = Some sch -> lr_schedule_type sch = Some ty ->
  ty <> "cosine" -> ty <> "resnet" ->
  config_ok C = false.
Proof.
  intros Hs Ht Hc Hr. apply String.eqb_neq in Hc, Hr.
  unfold config_ok, lr_schedule_ok. rewrite Hs, Ht, Hc, Hr. simpl.
  apply andb_false_r.
Qed.

Lemma missing_key_not_ok : missing_required_key C -> config_ok C = false.
Proof.
  unfold missing_required_key, config_ok, optimizer_ok, lr_schedule_ok, warmup_ok.
  intros H.
  repeat match type of H with
         | _ \/ _ => destruct H as [H | H]
         | exists _, _ => destruct H as [? H]
         | _ /\ _ => let H' := fresh "H" in destruct H as [H' H]
         end;
    repeat match goal with
           | E : ?x = _ |- _ => rewrite E; clear E
           end;
    simpl; rewrite ?andb_false_r; try reflexivity.
  - destruct (warmup_epoch x0); [| congruence].
    simpl. rewrite !andb_false_r. reflexivity.
  - destruct (warmup_multiplier x0); [| congruence].
    simpl. rewrite !andb_false_r. reflexivity.
Qed.

End FailFast.

Lemma default_lr_schedule_type T C TASK_NAME sch
      tag dataroot test_ratio cv_fold metric save_path only_eval w :
  conf_lr_schedule C = Some sch -> lr_schedule_type sch = None ->
  train_and_eval T C TASK_NAME tag dataroot test_ratio cv_fold metric save_path
                 only_eval w =
  train_and_eval T (with_lr_schedule_type C (Some "cosine")) TASK_NAME tag dataroot
                 test_ratio cv_fold metric save_path only_eval w.
Proof.
  destruct C as [ds ba ep mo lr opt s]. simpl. intros ->.
  destruct sch as [ty wu]. simpl. intros ->.
  reflexivity.
Qed.

(** C5, as the code has it: [train_and_eval] fails with a configuration
    error before anything is run or written whenever the optimizer type
    is not ["sgd"], whenever a given [lr_schedule.type] is neither
    ["cosine"] nor ["resnet"], and whenever a key read without a default
    is missing; a missing [lr_schedule.type] is not an error, the run is
    that of ["cosine"]. *)
Theorem train_and_eval_fails_fast
        T C TASK_NAME tag dataroot test_ratio cv_fold metric save_path only_eval w :
  let r := train_and_eval T C TASK_NAME tag dataroot test_ratio cv_fold metric
                          save_path only_eval w in
  (forall opt ty, conf_optimizer C = Some opt -> optimizer_type opt = Some ty ->
                  ty <> "sgd" -> fails_fast r w) /\
  (forall sch ty, conf_lr_schedule C = Some sch -> lr_schedule_type sch = Some ty ->
                  ty <> "cosine" -> ty <> "resnet" -> fails_fast r w) /\
  (missing_required_key C -> fails_fast r w) /\
  (forall sch, conf_lr_schedule C = Some sch -> lr_schedule_type sch = None ->
               r = train_and_eval T (with_lr_schedule_type C (Some "cosine"))
                                  TASK_NAME tag dataroot test_ratio cv_fold metric
                                  save_path only_eval w).
Proof.
  simpl. repeat split.
  - intros opt ty Ho Ht Hn. apply train_and_eval_build_fails.
    eapply unsupported_optimizer_type; eassumption.
  - intros sch ty Hs Ht Hc Hr. apply train_and_eval_build_fails.
    eapply unsupported_lr_schedule_type; eassumption.
  - intros Hm. apply train_and_eval_build_fails. apply missing_key_not_ok, Hm.
  - intros sch Hs Ht. eapply default_lr_schedule_type; eassumption.
Qed.

Lemma train_and_eval_fails_fast_witness :
  fails_fast (train_and_eval demo_extern adam_config "" (Some "run") "./data" 0 0
                             "top1" (Some "ckpt.pth") false demo_world)
             demo_world.
Proof.
  eapply (proj1 (train_and_eval_fails_fast demo_extern adam_config "" (Some "run")
                   "./data" 0 0%Z "top1" (Some "ckpt.pth") false demo_world)).
  - reflexivity.
  - reflexivity.
  - discriminate.
Defined.

(** C5 as stated fails: without an [lr_schedule.type] key the run is not
    refused; it trains its three epochs under the cosine schedule and
    returns. *)
Lemma missing_lr_schedule_type_is_accepted :
  (exists sch, conf_lr_schedule demo_config = Some sch /\
               lr_schedule_type sch = None) /\
  let r := train_and_eval demo_extern demo_config "" (Some "run") "./data" 0 0
                          "top1" None false demo_world in
  (exists res, outcome r = inr res) /\
  proj see_train_epoch (trace r) = [1; 2; 3]%Z /\
  sched_kind (w_scheduler (final r)) = CosineAnnealingLR 3.
Proof.
  split.
  - eexists. split; reflexivity.
  - split; [vm_compute; eexists; reflexivity |].
    split; vm_compute; reflexivity.
Qed.

(** ** Resuming from a checkpoint *)

Lemma dict_mem_get {V : Type} (k : string) (d : Dict V) (v : V) :
  dict_get k d = Some v -> dict_mem k d = true.
Proof. unfold dict_mem. intros ->. reflexivity. Qed.

Lemma dict_mem_none {V : Type} (k : string) (d : Dict V) :
  dict_get k d = None -> dict_mem k d = false.
Proof. unfold dict_mem. intros ->. reflexivity. Qed.

Lemma dict_set_fresh {V : Type} (k : string) (v : V) (d : Dict V) :
  ~ In k (map fst d) -> dict_set k v d = d ++ [(k, v)].
Proof.
  induction d as [| [k1 v1] d IH]; simpl; intros H; [reflexivity |].
  destruct (String.eqb k k1) eqn:E.
  - apply String.eqb_eq in E. exfalso. apply H. left. symmetry. exact E.
  - f_equal. apply IH. intros Hin. apply H. right. exact Hin.
Qed.

(** The dict comprehension on keys that stay distinct: every entry keeps
    its place and its value, under the normalised key. *)
Lemma module_keys_distinct (items : Dict Value) :
  NoDup (map (fun kv => module_key (fst kv)) items) ->
  module_keys items = map (fun kv => (module_key (fst kv), snd kv)) items.
Proof.
  unfold module_keys.
  assert (H : forall acc : Dict Value,
             NoDup (map fst acc ++ map (fun kv => module_key (fst kv)) items) ->
             fold_left (fun d kv => dict_set (module_key (fst kv)) (snd kv) d)
                       items acc =
             acc ++ map (fun kv => (module_key (fst kv), snd kv)) items).
  { induction items as [| [k v] items IH]; intros acc Hnd; simpl.
    - symmetry. apply app_nil_r.
    - simpl in Hnd. rewrite dict_set_fresh.
      + rewrite IH.
        * rewrite <- app_assoc. reflexivity.
        * rewrite map_app. simpl. rewrite <- app_assoc. simpl. exact Hnd.
      + apply NoDup_remove_2 in Hnd. intros Hin. apply Hnd.
        apply in_or_app. left. exact Hin. }
  intros Hnd. apply (H []). exact Hnd.
Qed.

Lemma module_key_present (k : string) :
  str_contains "module." k = true -> module_key k = k.
Proof. unfold module_key. intros ->. reflexivity. Qed.

Lemma module_key_absent (k : string) :
  str_contains "module." k = false ->
  module_key k = String.append "module." k /\
  str_contains "module." (module_key k) = true.
Proof.
  unfold module_key. intros H. rewrite H. split; [reflexivity |].
  destruct k; reflexivity.
Qed.

Section ResumeFacts.

Variable T : Extern.

Lemma quiet_resume {X : Type} (f : Event -> list X) metric save_path :
  (forall st, f (EvLoadStateDict st) = []) ->
  (forall v, f (EvOptimizerLoad v) = []) ->
  (forall v, f (EvSchedulerLoad v) = []) ->
  quiet f (resume T metric save_path).
Proof.
  intros H1 H2 H3.
  unfold resume, load_state_dict, set_model, set_optimizer, set_scheduler.
  quiet_tac.
Qed.

Lemma keeps_fs_resume metric save_path :
  keeps w_fs (resume T metric save_path).
Proof.
  pose proof (keeps_fs_load_state_dict T).
  pose proof keeps_fs_set_optimizer. pose proof keeps_fs_set_scheduler.
  unfold resume. quiet_tac.
Qed.

(** Nothing after the model is loaded touches its parameters. *)
Lemma resume_bare metric path state w :
  truthy (Some path) = true ->
  dict_get path (w_fs w) = Some state ->
  dict_mem "model" state = false ->
  dict_mem "state_dict" state = false ->
  let r := resume T metric (Some path) w in
  proj see_load (trace r) = [module_keys state] /\
  w_model (final r) = model_load_state_dict T (w_model w) (module_keys state).
Proof.
  intros Ht Hf Hm Hs. unfold resume, load_state_dict, set_model, set_optimizer,
    set_scheduler, value_succ.
  unfold_prims. simpl in *. rewrite Ht, (dict_mem_get _ _ _ Hf), Hf. simpl.
  rewrite Hm, Hs. simpl.
  repeat case_step; split; reflexivity.
Qed.

Lemma resume_wrapped metric path state data w :
  truthy (Some path) = true ->
  dict_get path (w_fs w) = Some data ->
  (dict_get "model" data = Some (VDict state) \/
   (dict_get "model" data = None /\
    dict_get "state_dict" data = Some (VDict state))) ->
  let r := resume T metric (Some path) w in
  proj see_load (trace r) = [module_keys state] /\
  w_model (final r) = model_load_state_dict T (w_model w) (module_keys state).
Proof.
  intros Ht Hf Hd. unfold resume, load_state_dict, set_model, set_optimizer,
    set_scheduler, value_succ, value_items.
  unfold_prims. simpl in *. rewrite Ht, (dict_mem_get _ _ _ Hf), Hf. simpl.
  destruct Hd as [Hm | [Hm Hs]].
  - rewrite (dict_mem_get _ _ _ Hm). simpl. rewrite Hm. simpl.
    repeat case_step; split; reflexivity.
  - rewrite (dict_mem_none _ _ Hm), (dict_mem_get _ _ _ Hs). simpl.
    rewrite Hs. simpl.
    repeat case_step; split; reflexivity.
Qed.

End ResumeFacts.



(** ** The best checkpoint *)

Section BestFacts.

Variable T : Extern.

Lemma save_if_best_improves metric save_path epoch valid_metrics result w v :
  metric_value T valid_metrics metric = inr v ->
  improves T result v ->
  let r := save_if_best T metric save_path epoch valid_metrics result w in
  outcome r = inr (dict_set "best_valid" (VFloat v) result) /\
  (truthy save_path = true ->
   trace r = [EvSave (get_default save_path "") (checkpoint_of metric epoch v w)] /\
   w_fs (final r) = dict_set (get_default save_path "")
                             (checkpoint_of metric epoch v w) (w_fs w)) /\
  (truthy save_path = false -> trace r = [] /\ final r = w).
Proof.
  intros Hv Hi. unfold improves in Hi.
  unfold save_if_best, metrics_getitem, torch_save, checkpoint_of, value_lt.
  rewrite Hv. unfold_prims.
  destruct (dict_get "best_valid" result) as [best |]; simpl.
  - destruct best as [n | x | t | d]; simpl in Hi; try contradiction;
      try (destruct (tensor_scalar T t) as [e0 | x0]; [contradiction |]);
      apply Qltb_lt in Hi; simpl; rewrite Hi; simpl;
      destruct (truthy save_path); simpl;
      (split; [reflexivity |]); split; intros H; try discriminate;
      split; reflexivity.
  - destruct (truthy save_path); simpl;
      (split; [reflexivity |]); split; intros H; try discriminate;
      split; reflexivity.
Qed.

Lemma save_if_best_no_better metric save_path epoch valid_metrics result w v :
  metric_value T valid_metrics metric = inr v ->
  best_comparable T result ->
  ~ improves T result v ->
  save_if_best T metric save_path epoch valid_metrics result w =
  mkRun [] w (inr result).
Proof.
  intros Hv Hc Hi. unfold improves in Hi. unfold best_comparable in Hc.
  unfold save_if_best, metrics_getitem, value_lt.
  rewrite Hv. unfold_prims.
  destruct (dict_get "best_valid" result) as [best |]; simpl.
  - destruct best as [n | x | t | d]; simpl in Hi, Hc; try congruence;
      try (destruct (tensor_scalar T t) as [e0 | x0]; [congruence |]);
      simpl;
      (destruct (Qltb _ v) eqn:E; [apply Qltb_lt in E; contradiction |]);
      reflexivity.
  - exfalso. apply Hi. exact I.
Qed.

End BestFacts.

(** C1, as the code has it: the tracked best value is updated exactly
    when the epoch's validation value of the target metric strictly
    exceeds the best seen so far or there is none; when a [save_path] is
    given that is also exactly when a checkpoint is written to it, and an
    equal or lower value leaves the file as it is; without a [save_path]
    nothing is ever written. *)
Theorem save_if_best_writes_iff_improves
        T metric save_path epoch valid_metrics result w v :
  metric_value T valid_metrics metric = inr v ->
  best_comparable T result ->
  let r := save_if_best T metric save_path epoch valid_metrics result w in
  let path := get_default save_path "" in
  (improves T result v ->
   outcome r = inr (dict_set "best_valid" (VFloat v) result) /\
   (truthy save_path = true ->
    trace r = [EvSave path (checkpoint_of metric epoch v w)] /\
    w_fs (final r) = dict_set path (checkpoint_of metric epoch v w) (w_fs w)) /\
   (truthy save_path = false -> trace r = [] /\ final r = w)) /\
  (~ improves T result v ->
   outcome r = inr result /\ trace r = [] /\ final r = w).
Proof.
  intros Hv Hc r path. split.
  - intros Hi. apply save_if_best_improves; assumption.
  - intros Hi. subst r.
    rewrite (save_if_best_no_better T metric save_path epoch valid_metrics
                                    result w v Hv Hc Hi).
    repeat split.
Qed.

Lemma save_if_best_writes_iff_improves_witness :
  let valid := totals (5 # 3) (55 # 100) 1 in
  let r := save_if_best demo_extern "top1" (Some "ckpt.pth") 2 valid
                        [("best_valid", VFloat (55 # 100))]
                        (world_with_file demo_wrapped) in
  outcome r = inr [("best_valid", VFloat (55 # 100))] /\
  trace r = [] /\ final r = world_with_file demo_wrapped.
Proof.
  intros valid r.
  apply (proj2 (save_if_best_writes_iff_improves demo_extern "top1"
                  (Some "ckpt.pth") 2%Z valid
                  [("best_valid", VFloat (55 # 100))]
                  (world_with_file demo_wrapped) (55 # 100)
                  eq_refl ltac:(simpl; discriminate))).
  unfold improves. simpl. apply Qlt_irrefl.
Defined.

(** C1 as stated fails: called without a [save_path] (the default, and
    what the script's entry point does), the run updates its best value
    at epochs 1 and 2 and returns it, yet writes no checkpoint. *)
Lemma best_updated_without_write :
  let r := train_and_eval demo_extern demo_config "" (Some "run") "./data" 0 0
                          "top1" None false demo_world in
  outcome r = inr (RetResult [("best_valid", VFloat (16500 # 30000))]) /\
  proj see_save (trace r) = [] /\
  w_fs (final r) = w_fs demo_world.
Proof.
  repeat split; vm_compute; reflexivity.
Qed.

(** The scenario of the specification: three epochs with validation
    top-1 0.40, 0.55, 0.50; checkpoints after epochs 1 and 2 only, and
    0.55 returned. *)
Example best_checkpoint_scenario :
  let r := train_and_eval demo_extern demo_config "" (Some "run") "./data" 0 0
                          "top1" (Some "ckpt.pth") false demo_world in
  outcome r = inr (RetResult [("best_valid", VFloat (16500 # 30000))]) /\
  map (fun s => dict_get "epoch" (snd s)) (proj see_save (trace r)) =
    [Some (VInt 1); Some (VInt 2)] /\
  (16500 # 30000 == 55 # 100)%Q.
Proof.
  repeat split; vm_compute; reflexivity.
Qed.

(** ** The training loop *)

Lemma proj_app {X : Type} (f : Event -> list X) (t1 t2 : list Event) :
  proj f (t1 ++ t2) = proj f t1 ++ proj f t2.
Proof. apply flat_map_app. Qed.

Section LoopBody.

Variable T : Extern.
Variable C : Config.
Variable TASK_NAME : string.

Lemma quiet_run_epoch {X : Type} (f : Event -> list X)
      loader loss_fn optimizer desc epoch writer verbose scheduler :
  above_batches f ->
  f (EvRunEpoch desc epoch optimizer) = [] ->
  quiet f (run_epoch T C TASK_NAME loader loss_fn optimizer desc epoch writer
                     verbose scheduler).
Proof.
  intros Hf He w. rewrite (proj_run_epoch T C TASK_NAME f Hf). exact He.
Qed.

Lemma quiet_save_if_best {X : Type} (f : Event -> list X)
      metric save_path epoch valid_metrics result :
  (forall p c, f (EvSave p c) = []) ->
  quiet f (save_if_best T metric save_path epoch valid_metrics result).
Proof.
  intros Hf. unfold save_if_best, metrics_getitem, torch_save. quiet_tac.
Qed.

Lemma quiet_scheduler_step {X : Type} (f : Event -> list X) x :
  (forall y, f (EvSchedulerStep y) = []) ->
  quiet f (scheduler_do_step T x).
Proof. intros Hf. unfold scheduler_do_step. quiet_tac. Qed.

Lemma scheduler_do_step_ok x w :
  outcome (scheduler_do_step T x w) = inr tt.
Proof. reflexivity. Qed.

(** The gate of lines 207-213. *)
Lemma test_pass_gate b epoch w max :
  conf_epoch C = Some max ->
  let r := test_pass T C TASK_NAME b epoch w in
  proj see_report (trace r) = [] /\
  proj see_train_epoch (trace r) = [] /\
  proj see_test_pass (trace r) = (if near_end max epoch then [epoch] else []) /\
  (forall te, outcome r = inr te ->
              if near_end max epoch then exists tm, te = Some tm else te = None).
Proof.
  intros Hmax r.
  assert (Hr : r = if near_end max epoch
                   then bind (run_epoch T C TASK_NAME (testloader_ (loaders b))
                                        (criterion b) false "test " epoch
                                        (nth_writer (writers b) 2) true false)
                             (fun tm => ret (Some tm)) w
                   else mkRun [] w (inr None)).
  { subst r. unfold test_pass, near_end. rewrite Hmax.
    unfold bind at 1. simpl.
    destruct (max - epoch <=? 5)%Z; [| reflexivity].
    match goal with |- match ?x with _ => _ end = _ => destruct x end.
    reflexivity. }
  rewrite Hr. clear Hr r.
  destruct (near_end max epoch).
  - destruct (outcome (run_epoch T C TASK_NAME (testloader_ (loaders b))
                                 (criterion b) false "test " epoch
                                 (nth_writer (writers b) 2) true false w))
      as [e | tm] eqn:E.
    + rewrite (bind_err _ _ _ _ E). simpl.
      rewrite !(proj_run_epoch T C TASK_NAME) by (intros []; simpl; congruence).
      repeat split. intros te H. discriminate.
    + rewrite (bind_ok _ _ _ _ E). simpl. rewrite !app_nil_r.
      rewrite !(proj_run_epoch T C TASK_NAME) by (intros []; simpl; congruence).
      repeat split. intros te H. injection H as <-. eexists. reflexivity.
  - simpl. repeat split. intros te H. injection H as <-. reflexivity.
Qed.

Lemma above_batches_train_epoch : above_batches see_train_epoch.
Proof. intros []; simpl; congruence. Qed.

Lemma above_batches_test_pass : above_batches see_test_pass.
Proof. intros []; simpl; congruence. Qed.

Lemma above_batches_report : above_batches see_report.
Proof. intros []; simpl; congruence. Qed.

Lemma above_batches_save : above_batches see_save.
Proof. intros []; simpl; congruence. Qed.

Lemma above_batches_pass : above_batches see_pass.
Proof. intros []; simpl; congruence. Qed.

(** What one iteration of the loop shows of itself: its training pass
    always; its report, if it gets that far, with test metrics exactly
    under the gate, a test pass having been run exactly then. *)
Lemma epoch_body_marks b metric save_path epoch result w max :
  conf_epoch C = Some max ->
  let r := epoch_body T C TASK_NAME b metric save_path epoch result w in
  proj see_train_epoch (trace r) = [epoch] /\
  ((proj see_report (trace r) = [] /\
    (forall res, outcome r <> inr res) /\
    (near_end max epoch = false -> proj see_test_pass (trace r) = []))
   \/
   (exists te,
      proj see_report (trace r) = [(epoch, te)] /\
      proj see_test_pass (trace r) = (if near_end max epoch then [epoch] else []) /\
      (if near_end max epoch then exists tm, te = Some tm else te = None) /\
      exists res, outcome r = inr res)).
Proof.
  intros Hmax r. subst r. unfold epoch_body.
  pose proof above_batches_train_epoch as A1.
  pose proof above_batches_test_pass as A2.
  pose proof above_batches_report as A3.
  rewrite bind_model_train.
  bind_cases E1; rewrite ?proj_app, ?(proj_run_epoch T C TASK_NAME _ A1),
    ?(proj_run_epoch T C TASK_NAME _ A2), ?(proj_run_epoch T C TASK_NAME _ A3);
    simpl.
  { split; [reflexivity |]. left. repeat split. intros res H. discriminate. }
  rewrite bind_model_eval.
  bind_cases E2; rewrite ?proj_app, ?(proj_run_epoch T C TASK_NAME _ A1),
    ?(proj_run_epoch T C TASK_NAME _ A2), ?(proj_run_epoch T C TASK_NAME _ A3);
    simpl.
  { split; [reflexivity |]. left. repeat split. intros res H. discriminate. }
  bind_cases E3;
    rewrite ?proj_app,
      ?(quiet_save_if_best see_train_epoch), ?(quiet_save_if_best see_report),
      ?(quiet_save_if_best see_test_pass) by reflexivity;
    simpl.
  { split; [reflexivity |]. left. repeat split. intros res H. discriminate. }
  match goal with
  | |- context [bind (test_pass T C TASK_NAME b epoch) _ ?w1] =>
      destruct (test_pass_gate b epoch w1 max Hmax) as [G1 [G2 [G3 G4]]]
  end.
  bind_cases E4; rewrite ?proj_app, ?G1, ?G2, ?G3; simpl.
  { split; [reflexivity |]. left. repeat split.
    - intros res H. discriminate.
    - intros Hg. rewrite Hg. reflexivity. }
  specialize (G4 _ eq_refl).
  rewrite ?app_nil_r.
  split; [reflexivity |]. right.
  eexists. split; [reflexivity |]. split; [reflexivity |].
  split; [exact G4 |]. eexists. reflexivity.
Qed.

End LoopBody.

Lemma near_end_le (max epoch : Z) : near_end max epoch = true <-> (max - epoch <= 5)%Z.
Proof. unfold near_end. apply Z.leb_le. Qed.

(** C4: in an iteration of the training loop, the test pass is run and
    its metrics are handed to the reporter exactly when
    [max_epoch - epoch <= 5]; otherwise no test pass is run and the
    reporter is given [None]. *)
Theorem epoch_body_test_gate
        T C TASK_NAME b metric save_path epoch result w max :
  conf_epoch C = Some max ->
  let r := epoch_body T C TASK_NAME b metric save_path epoch result w in
  (forall res, outcome r = inr res ->
     exists te,
       proj see_report (trace r) = [(epoch, te)] /\
       (te <> None <-> (max - epoch <= 5)%Z) /\
       (proj see_test_pass (trace r) = [epoch] <-> (max - epoch <= 5)%Z)) /\
  (~ (max - epoch <= 5)%Z -> proj see_test_pass (trace r) = []) /\
  (forall x, In x (proj see_report (trace r)) ->
     exists te, x = (epoch, te) /\ (te <> None <-> (max - epoch <= 5)%Z)).
Proof.
  intros Hmax r.
  destruct (epoch_body_marks T C TASK_NAME b metric save_path epoch result w max Hmax)
    as [_ [[Hr [Hno Ht]] | [te [Hr [Ht [Hte [res0 Hres]]]]]]]; fold r in Hr, Ht.
  - fold r in Hno. split; [intros res H; exfalso; exact (Hno res H) |].
    split.
    + intros Hn. apply Ht. destruct (near_end max epoch) eqn:E; [| reflexivity].
      apply near_end_le in E. contradiction.
    + intros x Hx. rewrite Hr in Hx. destruct Hx.
  - assert (Hgate : te <> None <-> (max - epoch <= 5)%Z).
    { rewrite <- near_end_le. destruct (near_end max epoch).
      - destruct Hte as [tm ->]. split; [reflexivity | discriminate].
      - subst te. split; [congruence | discriminate]. }
    split; [| split].
    + intros res _. exists te. split; [exact Hr |]. split; [exact Hgate |].
      rewrite Ht, <- near_end_le.
      destruct (near_end max epoch); split; congruence.
    + intros Hn. rewrite Ht. destruct (near_end max epoch) eqn:E; [| reflexivity].
      apply near_end_le in E. contradiction.
    + intros x Hx. rewrite Hr in Hx. destruct Hx as [<- | []].
      exists te. split; [reflexivity | exact Hgate].
Qed.

Lemma epoch_body_test_gate_witness :
  let early := epoch_body demo_extern long_config "" demo_built "top1" None 2 []
                          demo_world in
  let late := epoch_body demo_extern long_config "" demo_built "top1" None 3 []
                         demo_world in
  proj see_test_pass (trace early) = [] /\
  (exists te, proj see_report (trace late) = [(3%Z, te)] /\ te <> None).
Proof.
  intros early late. split.
  - apply (proj1 (proj2 (epoch_body_test_gate demo_extern long_config ""
                           demo_built "top1" None 2 [] demo_world 8 eq_refl))).
    simpl. lia.
  - assert (Hr : exists res, outcome late = inr res)
      by (vm_compute; eexists; reflexivity).
    destruct Hr as [res Hr].
    destruct (proj1 (epoch_body_test_gate demo_extern long_config ""
                       demo_built "top1" None 3 [] demo_world 8 eq_refl) res Hr)
      as [te [Hrep [Hte _]]].
    exists te. split; [exact Hrep |]. apply Hte. simpl. lia.
Defined.

(** ** Where the loop starts *)

Lemma range_cons (a b : Z) : (a < b)%Z -> range a b = a :: range (a + 1) b.
Proof.
  intros H. unfold range.
  replace (Z.to_nat (b - a)) with (S (Z.to_nat (b - (a + 1)))) by lia.
  simpl. rewrite Z.add_0_r. f_equal.
  rewrite <- seq_shift, map_map. apply map_ext. intros i. lia.
Qed.

Lemma range_ge (a b x : Z) : In x (range a b) -> (a <= x)%Z.
Proof.
  unfold range. intros H. apply in_map_iff in H. destruct H as [i [<- _]]. lia.
Qed.

Lemma firstn_In {A : Type} (n : nat) (l : list A) (x : A) :
  In x (firstn n l) -> In x l.
Proof.
  revert l. induction n as [| n IH]; intros [| y l]; simpl; try tauto.
  intros [H | H]; [left; exact H | right; apply IH, H].
Qed.

Section StartFacts.

Variable T : Extern.
Variable C : Config.
Variable TASK_NAME : string.

Lemma train_loop_passes b metric save_path max es :
  conf_epoch C = Some max ->
  forall result w,
    let r := for_each (epoch_body T C TASK_NAME b metric save_path) es result w in
    (exists n, proj see_train_epoch (trace r) = firstn n es) /\
    (forall res, outcome r = inr res -> proj see_train_epoch (trace r) = es).
Proof.
  intros Hmax. induction es as [| e es IH]; intros result w; simpl.
  - split; [exists O; reflexivity | reflexivity].
  - destruct (epoch_body_marks T C TASK_NAME b metric save_path e result w max Hmax)
      as [He _].
    bind_cases E; rewrite ?proj_app, He.
    + split; [exists 1%nat; destruct es; reflexivity |].
      intros res H. discriminate.
    + match goal with
      | |- context [for_each _ es ?s ?w1] =>
          destruct (IH s w1) as [[n Hn] Hall]
      end.
      split.
      * exists (S n). simpl. f_equal. exact Hn.
      * intros res H. simpl. f_equal. apply (Hall res H).
Qed.

Lemma build_max_epoch tag dataroot test_ratio cv_fold w b :
  outcome (build T C tag dataroot test_ratio cv_fold w) = inr b ->
  conf_epoch C = Some (max_epoch b).
Proof.
  unfold build. intros H.
  apply bind_inr_inv in H. destruct H as [max [Hmax H]].
  destruct (conf_epoch C) as [m |]; [| discriminate].
  simpl in Hmax. injection Hmax as ->.
  repeat (apply bind_inr_inv in H; destruct H as [? [_ H]]).
  simpl in H. injection H as <-. reflexivity.
Qed.

Lemma resume_start metric save_path w res s :
  outcome (resume T metric save_path w) = inr (res, s) ->
  match checkpoint_at save_path (w_fs w) with
  | Some data =>
      match dict_get "epoch" data with
      | Some v => value_succ T v = inr s
      | None => s = VInt 1
      end
  | None => s = VInt 1
  end.
Proof.
  unfold resume, checkpoint_at, load_state_dict, set_model, set_optimizer,
    set_scheduler, value_items, dict_mem.
  unfold_prims. simpl.
  destruct (truthy save_path); simpl.
  - destruct (dict_get (get_default save_path "") (w_fs w)) as [data |]; simpl.
    + repeat case_step; intros H; try discriminate;
        injection H as _ <-; reflexivity.
    + intros H. injection H as _ <-. reflexivity.
  - intros H. injection H as _ <-. reflexivity.
Qed.

(** [range] starts at an integer as it is. *)
Lemma bind_lift_inr {A B : Type} (a : A) (k : A -> M B) (w : World) :
  bind (lift (inr a)) k w = k a w.
Proof. unfold bind, lift, ret. simpl. destruct (k a w); reflexivity. Qed.

Lemma bind_lift_inl {A B : Type} (e : exn) (k : A -> M B) (w : World) :
  bind (lift (inl e)) k w = mkRun [] w (inl e).
Proof. reflexivity. Qed.

Lemma train_loop_start b metric save_path s z result w :
  range_start T s = inr z ->
  train_loop T C TASK_NAME b metric save_path s result w =
  for_each (epoch_body T C TASK_NAME b metric save_path)
           (range z (max_epoch b + 1)) result w.
Proof.
  intros H. unfold train_loop. rewrite H.
  exact (bind_lift_inr z
           (fun start => for_each (epoch_body T C TASK_NAME b metric save_path)
                                  (range start (max_epoch b + 1)) result) w).
Qed.

Lemma train_loop_fail b metric save_path s e result w :
  range_start T s = inl e ->
  train_loop T C TASK_NAME b metric save_path s result w = mkRun [] w (inl e).
Proof. intros H. unfold train_loop. rewrite H. reflexivity. Qed.

End StartFacts.

Section WholeRun.

Variable T : Extern.
Variable C : Config.
Variable TASK_NAME : string.

Lemma train_and_eval_starts_at
      tag dataroot test_ratio cv_fold metric save_path w max start :
  conf_epoch C = Some max ->
  (forall w' res s z, w_fs w' = w_fs w ->
                      outcome (resume T metric save_path w') = inr (res, s) ->
                      range_start T s = inr z ->
                      z = start) ->
  starts_at (train_and_eval T C TASK_NAME tag dataroot test_ratio cv_fold metric
                            save_path false w)
            start max.
Proof.
  intros Hmax Hstart. unfold starts_at, train_and_eval.
  bind_cases E1; rewrite ?proj_app, ?trace_build; simpl.
  { split; [exists O; reflexivity | intros a H; discriminate]. }
  pose proof (build_max_epoch T C tag dataroot test_ratio cv_fold w a E1) as Hb.
  rewrite Hmax in Hb. injection Hb as Hb.
  assert (Hq : forall w1, proj see_train_epoch (trace (resume T metric save_path w1)) = []).
  { intros w1. apply quiet_resume; reflexivity. }
  bind_cases E2; rewrite ?proj_app, ?Hq; simpl.
  { split; [exists O; reflexivity | intros x H; discriminate]. }
  destruct a0 as [res s]. simpl.
  destruct (range_start T s) as [e | z] eqn:Ez.
  { bind_cases E3; rewrite (train_loop_fail T C TASK_NAME _ _ _ _ _ _ _ Ez) in *;
      [| discriminate].
    simpl. split; [exists O; reflexivity | intros x H; discriminate]. }
  assert (Hs : z = start).
  { eapply Hstart; [| exact E2 | exact Ez]. apply keeps_fs_build. }
  subst z.
  match goal with
  | |- context [bind (train_loop _ _ _ _ _ _ _ ?r0) _ ?w1] =>
      destruct (train_loop_passes T C TASK_NAME a metric save_path max
                                  (range start (max + 1)) Hmax r0 w1)
        as [[n Hn] Hall]
  end.
  bind_cases E3; rewrite (train_loop_start T C TASK_NAME _ _ _ _ _ _ _ Ez) in *;
    rewrite <- Hb in *; rewrite ?proj_app; simpl; rewrite ?app_nil_r.
  - split; [exists n; exact Hn | intros x H; discriminate].
  - split; [exists n; exact Hn |]. intros x _. apply (Hall _ E3).
Qed.

(** A training run that gets past construction and [resume] is the
    events of [resume] followed by the training loop. *)
Lemma train_and_eval_after_resume
      tag dataroot test_ratio cv_fold metric save_path w b res s z :
  outcome (build T C tag dataroot test_ratio cv_fold w) = inr b ->
  let wb := final (build T C tag dataroot test_ratio cv_fold w) in
  outcome (resume T metric save_path wb) = inr (res, s) ->
  range_start T s = inr z ->
  continues_from T C TASK_NAME b metric save_path
    (train_and_eval T C TASK_NAME tag dataroot test_ratio cv_fold metric
                    save_path false w)
    (trace (resume T metric save_path wb)) z res
    (final (resume T metric save_path wb)).
Proof.
  intros E1 wb E2 Ez. subst wb. unfold continues_from, train_and_eval.
  rewrite (bind_ok _ _ _ _ E1). simpl. rewrite trace_build. simpl.
  rewrite (bind_ok _ _ _ _ E2). simpl.
  bind_cases E3; rewrite (train_loop_start T C TASK_NAME _ _ _ _ _ _ _ Ez) in *;
    rewrite E3; rewrite ?app_nil_r; repeat split; reflexivity.
Qed.

End WholeRun.

Section Restore.

Variable T : Extern.

(** [resume] on a checkpoint whose model state is a mapping. *)
Lemma resume_restores metric save_path data state w :
  checkpoint_at save_path (w_fs w) = Some data ->
  checkpoint_state data = Some state ->
  let r := resume T metric save_path w in
  trace r = restore_events data state /\
  final r = restored T data state w /\
  outcome r = match dict_get "epoch" data with
              | Some v =>
                  match value_succ T v with
                  | inr s => inr (checkpoint_best metric data, s)
                  | inl e => inl e
                  end
              | None => inr (checkpoint_best metric data, VInt 1)
              end.
Proof.
  unfold checkpoint_at, checkpoint_state, checkpoint_best, restore_events,
    restored, resume, load_state_dict, set_model, set_optimizer, set_scheduler,
    value_items, dict_mem.
  destruct (truthy save_path); [| discriminate]. intros Hf. simpl.
  unfold_prims. simpl. rewrite Hf. simpl.
  destruct (dict_get "model" data) as [[n | x | t | d] |] eqn:Em;
    try discriminate; simpl; rewrite ?Em; simpl.
  - intros Hs. injection Hs as Hs. subst state.
    destruct (dict_get metric data), (dict_get "optimizer" data),
      (dict_get "scheduler" data), (dict_get "epoch" data) as [ev |]; simpl;
      try destruct (value_succ T ev); simpl; repeat split; reflexivity.
  - destruct (dict_get "state_dict" data) as [[n | x | t | d] |] eqn:Es;
      try discriminate; simpl; rewrite ?Es; simpl;
      intros Hs; injection Hs as Hs; subst state;
      destruct (dict_get metric data), (dict_get "optimizer" data),
        (dict_get "scheduler" data), (dict_get "epoch" data) as [ev |]; simpl;
        try destruct (value_succ T ev); simpl; repeat split; reflexivity.
Qed.

(** Without a checkpoint [resume] does nothing. *)
Lemma resume_nothing metric save_path w :
  checkpoint_at save_path (w_fs w) = None ->
  resume T metric save_path w = mkRun [] w (inr ([], VInt 1)).
Proof.
  unfold resume, checkpoint_at, dict_mem. unfold bind at 1. simpl.
  destruct (truthy save_path); simpl; [| reflexivity].
  intros ->. reflexivity.
Qed.

End Restore.

(** C2: when the checkpoint at [save_path] holds an epoch number [N],
    [train_and_eval] restores the state and runs the training loop from
    epoch [N + 1]: once built, the run is the loads of the model state
    (under its normalised keys) and of the optimizer and scheduler
    states the checkpoint holds, followed by the training loop over the
    epochs [N + 1], [N + 2], ... run from the world these loads leave,
    with the best value the checkpoint holds; epoch [N] is not run
    again.  When the checkpoint holds no epoch number the state is
    restored as well and the loop starts at epoch 1; when there is no
    checkpoint nothing is restored and the loop starts at epoch 1 from
    the world as built. *)
Theorem train_and_eval_resumes_after_checkpoint
        T C TASK_NAME tag dataroot test_ratio cv_fold metric save_path w max :
  conf_epoch C = Some max ->
  let built := build T C tag dataroot test_ratio cv_fold w in
  let r := train_and_eval T C TASK_NAME tag dataroot test_ratio cv_fold metric
                          save_path false w in
  (forall data N,
     checkpoint_at save_path (w_fs w) = Some data ->
     dict_get "epoch" data = Some (VInt N) ->
     starts_at r (N + 1) max /\ ~ In N (proj see_train_epoch (trace r)) /\
     forall state b,
       checkpoint_state data = Some state -> outcome built = inr b ->
       continues_from T C TASK_NAME b metric save_path r
         (restore_events data state) (N + 1) (checkpoint_best metric data)
         (restored T data state (final built))) /\
  (forall data,
     checkpoint_at save_path (w_fs w) = Some data ->
     dict_get "epoch" data = None ->
     starts_at r 1 max /\
     forall state b,
       checkpoint_state data = Some state -> outcome built = inr b ->
       continues_from T C TASK_NAME b metric save_path r
         (restore_events data state) 1 (checkpoint_best metric data)
         (restored T data state (final built))) /\
  (checkpoint_at save_path (w_fs w) = None ->
   starts_at r 1 max /\
   forall b, outcome built = inr b ->
     continues_from T C TASK_NAME b metric save_path r [] 1 [] (final built)).
Proof.
  intros Hmax built r. subst built r.
  assert (Hfs : w_fs (final (build T C tag dataroot test_ratio cv_fold w)) = w_fs w)
    by apply keeps_fs_build.
  split; [| split].
  - intros data N Hck He.
    assert (Hs : starts_at (train_and_eval T C TASK_NAME tag dataroot test_ratio
                                           cv_fold metric save_path false w)
                           (N + 1) max).
    { apply train_and_eval_starts_at; [exact Hmax |].
      intros w' res s z Hw Hr Hz. apply resume_start in Hr.
      rewrite Hw, Hck, He in Hr. simpl in Hr. injection Hr as <-.
      simpl in Hz. injection Hz as <-. reflexivity. }
    split; [exact Hs |]. split.
    { destruct Hs as [[n Hn] _]. rewrite Hn. intros Hin.
      apply firstn_In, range_ge in Hin. lia. }
    intros state b Hst Hb.
    rewrite <- Hfs in Hck.
    destruct (resume_restores T metric save_path data state _ Hck Hst)
      as [Htr [Hfin Hout]].
    rewrite He in Hout. simpl in Hout.
    rewrite <- Htr, <- Hfin.
    apply train_and_eval_after_resume with (s := VInt (N + 1));
      [exact Hb | exact Hout | reflexivity].
  - intros data Hck He. split.
    { apply train_and_eval_starts_at; [exact Hmax |].
      intros w' res s z Hw Hr Hz. apply resume_start in Hr.
      rewrite Hw, Hck, He in Hr. subst s. injection Hz as <-. reflexivity. }
    intros state b Hst Hb.
    rewrite <- Hfs in Hck.
    destruct (resume_restores T metric save_path data state _ Hck Hst)
      as [Htr [Hfin Hout]].
    rewrite He in Hout.
    rewrite <- Htr, <- Hfin.
    apply train_and_eval_after_resume with (s := VInt 1);
      [exact Hb | exact Hout | reflexivity].
  - intros Hck. split.
    { apply train_and_eval_starts_at; [exact Hmax |].
      intros w' res s z Hw Hr Hz. apply resume_start in Hr.
      rewrite Hw, Hck in Hr. subst s. injection Hz as <-. reflexivity. }
    intros b Hb. rewrite <- Hfs in Hck.
    pose proof (resume_nothing T metric save_path _ Hck) as Hr.
    pose proof (train_and_eval_after_resume T C TASK_NAME tag dataroot test_ratio
                  cv_fold metric save_path w b [] (VInt 1) 1%Z Hb) as H.
    simpl in H. rewrite Hr in H. apply H; reflexivity.
Qed.

Lemma train_and_eval_resumes_after_checkpoint_witness :
  let r := train_and_eval demo_extern demo_config "" None "./data" 0 0 "top1"
                          (Some "ckpt.pth") false
                          (world_with_file demo_checkpoint1) in
  proj see_train_epoch (trace r) = [2; 3]%Z /\
  firstn 3 (trace r) = [EvLoadStateDict [("module.step", VInt 2)];
                        EvOptimizerLoad (VInt 0); EvSchedulerLoad (VInt 0)].
Proof.
  intros r.
  destruct (proj1 (train_and_eval_resumes_after_checkpoint demo_extern demo_config
                     "" None "./data" 0 0%Z "top1" (Some "ckpt.pth")
                     (world_with_file demo_checkpoint1) 3 eq_refl)
                  demo_checkpoint1 1%Z eq_refl eq_refl)
    as [[_ Hall] [_ Hcont]].
  fold r in Hall, Hcont.
  assert (Hr : exists res, outcome r = inr res)
    by (vm_compute; eexists; reflexivity).
  destruct Hr as [res Hr]. split; [rewrite (Hall res Hr); reflexivity |].
  destruct (Hcont [("module.step", VInt 2)] demo_built eq_refl eq_refl)
    as [Htr _].
  rewrite Htr. reflexivity.
Defined.

(** ** Evaluation only *)

Section EvalOnly.

Variable T : Extern.
Variable C : Config.
Variable TASK_NAME : string.

Lemma add_scalars_no_writer items epoch w :
  items <> [] ->
  add_scalars None items epoch w =
  mkRun [] w (inl (AttributeError "'NoneType' object has no attribute 'add_scalar'")).
Proof.
  destruct items as [| [k v] rest]; [congruence |]. intros _. reflexivity.
Qed.

(** A verbose pass without a writer never returns: an empty stream
    fails at the division, any other at the first scalar it would
    log. *)
Lemma run_epoch_no_writer_fails loader loss_fn optimizer desc epoch scheduler w :
  exists e,
    outcome (run_epoch T C TASK_NAME loader loss_fn optimizer desc epoch None
                       true scheduler w) = inl e.
Proof.
  destruct (outcome (run_epoch T C TASK_NAME loader loss_fn optimizer desc epoch
                               None true scheduler w)) as [e | m] eqn:E.
  - exists e. reflexivity.
  - exfalso. unfold run_epoch in E.
    apply bind_inr_inv in E. destruct E as [[] [_ E]]. cbv beta in E.
    change (final (emit (EvRunEpoch desc epoch optimizer) w)) with w in E.
    apply bind_inr_inv in E. destruct E as [[] [_ E]]. cbv beta in E.
    rewrite final_when_getitem in E.
    apply bind_inr_inv in E. destruct E as [st [Hst E]].
    pose proof Hst as Htot.
    eapply batches_totals in Htot; [| right; repeat split; reflexivity].
    destruct Htot as [Hsz [Hcnt [a [b [c [_ [Htot _]]]]]]].
    unfold epoch_end in E.
    destruct (acc_truediv (fst (fst st)) (snd (fst st))) as [x | m0] eqn:D.
    + revert E. unfold_prims.
      destruct (negb (String.eqb TASK_NAME "")), (conf_epoch C); simpl;
        discriminate.
    + apply acc_truediv_inv in D. destruct D as [Hn ->].
      assert (Hne : loader <> []).
      { intros ->. simpl in Hst. injection Hst as <-. simpl in Hn. congruence. }
      rewrite (Htot (or_intror Hne)) in E.
      revert E. unfold_prims.
      destruct (negb (String.eqb TASK_NAME "")), optimizer, (conf_epoch C); simpl;
        discriminate.
Qed.

(** In evaluation-only mode [train_and_eval] never returns. *)
Lemma only_eval_never_returns
      tag dataroot test_ratio cv_fold metric save_path w :
  exists e,
    outcome (train_and_eval T C TASK_NAME tag dataroot test_ratio cv_fold metric
                            save_path true w) = inl e.
Proof.
  unfold train_and_eval.
  bind_cases E1; [eexists; reflexivity |].
  bind_cases E2; [eexists; reflexivity |].
  unfold eval_only. rewrite bind_model_eval.
  bind_cases E3; [eexists; reflexivity |].
  match goal with
  | |- context [bind (run_epoch T C TASK_NAME ?l ?c false "valid" ?e None true false) ?k ?w1] =>
      destruct (run_epoch_no_writer_fails l c false "valid" e false w1) as [x Hx];
      rewrite (bind_err _ k w1 x Hx)
  end.
  eexists. reflexivity.
Qed.

(** It writes no checkpoint and makes no training pass either. *)
Lemma only_eval_no_write_no_training
      tag dataroot test_ratio cv_fold metric save_path w :
  let r := train_and_eval T C TASK_NAME tag dataroot test_ratio cv_fold metric
                          save_path true w in
  proj see_save (trace r) = [] /\ proj see_train_epoch (trace r) = [] /\
  w_fs (final r) = w_fs w.
Proof.
  assert (Hq : forall X (f : Event -> list X),
             above_batches f ->
             (forall d e, f (EvRunEpoch d e false) = []) ->
             (forall st, f (EvLoadStateDict st) = []) ->
             (forall v, f (EvOptimizerLoad v) = []) ->
             (forall v, f (EvSchedulerLoad v) = []) ->
             quiet f (train_and_eval T C TASK_NAME tag dataroot test_ratio cv_fold
                                     metric save_path true)).
  { intros X f Ha Hr H1 H2 H3. unfold train_and_eval, eval_only.
    pose proof (quiet_build T C f tag dataroot test_ratio cv_fold).
    pose proof (quiet_resume T f metric save_path H1 H2 H3).
    assert (forall l c d e wr, quiet f (run_epoch T C TASK_NAME l c false d e wr
                                                  true false))
      by (intros; apply quiet_run_epoch; auto).
    pose proof (quiet_model_eval f).
    quiet_tac. }
  simpl. split; [apply Hq; try reflexivity; apply above_batches_save |].
  split; [apply Hq; try reflexivity; apply above_batches_train_epoch |].
  pose proof (keeps_fs_build T C tag dataroot test_ratio cv_fold).
  pose proof (keeps_fs_resume T metric save_path).
  assert (Hk : keeps w_fs (train_and_eval T C TASK_NAME tag dataroot test_ratio
                                          cv_fold metric save_path true)).
  { unfold train_and_eval, eval_only.
    assert (forall l c d e wr, keeps w_fs (run_epoch T C TASK_NAME l c false d e wr
                                                     true false))
      by (intros; apply keeps_fs_run_epoch).
    quiet_tac. }
  apply Hk.
Qed.

End EvalOnly.

(** C7 at a failing input: evaluation only, with a checkpoint of epoch 10
    at [save_path].  The validation pass is run with [verbose=1] and
    [writer=None]; when it comes to log its first scalar it calls
    [add_scalar] on [None].  The run ends there with an [AttributeError]:
    no test pass, no validation metrics returned.  (No checkpoint is
    written and no training pass is made.) *)
Theorem only_eval_raises_attribute_error :
  let r := train_and_eval demo_extern demo_config "" (Some "run") "./data" 0 0
                          "top1" (Some "ckpt.pth") true
                          (world_with_file demo_wrapped) in
  outcome r = inl (AttributeError "'NoneType' object has no attribute 'add_scalar'") /\
  proj see_pass (trace r) = [EvRunEpoch "valid" 11 false] /\
  proj see_save (trace r) = [] /\
  w_fs (final r) = w_fs (world_with_file demo_wrapped).
Proof.
  repeat split; vm_compute; reflexivity.
Qed.

(** ** More on a pass *)

Section PassMore.

Variable T : Extern.
Variable C : Config.
Variable TASK_NAME : string.

Lemma quiet_batch_body_but {X : Type} (f : Event -> list X)
      loss_fn optimizer epoch verbose scheduler total b st :
  f EvZeroGrad = [] ->
  (forall x l t1 t5, f (EvForward x l t1 t5) = []) ->
  (forall g, f (EvBackward g) = []) ->
  (forall c, f (EvClipGradNorm c) = []) ->
  (forall g, f (EvOptimizerStep g) = []) ->
  (scheduler = true -> forall x, f (EvSchedulerStep x) = []) ->
  quiet f (batch_body T C loss_fn optimizer epoch verbose scheduler total b st).
Proof.
  intros H1 H2 H3 H4 H5 H6.
  unfold batch_body, zero_grad, model_forward, loss_backward, clip_grad_norm_,
    optimizer_do_step, scheduler_do_step.
  destruct scheduler; [specialize (H6 eq_refl) |]; simpl; quiet_tac.
Qed.

(** The exact result of a pass that returns. *)
Lemma run_epoch_result loader loss_fn optimizer desc epoch writer verbose
      scheduler w m :
  outcome (run_epoch T C TASK_NAME loader loss_fn optimizer desc epoch writer
                     verbose scheduler w) = inr m ->
  let loop := for_each (batch_body T C loss_fn optimizer epoch verbose scheduler
                                   (List.length loader))
                       loader (Accumulator_new, O, O) w in
  exists st m0,
    outcome loop = inr st /\
    acc_truediv (fst (fst st)) (snd (fst st)) = inr m0 /\
    m = (if optimizer
         then dict_set "lr" (opt_lr (w_optimizer (final loop))) m0
         else m0) /\
    no_logs (final (run_epoch T C TASK_NAME loader loss_fn optimizer desc epoch
                              writer verbose scheduler w)) = no_logs (final loop) /\
    outcome (when verbose (add_scalars writer (acc_items m) epoch) (final loop))
    = inr tt.
Proof.
  intros H loop. pose proof H as H0. unfold run_epoch in H.
  apply bind_inr_inv in H. destruct H as [[] [_ H]]. cbv beta in H.
  change (final (emit (EvRunEpoch desc epoch optimizer) w)) with w in H.
  apply bind_inr_inv in H. destruct H as [[] [Hv H]]. cbv beta in H.
  rewrite final_when_getitem in H.
  apply bind_inr_inv in H. destruct H as [st [Hst H]]. fold loop in Hst, H.
  exists st.
  assert (Hfin : no_logs (final (run_epoch T C TASK_NAME loader loss_fn optimizer
                                           desc epoch writer verbose scheduler w))
                 = no_logs (final loop)).
  { unfold run_epoch. rewrite (bind_ok _ _ _ tt) by reflexivity. simpl.
    rewrite (bind_ok _ _ _ tt Hv). simpl. rewrite final_when_getitem.
    fold loop. rewrite (bind_ok _ _ _ st Hst). simpl.
    apply final_epoch_end. }
  unfold epoch_end in H.
  apply bind_inr_inv in H. destruct H as [[] [_ H]].
  assert (Hw : forall c w1,
             final (when c (bind (lift (getitem "epoch" (conf_epoch C)))
                              (fun _ =>
                                 bind (lift (acc_truediv (fst (fst st))
                                                         (snd (fst st))))
                                      (fun _ => ret tt))) w1) = w1).
  { intros c w1. destruct c; [| reflexivity]. unfold_prims.
    destruct (conf_epoch C); simpl; [| reflexivity].
    destruct (acc_truediv (fst (fst st)) (snd (fst st))); reflexivity. }
  rewrite Hw in H.
  apply bind_inr_inv in H. destruct H as [m0 [Hm0 H]].
  destruct (acc_truediv (fst (fst st)) (snd (fst st))) as [e | m0'] eqn:E;
    simpl in Hm0; [discriminate |].
  injection Hm0 as ->. simpl in H. exists m0.
  apply bind_inr_inv in H. destruct H as [m1 [Hm1 H]].
  apply bind_inr_inv in H. destruct H as [[] [Hs H]].
  simpl in H. injection H as <-.
  assert (Hm : m1 = (if optimizer
                     then dict_set "lr" (opt_lr (w_optimizer (final loop))) m0
                     else m0) /\
               final ((if optimizer
                       then bind get_world
                                 (fun w0 => ret (dict_set "lr" (opt_lr (w_optimizer w0)) m0))
                       else ret m0) (final loop)) = final loop).
  { destruct optimizer; simpl in Hm1; injection Hm1 as <-; split; reflexivity. }
  destruct Hm as [-> Hf]. rewrite Hf in Hs.
  repeat split; try assumption; reflexivity.
Qed.

Lemma add_scalars_board d items epoch w :
  add_scalars (Some (SummaryWriter d)) items epoch w =
  mkRun (map (fun kv => EvAddScalar d (fst kv) (snd kv) epoch) items)
        (with_logs (logged d items epoch (w_logs w)) w) (inr tt).
Proof.
  revert w. induction items as [| [k v] rest IH]; intros w; simpl.
  - destruct w; reflexivity.
  - unfold bind. simpl. rewrite IH. reflexivity.
Qed.

Lemma add_scalars_dummy items epoch w :
  add_scalars (Some SummaryWriterDummy) items epoch w = mkRun [] w (inr tt).
Proof.
  induction items as [| [k v] rest IH]; simpl; [reflexivity |].
  unfold bind. simpl. rewrite IH. reflexivity.
Qed.

End PassMore.

Section PassExtras.

Variable T : Extern.
Variable C : Config.
Variable TASK_NAME : string.

Lemma keeps_frame_add_scalars writer items epoch :
  keeps frame (add_scalars writer items epoch).
Proof.
  induction items as [| [k v] rest IH]; simpl; quiet_tac.
  destruct writer as [[| d] |]; intros w; reflexivity.
Qed.

Lemma keeps_frame_eval_pass loader loss_fn desc epoch writer verbose :
  keeps frame
        (run_epoch T C TASK_NAME loader loss_fn false desc epoch writer verbose false).
Proof.
  pose proof keeps_frame_add_scalars.
  assert (forall b, keeps frame (model_forward T loss_fn b))
    by (intros b w; reflexivity).
  unfold run_epoch, epoch_end, batch_body. simpl. quiet_tac.
Qed.

Lemma quiet_update_eval_pass loader loss_fn desc epoch writer verbose :
  quiet see_update
        (run_epoch T C TASK_NAME loader loss_fn false desc epoch writer verbose false).
Proof.
  assert (Ha : forall items, quiet see_update (add_scalars writer items epoch)).
  { induction items as [| [key value] rest IH]; simpl; quiet_tac.
    destruct writer as [[| d] |]; simpl; auto with quiet.
    quiet_tac. }
  unfold run_epoch, epoch_end, batch_body, model_forward. simpl. quiet_tac.
Qed.

(** A batch without optimizer and scheduler changes the world by its
    forward pass only, also when it fails. *)
Lemma eval_batch_final loss_fn epoch verbose total b st w :
  final (batch_body T C loss_fn false epoch verbose false total b st w) =
  with_model (forward_state T (w_training w) (w_model w) b) w.
Proof.
  unfold batch_body. unfold_prims. simpl.
  destruct verbose; simpl; [| reflexivity].
  match goal with
  | |- context [acc_truediv ?a ?n] => destruct (acc_truediv a n)
  end; reflexivity.
Qed.

Lemma eval_batches_model loss_fn epoch verbose total l :
  forall st w,
    let r := for_each (batch_body T C loss_fn false epoch verbose false total)
                      l st w in
    exists k, (k <= List.length l)%nat /\
      no_logs (final r) =
        no_logs (with_model (fold_left (forward_state T (w_training w))
                                       (firstn k l) (w_model w)) w) /\
      w_logs (final r) = w_logs w /\
      (forall st', outcome r = inr st' -> k = List.length l).
Proof.
  induction l as [| b l IH]; intros st w; simpl.
  - exists O. split; [lia |]. split; [destruct w; reflexivity |].
    split; reflexivity.
  - pose proof (eval_batch_final loss_fn epoch verbose total b st w) as Hb.
    destruct (outcome (batch_body T C loss_fn false epoch verbose false total b st w))
      as [e | st1] eqn:E.
    + exists 1%nat. rewrite (bind_err _ _ _ _ E). simpl. rewrite Hb.
      split; [lia |]. split; [destruct l; reflexivity |].
      split; [reflexivity | intros st' H; discriminate].
    + rewrite (bind_ok _ _ _ _ E). simpl. rewrite Hb.
      destruct (IH st1 (with_model (forward_state T (w_training w) (w_model w) b) w))
        as [k [Hk [Hm [Hl Hok]]]].
      exists (S k). split; [lia |].
      split; [rewrite Hm; reflexivity |].
      split; [rewrite Hl; reflexivity |].
      intros st' H. f_equal. apply (Hok st' H).
Qed.

Lemma logged_other (d d' : string) items epoch logs :
  String.eqb d d' = false ->
  dict_get d (logged d' items epoch logs) = dict_get d logs.
Proof.
  intros Hd. revert logs. induction items as [| kv items IH]; intros logs; simpl.
  - reflexivity.
  - rewrite IH. unfold log_append. apply dict_get_set_other, Hd.
Qed.

(** Scalars go to the directory of the writer they are sent to. *)
Lemma add_scalars_logs (d : string) writer items epoch w :
  writer <> Some (SummaryWriter d) ->
  dict_get d (w_logs (final (add_scalars writer items epoch w))) =
  dict_get d (w_logs w).
Proof.
  intros Hw. destruct writer as [[| d'] |].
  - rewrite add_scalars_dummy. reflexivity.
  - rewrite add_scalars_board. simpl. apply logged_other.
    apply String.eqb_neq. intros ->. apply Hw. reflexivity.
  - destruct items as [| [k v] rest]; reflexivity.
Qed.

Lemma epoch_end_logs (d : string) optimizer epoch writer verbose st w :
  writer <> Some (SummaryWriter d) \/ verbose = false ->
  dict_get d (w_logs (final (epoch_end C TASK_NAME optimizer epoch writer verbose
                                       st w))) =
  dict_get d (w_logs w).
Proof.
  intros Hw. revert w.
  change (keeps (fun w => dict_get d (w_logs w))
                (epoch_end C TASK_NAME optimizer epoch writer verbose st)).
  assert (Ha : forall items,
             keeps (fun w => dict_get d (w_logs w))
                   (when verbose (add_scalars writer items epoch))).
  { intros items. destruct verbose; [| apply keeps_ret].
    destruct Hw as [Hw | Hw]; [| discriminate].
    intros w. apply add_scalars_logs, Hw. }
  unfold epoch_end.
  repeat (apply keeps_bind; [| intros ?]); try apply Ha; quiet_tac.
Qed.

Lemma epoch_end_scalars optimizer epoch writer verbose st w m0 :
  acc_truediv (fst (fst st)) (snd (fst st)) = inr m0 ->
  (reads_epoch TASK_NAME verbose = true -> conf_epoch C <> None) ->
  proj see_scalar (trace (epoch_end C TASK_NAME optimizer epoch writer verbose st w)) =
  match verbose, writer with
  | true, Some (SummaryWriter d) =>
      map (fun kv => (d, fst kv, snd kv, epoch))
          (if optimizer then dict_set "lr" (opt_lr (w_optimizer w)) m0 else m0)
  | _, _ => []
  end.
Proof.
  intros E He. unfold epoch_end. rewrite E.
  assert (Hmap : forall d (items : list (string * Q)),
             proj see_scalar
                  (map (fun kv => EvAddScalar d (fst kv) (snd kv) epoch) items) =
             map (fun kv => (d, fst kv, snd kv, epoch)) items).
  { intros d items. induction items as [| kv items IH]; simpl;
      [reflexivity | f_equal; exact IH]. }
  unfold reads_epoch in He.
  destruct verbose; [destruct writer as [[| d] |] |];
    destruct (negb (String.eqb TASK_NAME "")), optimizer;
    try (destruct (conf_epoch C); [| exfalso; apply He; reflexivity]);
    unfold_prims; simpl;
    rewrite ?add_scalars_dummy, ?add_scalars_board; simpl;
    rewrite ?app_nil_r, ?Hmap; try reflexivity;
    match goal with
    | |- context [add_scalars None ?items ?e ?v] =>
        destruct items as [| [k x] rest]; reflexivity
    end.
Qed.

End PassExtras.

(** X1: an evaluation pass ([optimizer] and [scheduler] both [None])
    makes no gradient, optimizer, scheduler or load call and leaves the
    gradients, the optimizer, the scheduler, the mode of the model and
    the checkpoint files as they were, whether it returns or fails.  The
    model changes by its forward passes only: its state is what the
    forward passes of the batches run, in order, make of it (all batches
    when the pass returns).  A tensorboard directory changes only if it
    is the one of the pass's writer and the pass is verbose. *)
Theorem eval_pass_frame
        T C TASK_NAME loader loss_fn desc epoch writer verbose w :
  let r := run_epoch T C TASK_NAME loader loss_fn false desc epoch writer
                     verbose false w in
  proj see_update (trace r) = [] /\
  frame (final r) = frame w /\
  (exists k, (k <= List.length loader)%nat /\
     w_model (final r) =
       fold_left (forward_state T (w_training w)) (firstn k loader) (w_model w) /\
     (forall m, outcome r = inr m -> k = List.length loader)) /\
  (forall d, writer <> Some (SummaryWriter d) \/ verbose = false ->
             dict_get d (w_logs (final r)) = dict_get d (w_logs w)).
Proof.
  simpl. split; [apply quiet_update_eval_pass |].
  split; [apply keeps_frame_eval_pass |].
  destruct (eval_batches_model T C loss_fn epoch verbose (List.length loader) loader
                               (Accumulator_new, O, O) w)
    as [k [Hk [Hm [Hl Hok]]]].
  unfold run_epoch. rewrite (bind_ok _ _ _ tt) by reflexivity. simpl.
  destruct (outcome (when verbose (bind (lift (getitem "epoch" (conf_epoch C)))
                                        (fun _ => ret tt)) w)) as [e | []] eqn:Ev.
  { rewrite (bind_err _ _ _ _ Ev). simpl. rewrite final_when_getitem.
    split; [| reflexivity].
    exists O. split; [lia |]. split; [reflexivity |]. intros m H. discriminate. }
  rewrite (bind_ok _ _ _ _ Ev). simpl. rewrite final_when_getitem.
  destruct (outcome (for_each (batch_body T C loss_fn false epoch verbose false
                                          (List.length loader))
                              loader (Accumulator_new, O, O) w)) as [e | st] eqn:Es.
  { rewrite (bind_err _ _ _ _ Es). simpl. split.
    - exists k. split; [exact Hk |].
      split; [exact (f_equal w_model Hm) | intros m H; discriminate].
    - intros d _. rewrite Hl. reflexivity. }
  rewrite (bind_ok _ _ _ _ Es). simpl. split.
  - exists k. split; [exact Hk |]. split.
    + pose proof (final_epoch_end C TASK_NAME false epoch writer verbose st
                    (final (for_each (batch_body T C loss_fn false epoch verbose false
                                                 (List.length loader))
                                     loader (Accumulator_new, O, O) w))) as He.
      exact (eq_trans (f_equal w_model He) (f_equal w_model Hm)).
    + intros m _. apply (Hok st eq_refl).
  - intros d Hd. rewrite (epoch_end_logs C TASK_NAME d _ _ _ _ _ _ Hd), Hl.
    reflexivity.
Qed.

(** X2: the mapping a pass returns has exactly the keys [loss], [top1],
    [top5], in that order, followed by [lr] when an optimizer was
    passed; [lr] is then the learning rate the optimizer has after the
    last batch. *)
Theorem run_epoch_returns_keys
        T C TASK_NAME loader loss_fn optimizer desc epoch writer verbose
        scheduler w m :
  let r := run_epoch T C TASK_NAME loader loss_fn optimizer desc epoch writer
                     verbose scheduler w in
  outcome r = inr m ->
  map fst m = ["loss"; "top1"; "top5"] ++ (if optimizer then ["lr"] else []) /\
  (optimizer = true -> dict_get "lr" m = Some (opt_lr (w_optimizer (final r)))).
Proof.
  intros r Hm. subst r. pose proof Hm as H.
  apply run_epoch_result in H.
  destruct H as [st [m0 [Hst [Hdiv [Hmm [Hfin _]]]]]].
  pose proof Hst as Htot.
  eapply batches_totals in Htot; [| right; repeat split; reflexivity].
  destruct Htot as [_ [_ [a [b [c [_ [Htot _]]]]]]].
  apply acc_truediv_inv in Hdiv. destruct Hdiv as [Hn Hm0].
  assert (Hne : loader <> []).
  { intros ->. simpl in Hst. injection Hst as <-. simpl in Hn. congruence. }
  rewrite (Htot (or_intror Hne)) in Hm0.
  apply (f_equal w_optimizer) in Hfin. unfold no_logs, with_logs in Hfin.
  simpl in Hfin. rewrite Hfin.
  subst m0. subst m. destruct optimizer; simpl.
  - split; [reflexivity |]. intros _. reflexivity.
  - split; [reflexivity |]. intros H. discriminate.
Qed.

Lemma run_epoch_returns_keys_witness :
  exists m,
    outcome (run_epoch demo_extern demo_config "" (trainloader demo_loaders)
                       CrossEntropyLoss true "train" 1
                       (Some SummaryWriterDummy) true false demo_world) = inr m /\
    map fst m = ["loss"; "top1"; "top5"; "lr"].
Proof.
  eexists. split; [vm_compute; reflexivity |].
  apply (run_epoch_returns_keys demo_extern demo_config "" (trainloader demo_loaders)
           CrossEntropyLoss true "train" 1%Z (Some SummaryWriterDummy) true false
           demo_world).
  vm_compute. reflexivity.
Defined.

(** X3: a pass that returns has sent to its tensorboard writer exactly
    the entries of the mapping it returns, in order, each under the
    pass's epoch, when it is verbose and the writer is a real one; a
    dummy writer or a pass that is not verbose logs nothing. *)
Theorem run_epoch_logs_what_it_returns
        T C TASK_NAME loader loss_fn optimizer desc epoch writer verbose
        scheduler w m :
  let r := run_epoch T C TASK_NAME loader loss_fn optimizer desc epoch writer
                     verbose scheduler w in
  outcome r = inr m ->
  proj see_scalar (trace r) =
  match verbose, writer with
  | true, Some (SummaryWriter d) => map (fun kv => (d, fst kv, snd kv, epoch)) m
  | _, _ => []
  end.
Proof.
  intros r Hm. subst r. pose proof Hm as H.
  apply run_epoch_result in H.
  destruct H as [st [m0 [Hst [Hdiv [Hmm _]]]]].
  unfold run_epoch. rewrite proj_bind. simpl.
  rewrite proj_bind.
  assert (Hq : proj see_scalar
                    (trace (when verbose (bind (lift (getitem "epoch" (conf_epoch C)))
                                               (fun _ => ret tt)) w)) = []).
  { destruct verbose; [destruct (conf_epoch C) |]; reflexivity. }
  rewrite Hq. simpl. pose proof Hm as Hm'.
  apply run_epoch_inr_inv in Hm. destruct Hm as [En _].
  assert (Hv : outcome (when verbose (bind (lift (getitem "epoch" (conf_epoch C)))
                                           (fun _ => ret tt)) w) = inr tt).
  { unfold enters in En. destruct verbose; [| reflexivity].
    destruct (conf_epoch C); [reflexivity | discriminate]. }
  rewrite Hv, final_when_getitem, proj_bind, Hst.
  rewrite (epoch_end_scalars C TASK_NAME optimizer epoch writer verbose st _ m0 Hdiv)
    by (eapply run_epoch_inr_epoch; exact Hm').
  subst m.
  match goal with
  | |- ?x ++ _ = _ => assert (Hl : x = [])
  end.
  { apply quiet_for_each. intros b s. apply quiet_batch_body_but; reflexivity. }
  rewrite Hl. reflexivity.
Qed.

Lemma run_epoch_logs_what_it_returns_witness :
  proj see_scalar
       (trace (run_epoch demo_extern demo_config "" (validloader demo_loaders)
                         CrossEntropyLoss false "valid" 2
                         (Some (SummaryWriter "./logs/run/valid")) true false
                         demo_world)) =
  [("./logs/run/valid", "loss", 5 # 3, 2%Z);
   ("./logs/run/valid", "top1", 15000 # 30000, 2%Z);
   ("./logs/run/valid", "top5", 3 # 3, 2%Z)].
Proof.
  rewrite (run_epoch_logs_what_it_returns demo_extern demo_config ""
             (validloader demo_loaders) CrossEntropyLoss false "valid" 2%Z
             (Some (SummaryWriter "./logs/run/valid")) true false demo_world
             (totals (5 # 3) (15000 # 30000) (3 # 3))).
  - reflexivity.
  - vm_compute. reflexivity.
Defined.

(** ** More on checkpoints *)

Lemma dict_get_none_notin {V : Type} (k : string) (d : Dict V) :
  dict_get k d = None -> ~ In k (map fst d).
Proof.
  induction d as [| [k1 v1] d IH]; simpl; intros H; [tauto |].
  destruct (String.eqb k k1) eqn:E; [discriminate |].
  apply String.eqb_neq in E. intros [Hin | Hin]; [congruence | exact (IH H Hin)].
Qed.

Lemma dict_set_keys_known {V : Type} (k : string) (v v0 : V) (d : Dict V) :
  dict_get k d = Some v0 -> map fst (dict_set k v d) = map fst d.
Proof.
  induction d as [| [k1 v1] d IH]; simpl; intros H; [discriminate |].
  destruct (String.eqb k k1) eqn:E; simpl.
  - apply String.eqb_eq in E. subst k1. reflexivity.
  - f_equal. apply IH, H.
Qed.

Lemma dict_set_keys {V : Type} (k : string) (v : V) (d : Dict V) :
  map fst (dict_set k v d) =
  if dict_mem k d then map fst d else map fst d ++ [k].
Proof.
  unfold dict_mem. destruct (dict_get k d) as [v0 |] eqn:E.
  - eapply dict_set_keys_known, E.
  - rewrite dict_set_fresh by (apply dict_get_none_notin, E).
    rewrite map_app. reflexivity.
Qed.

Lemma module_key_contains (k : string) :
  str_contains "module." (module_key k) = true.
Proof.
  destruct (str_contains "module." k) eqn:E.
  - rewrite module_key_present; assumption.
  - apply module_key_absent, E.
Qed.

Lemma module_keys_fold (items acc : Dict Value) :
  NoDup (map fst acc) ->
  Forall (fun k => str_contains "module." k = true) (map fst acc) ->
  let d := fold_left (fun d kv => dict_set (module_key (fst kv)) (snd kv) d)
                     items acc in
  NoDup (map fst d) /\
  Forall (fun k => str_contains "module." k = true) (map fst d) /\
  (forall k, In k (map fst acc) -> In k (map fst d)) /\
  (forall kv, In kv items -> In (module_key (fst kv)) (map fst d)).
Proof.
  revert acc. induction items as [| [k v] items IH]; intros acc Hnd Hall; simpl.
  - repeat split; try assumption; try tauto.
  - assert (Hnd' : NoDup (map fst (dict_set (module_key k) v acc))).
    { rewrite dict_set_keys. unfold dict_mem.
      destruct (dict_get (module_key k) acc) eqn:E; [exact Hnd |].
      apply NoDup_app; auto.
      - constructor; [tauto | constructor].
      - intros x Hx [<- | []]. eapply dict_get_none_notin; eassumption. }
    assert (Hall' : Forall (fun k => str_contains "module." k = true)
                           (map fst (dict_set (module_key k) v acc))).
    { rewrite dict_set_keys. destruct (dict_mem (module_key k) acc); [exact Hall |].
      apply Forall_app. split; [exact Hall |].
      constructor; [apply module_key_contains | constructor]. }
    assert (Hin : In (module_key k) (map fst (dict_set (module_key k) v acc))).
    { rewrite dict_set_keys. unfold dict_mem.
      destruct (dict_get (module_key k) acc) eqn:E.
      - clear - E. induction acc as [| [k1 v1] acc IHa]; simpl in *; [discriminate |].
        destruct (String.eqb (module_key k) k1) eqn:E1.
        + left. apply String.eqb_eq in E1. symmetry. exact E1.
        + right. apply IHa, E.
      - apply in_or_app. right. left. reflexivity. }
    assert (Hsub : forall x, In x (map fst acc) ->
                             In x (map fst (dict_set (module_key k) v acc))).
    { intros x Hx. rewrite dict_set_keys.
      destruct (dict_mem (module_key k) acc); [exact Hx |].
      apply in_or_app. left. exact Hx. }
    destruct (IH _ Hnd' Hall') as [H1 [H2 [H3 H4]]].
    repeat split; try assumption.
    + intros x Hx. apply H3, Hsub, Hx.
    + intros kv [<- | Hkv]; [apply H3, Hin | apply H4, Hkv].
Qed.

(** X4: whatever state a checkpoint holds, the dict handed to
    [load_state_dict] has no key twice, every one of its keys contains
    ["module."], and every key of the state is there in its normalised
    form. *)
Theorem module_keys_normalised (items : Dict Value) :
  NoDup (map fst (module_keys items)) /\
  Forall (fun k => str_contains "module." k = true) (map fst (module_keys items)) /\
  (forall kv, In kv items -> In (module_key (fst kv)) (map fst (module_keys items))).
Proof.
  destruct (module_keys_fold items [] (NoDup_nil _) (Forall_nil _))
    as [H1 [H2 [_ H4]]].
  repeat split; assumption.
Qed.

Section CheckpointFacts.

Variable T : Extern.

Lemma save_if_best_saved metric save_path epoch valid_metrics result w v :
  truthy save_path = true ->
  metric_value T valid_metrics metric = inr v ->
  improves T result v ->
  final (save_if_best T metric save_path epoch valid_metrics result w) =
  with_fs (dict_set (get_default save_path "") (checkpoint_of metric epoch v w)
                    (w_fs w)) w.
Proof.
  intros Ht Hv Hi. unfold improves in Hi.
  unfold save_if_best, metrics_getitem, torch_save, checkpoint_of, value_lt.
  rewrite Hv, Ht. unfold_prims.
  destruct (dict_get "best_valid" result) as [best |]; simpl; [| reflexivity].
  destruct best as [n | x | t | d]; simpl in Hi; try contradiction;
    try (destruct (tensor_scalar T t) as [e0 | x0]; [contradiction |]);
    apply Qltb_lt in Hi; simpl; rewrite Hi; reflexivity.
Qed.

Lemma checkpoint_of_entries metric epoch v w :
  metric <> "epoch" -> metric <> "model" -> metric <> "optimizer" ->
  metric <> "scheduler" ->
  checkpoint_of metric epoch v w =
  [("epoch", VInt epoch); (metric, VFloat v); ("model", VDict (w_model w));
   ("optimizer", opt_state (w_optimizer w));
   ("scheduler", sched_state (w_scheduler w))].
Proof.
  intros H1 H2 H3 H4.
  assert (E1 : String.eqb metric "epoch" = false) by (apply String.eqb_neq; exact H1).
  assert (E2 : String.eqb "model" metric = false)
    by (apply String.eqb_neq; congruence).
  assert (E3 : String.eqb "optimizer" metric = false)
    by (apply String.eqb_neq; congruence).
  assert (E4 : String.eqb "scheduler" metric = false)
    by (apply String.eqb_neq; congruence).
  unfold checkpoint_of. cbn [dict_set].
  rewrite E1. cbn [dict_set].
  change (String.eqb "model" "epoch") with false. cbv iota.
  rewrite E2. cbn [dict_set].
  change (String.eqb "optimizer" "epoch") with false. cbv iota.
  rewrite E3.
  change (String.eqb "optimizer" "model") with false. cbv iota.
  cbn [dict_set].
  change (String.eqb "scheduler" "epoch") with false. cbv iota.
  rewrite E4.
  change (String.eqb "scheduler" "model") with false. cbv iota.
  change (String.eqb "scheduler" "optimizer") with false. cbv iota.
  reflexivity.
Qed.

End CheckpointFacts.

Section ResumeMore.

Variable T : Extern.

(** Resuming from a checkpoint that holds everything. *)
Lemma resume_full metric path data state best o s n w :
  truthy (Some path) = true ->
  dict_get path (w_fs w) = Some data ->
  dict_get "model" data = Some (VDict state) ->
  dict_get metric data = Some best ->
  dict_get "optimizer" data = Some o ->
  dict_get "scheduler" data = Some s ->
  dict_get "epoch" data = Some (VInt n) ->
  let r := resume T metric (Some path) w in
  outcome r = inr ([("best_valid", best)], VInt (n + 1)) /\
  trace r = [EvLoadStateDict (module_keys state); EvOptimizerLoad o;
             EvSchedulerLoad s] /\
  w_model (final r) = model_load_state_dict T (w_model w) (module_keys state) /\
  w_optimizer (final r) = optimizer_load_state_dict T (w_optimizer w) o /\
  w_scheduler (final r) = scheduler_load_state_dict T (w_scheduler w) s.
Proof.
  intros Ht Hf Hm Hb Ho Hs He.
  unfold resume, load_state_dict, set_model, set_optimizer, set_scheduler,
    value_succ, value_items.
  unfold_prims. simpl in *.
  rewrite Ht, (dict_mem_get _ _ _ Hf), Hf. simpl.
  rewrite (dict_mem_get _ _ _ Hm). simpl.
  rewrite Hm. simpl. rewrite Hb. simpl. rewrite Ho. simpl. rewrite Hs. simpl.
  rewrite He. simpl. repeat split.
Qed.

End ResumeMore.

(** X5: what is saved can be resumed.  After [save_if_best] has written
    a checkpoint at [epoch] for the value [v] (the target metric not
    being one of the record's own keys), [resume] on that file restores
    the model from the saved parameters, the optimizer and the scheduler
    from their saved states, the best value [v], and sets the next epoch
    to [epoch + 1]. *)
Theorem checkpoint_round_trip
        T metric path epoch valid_metrics result w v :
  truthy (Some path) = true ->
  metric <> "epoch" -> metric <> "model" -> metric <> "optimizer" ->
  metric <> "scheduler" ->
  metric_value T valid_metrics metric = inr v ->
  improves T result v ->
  let saved := final (save_if_best T metric (Some path) epoch valid_metrics result w) in
  let r := resume T metric (Some path) saved in
  outcome r = inr ([("best_valid", VFloat v)], VInt (epoch + 1)) /\
  trace r = [EvLoadStateDict (module_keys (w_model w));
             EvOptimizerLoad (opt_state (w_optimizer w));
             EvSchedulerLoad (sched_state (w_scheduler w))] /\
  w_model (final r) = model_load_state_dict T (w_model w) (module_keys (w_model w)).
Proof.
  intros Ht H1 H2 H3 H4 Hv Hi saved r.
  assert (Hsaved : saved = with_fs (dict_set path (checkpoint_of metric epoch v w)
                                             (w_fs w)) w).
  { apply (save_if_best_saved T metric (Some path) epoch valid_metrics result w v
                              Ht Hv Hi). }
  assert (E1 : String.eqb metric "epoch" = false) by (apply String.eqb_neq; exact H1).
  assert (E2 : String.eqb "model" metric = false)
    by (apply String.eqb_neq; congruence).
  assert (E3 : String.eqb "optimizer" metric = false)
    by (apply String.eqb_neq; congruence).
  assert (E4 : String.eqb "scheduler" metric = false)
    by (apply String.eqb_neq; congruence).
  assert (E5 : String.eqb "epoch" metric = false)
    by (apply String.eqb_neq; congruence).
  destruct (resume_full T metric path (checkpoint_of metric epoch v w)
                        (w_model w) (VFloat v) (opt_state (w_optimizer w))
                        (sched_state (w_scheduler w)) epoch saved)
    as [Ho [Htr [Hm _]]]; try exact Ht;
    try (rewrite checkpoint_of_entries by assumption; unfold dict_get;
         rewrite ?E1, ?E2, ?E3, ?E4, ?E5, ?String.eqb_refl; reflexivity).
  - rewrite Hsaved. simpl. apply dict_get_set_same.
  - fold r in Ho, Htr, Hm. rewrite Hsaved in Hm. simpl in Hm.
    split; [exact Ho |]. split; [exact Htr | exact Hm].
Qed.

Lemma checkpoint_round_trip_witness :
  let saved := final (save_if_best demo_extern "top1" (Some "ckpt.pth") 2
                                   (totals (5 # 3) (55 # 100) 1) []
                                   (world_with_file demo_checkpoint1)) in
  outcome (resume demo_extern "top1" (Some "ckpt.pth") saved) =
  inr ([("best_valid", VFloat (55 # 100))], VInt 3).
Proof.
  intros saved.
  apply (checkpoint_round_trip demo_extern "top1" "ckpt.pth" 2%Z
           (totals (5 # 3) (55 # 100) 1) [] (world_with_file demo_checkpoint1)
           (55 # 100));
    try discriminate; try reflexivity.
Defined.

(** X6: a checkpoint whose ["model"] entry (or, without one, whose
    ["state_dict"] entry) is not a mapping is refused with an
    [AttributeError] before anything is loaded: the model, the optimizer
    and the scheduler stay as built. *)
Theorem resume_refuses_malformed_model T metric path data v w :
  truthy (Some path) = true ->
  dict_get path (w_fs w) = Some data ->
  (dict_get "model" data = Some v \/
   (dict_get "model" data = None /\ dict_get "state_dict" data = Some v)) ->
  (forall d, v <> VDict d) ->
  resume T metric (Some path) w =
  mkRun [] w (inl (AttributeError "object has no attribute 'items'")).
Proof.
  intros Ht Hf Hd Hv.
  unfold resume, load_state_dict, set_model, value_items.
  unfold_prims. simpl in *.
  rewrite Ht, (dict_mem_get _ _ _ Hf), Hf. simpl.
  destruct Hd as [Hm | [Hm Hs]].
  - rewrite (dict_mem_get _ _ _ Hm). simpl. rewrite Hm. simpl.
    destruct v as [n | x | t | d]; try reflexivity.
    exfalso. exact (Hv d eq_refl).
  - rewrite (dict_mem_none _ _ Hm), (dict_mem_get _ _ _ Hs). simpl.
    rewrite Hs. simpl.
    destruct v as [n | x | t | d]; try reflexivity.
    exfalso. exact (Hv d eq_refl).
Qed.

Lemma resume_refuses_malformed_model_witness :
  outcome (resume demo_extern "top1" (Some "ckpt.pth")
                  (world_with_file [("epoch", VInt 4); ("model", VTensor 7)])) =
  inl (AttributeError "object has no attribute 'items'").
Proof.
  rewrite (resume_refuses_malformed_model demo_extern "top1" "ckpt.pth"
             [("epoch", VInt 4); ("model", VTensor 7)] (VTensor 7)
             (world_with_file [("epoch", VInt 4); ("model", VTensor 7)])).
  - reflexivity.
  - reflexivity.
  - reflexivity.
  - left. reflexivity.
  - intros d H. discriminate.
Defined.

(** ** More on the whole run *)

Lemma keeps_view {Y Z A : Type} (g : World -> Y) (h : Y -> Z) (m : M A) :
  keeps g m -> keeps (fun w => h (g w)) m.
Proof. intros H w. rewrite H. reflexivity. Qed.

Section RunFacts.

Variable T : Extern.
Variable C : Config.
Variable TASK_NAME : string.

(** A run is quiet for an observer when its parts are. *)
Lemma quiet_train_and_eval {X : Type} (f : Event -> list X)
      tag dataroot test_ratio cv_fold metric save_path only_eval :
  (forall l c o d e wr v s, quiet f (run_epoch T C TASK_NAME l c o d e wr v s)) ->
  quiet f (resume T metric save_path) ->
  (forall e vm res, quiet f (save_if_best T metric save_path e vm res)) ->
  (forall e tm vm te, f (EvReport e tm vm te) = []) ->
  (forall x, f (EvSchedulerStep x) = []) ->
  quiet f (train_and_eval T C TASK_NAME tag dataroot test_ratio cv_fold metric
                          save_path only_eval).
Proof.
  intros Hr Hres Hs Hrep Hsch.
  pose proof (quiet_build T C f tag dataroot test_ratio cv_fold).
  pose proof (quiet_scheduler_step T f) as Hq.
  unfold train_and_eval, eval_only, train_loop, epoch_body, test_pass.
  quiet_tac.
Qed.

(** A run keeps a view of the files when saving does. *)
Lemma keeps_train_and_eval {Z : Type} (h : Dict (Dict Value) -> Z)
      tag dataroot test_ratio cv_fold metric save_path only_eval :
  (forall e vm res,
     keeps (fun w => h (w_fs w)) (save_if_best T metric save_path e vm res)) ->
  keeps (fun w => h (w_fs w))
        (train_and_eval T C TASK_NAME tag dataroot test_ratio cv_fold metric
                        save_path only_eval).
Proof.
  intros Hs.
  pose proof (keeps_view w_fs h _ (keeps_fs_build T C tag dataroot test_ratio cv_fold)).
  pose proof (keeps_view w_fs h _ (keeps_fs_resume T metric save_path)).
  assert (forall l c o d e wr v s,
             keeps (fun w => h (w_fs w)) (run_epoch T C TASK_NAME l c o d e wr v s))
    by (intros; apply (keeps_view w_fs h), keeps_fs_run_epoch).
  assert (forall x, keeps (fun w => h (w_fs w)) (scheduler_do_step T x))
    by (intros; apply (keeps_view w_fs h), keeps_fs_scheduler_do_step).
  assert (keeps (fun w => h (w_fs w)) model_train) by (intros w; reflexivity).
  assert (keeps (fun w => h (w_fs w)) model_eval) by (intros w; reflexivity).
  unfold train_and_eval, eval_only, train_loop, epoch_body, test_pass.
  quiet_tac.
Qed.

Lemma quiet_run_epoch_above {X : Type} (f : Event -> list X) :
  above_batches f ->
  (forall d e o, f (EvRunEpoch d e o) = []) ->
  forall l c o d e wr v s, quiet f (run_epoch T C TASK_NAME l c o d e wr v s).
Proof.
  intros Ha Hr l c o d e wr v s. apply quiet_run_epoch; [exact Ha | apply Hr].
Qed.

Lemma keeps_other_file_save_if_best p metric save_path e vm res :
  String.eqb p (get_default save_path "") = false ->
  keeps (fun w => dict_get p (w_fs w)) (save_if_best T metric save_path e vm res).
Proof.
  intros Hp.
  assert (Ht : forall obj, keeps (fun w => dict_get p (w_fs w))
                                  (torch_save (get_default save_path "") obj)).
  { intros obj w. simpl. apply dict_get_set_other, Hp. }
  unfold save_if_best, metrics_getitem. quiet_tac.
Qed.

Lemma save_if_best_silent metric save_path e vm res w :
  truthy save_path = false ->
  trace (save_if_best T metric save_path e vm res w) = [] /\
  final (save_if_best T metric save_path e vm res w) = w.
Proof.
  intros Ht. unfold save_if_best, metrics_getitem. rewrite Ht.
  unfold_prims. simpl.
  destruct (dict_get "best_valid" res) as [best |]; simpl;
    destruct (metric_value T vm metric) as [x | v]; simpl;
    try (destruct (value_lt T best v) as [x | [|]]; simpl);
    split; reflexivity.
Qed.

End RunFacts.

(** *** The tensorboard directories *)

(** The facts [keeps g m] of the calls [m] that touch neither the files
    nor the logs, for a view [g] of these. *)
Ltac pose_keeps g :=
  assert (keeps g zero_grad) by (intros ?; reflexivity);
  assert (keeps g model_train) by (intros ?; reflexivity);
  assert (keeps g model_eval) by (intros ?; reflexivity);
  assert (forall T l b, keeps g (model_forward T l b))
    by (intros ? ? ? ?; reflexivity);
  assert (forall T l t m b, keeps g (loss_backward T l t m b))
    by (intros ? ? ? ? ? ?; reflexivity);
  assert (forall T c, keeps g (clip_grad_norm_ T c)) by (intros ? ? ?; reflexivity);
  assert (forall T, keeps g (optimizer_do_step T)) by (intros ? ?; reflexivity);
  assert (forall T x, keeps g (scheduler_do_step T x))
    by (intros ? ? ?; reflexivity);
  assert (forall m, keeps g (set_model m)) by (intros ? ?; reflexivity);
  assert (forall o, keeps g (set_optimizer o)) by (intros ? ?; reflexivity);
  assert (forall s, keeps g (set_scheduler s)) by (intros ? ?; reflexivity);
  assert (forall T st, keeps g (load_state_dict T st))
    by (intros ? ? ?; reflexivity).

Section FileFacts.

Variable T : Extern.
Variable C : Config.
Variable TASK_NAME : string.

(** Making the writers cannot fail; it makes their directories. *)
Lemma new_writers tag l w :
  map_m (new_writer tag) l w =
  mkRun [] (with_logs (opened tag l (w_logs w)) w) (inr (map (writer_of tag) l)).
Proof.
  unfold opened, writer_of, new_writer. destruct (truthy tag).
  - revert w. induction l as [| x l IH]; intros w; simpl.
    + destruct w; reflexivity.
    + unfold bind at 1. simpl. unfold bind at 1. rewrite IH. reflexivity.
  - induction l as [| x l IH]; simpl.
    + destruct w; reflexivity.
    + unfold bind at 1. simpl. unfold bind at 1. rewrite IH. reflexivity.
Qed.

Lemma build_writers_of tag dataroot test_ratio cv_fold w b :
  outcome (build T C tag dataroot test_ratio cv_fold w) = inr b ->
  writers b = map (writer_of tag) ["train"; "valid"; "test"].
Proof.
  unfold build. intros H.
  repeat (apply bind_inr_inv in H; destruct H as [? [? H]]).
  simpl in H. injection H as <-. simpl.
  match goal with
  | Hm : outcome (map_m _ _ _) = inr _ |- _ =>
      rewrite new_writers in Hm; injection Hm as <-
  end.
  reflexivity.
Qed.

(** Construction makes the directories of the writers, last of all. *)
Lemma build_logs tag dataroot test_ratio cv_fold w :
  w_logs (final (build T C tag dataroot test_ratio cv_fold w)) =
  match outcome (build T C tag dataroot test_ratio cv_fold w) with
  | inr _ => opened tag ["train"; "valid"; "test"] (w_logs w)
  | inl _ => w_logs w
  end.
Proof.
  assert (Hk : forall (A : Type) (m : M A) (k : A -> M Built),
             keeps w_logs m ->
             (forall a w1,
                 w_logs (final (k a w1)) =
                 match outcome (k a w1) with
                 | inr _ => opened tag ["train"; "valid"; "test"] (w_logs w1)
                 | inl _ => w_logs w1
                 end) ->
             forall w1,
               w_logs (final (bind m k w1)) =
               match outcome (bind m k w1) with
               | inr _ => opened tag ["train"; "valid"; "test"] (w_logs w1)
               | inl _ => w_logs w1
               end).
  { intros A m k Hm Hkk w1.
    destruct (outcome (m w1)) as [e | a] eqn:E.
    - rewrite (bind_err _ _ _ _ E). simpl. apply Hm.
    - rewrite (bind_ok _ _ _ _ E). simpl. rewrite Hkk, Hm. reflexivity. }
  pose_keeps w_logs.
  assert (Hn : forall k, keeps w_logs (new_scheduler T k)).
  { intros k. unfold new_scheduler. quiet_tac. }
  unfold build.
  repeat (apply Hk; [solve [quiet_tac] | intros ? ?]).
  match goal with
  | |- context [bind (map_m ?f ?l) ?k ?w1] =>
      rewrite (bind_ok (map_m f l) k w1 (map (writer_of tag) l))
        by (rewrite new_writers; reflexivity)
  end.
  rewrite new_writers. reflexivity.
Qed.

Lemma log_open_other (d d' : string) logs :
  d <> d' -> dict_get d (log_open d' logs) = dict_get d logs.
Proof.
  intros Hd. unfold log_open. destruct (dict_get d' logs); [reflexivity |].
  apply dict_get_set_other, String.eqb_neq, Hd.
Qed.

Lemma opened_other (d : string) tag l logs :
  ~ In d (map (log_dir tag) l) ->
  dict_get d (opened tag l logs) = dict_get d logs.
Proof.
  unfold opened. destruct (truthy tag); [| reflexivity].
  revert logs. induction l as [| x l IH]; intros logs Hd; simpl; [reflexivity |].
  rewrite IH by (intros Hin; apply Hd; right; exact Hin).
  apply log_open_other. intros ->. apply Hd. left. reflexivity.
Qed.

Lemma opened_no_tag tag l logs : truthy tag = false -> opened tag l logs = logs.
Proof. intros Ht. unfold opened. rewrite Ht. reflexivity. Qed.

(** A pass keeps a view of the logs that the scalars it sends keep. *)
Lemma keeps_logs_run_epoch {Z : Type} (h : Dict (list Scalar) -> Z)
      l c o d e wr v s :
  (forall items w, h (w_logs (final (add_scalars wr items e w))) = h (w_logs w)) ->
  keeps (fun w => h (w_logs w)) (run_epoch T C TASK_NAME l c o d e wr v s).
Proof.
  intros Ha.
  assert (forall items, keeps (fun w => h (w_logs w)) (add_scalars wr items e))
    by (intros items w; apply Ha).
  pose_keeps (fun w => h (w_logs w)).
  unfold run_epoch, epoch_end, batch_body. quiet_tac.
Qed.

Lemma add_scalars_none items e w : final (add_scalars None items e w) = w.
Proof. destruct items as [| [k v] rest]; reflexivity. Qed.

(** A run keeps a view of the logs that the making of its writers and
    the scalars sent to them keep. *)
Lemma keeps_logs_train_and_eval {Z : Type} (h : Dict (list Scalar) -> Z)
      tag dataroot test_ratio cv_fold metric save_path only_eval :
  (forall logs, h (opened tag ["train"; "valid"; "test"] logs) = h logs) ->
  (forall x items e w,
      In x ["train"; "valid"; "test"] ->
      h (w_logs (final (add_scalars (Some (writer_of tag x)) items e w))) =
      h (w_logs w)) ->
  keeps (fun w => h (w_logs w))
        (train_and_eval T C TASK_NAME tag dataroot test_ratio cv_fold metric
                        save_path only_eval).
Proof.
  intros Ho Ha w. unfold train_and_eval. rewrite final_bind.
  pose proof (build_logs tag dataroot test_ratio cv_fold w) as Hb.
  destruct (outcome (build T C tag dataroot test_ratio cv_fold w)) as [e | b] eqn:E.
  { rewrite Hb. reflexivity. }
  pose proof (build_writers_of tag dataroot test_ratio cv_fold w b E) as Hw.
  transitivity (h (w_logs (final (build T C tag dataroot test_ratio cv_fold w))));
    [| rewrite Hb; apply Ho].
  assert (Hp : forall l c o d e i v s,
             keeps (fun w => h (w_logs w))
                   (run_epoch T C TASK_NAME l c o d e (nth_writer (writers b) i) v s)).
  { intros. apply keeps_logs_run_epoch. intros items w0. rewrite Hw.
    unfold nth_writer.
    destruct i as [| [| [| i]]]; simpl; try (apply Ha; simpl; tauto).
    destruct i; simpl; rewrite add_scalars_none; reflexivity. }
  assert (Hn : forall l c o d e v s,
             keeps (fun w => h (w_logs w))
                   (run_epoch T C TASK_NAME l c o d e None v s)).
  { intros. apply keeps_logs_run_epoch. intros items w0.
    rewrite add_scalars_none. reflexivity. }
  pose_keeps (fun w => h (w_logs w)).
  assert (Hres : keeps (fun w => h (w_logs w)) (resume T metric save_path)).
  { unfold resume. quiet_tac. }
  assert (Hs : forall e vm res,
             keeps (fun w => h (w_logs w))
                   (save_if_best T metric save_path e vm res)).
  { intros. assert (forall p obj, keeps (fun w => h (w_logs w)) (torch_save p obj))
      by (intros ? ? ?; reflexivity).
    unfold save_if_best, metrics_getitem. quiet_tac. }
  match goal with
  | |- h (w_logs (final (?m ?w1))) = _ =>
      assert (Hm : keeps (fun w => h (w_logs w)) m)
  end.
  { unfold eval_only, train_loop, epoch_body, test_pass. quiet_tac. }
  apply Hm.
Qed.

(** A run touches no log directory but its own. *)
Lemma train_and_eval_other_logs
      tag dataroot test_ratio cv_fold metric save_path only_eval w d :
  ~ In d (log_dirs tag) ->
  dict_get d (w_logs (final (train_and_eval T C TASK_NAME tag dataroot test_ratio
                                            cv_fold metric save_path only_eval w))) =
  dict_get d (w_logs w).
Proof.
  intros Hd.
  apply (keeps_logs_train_and_eval (dict_get d)).
  - intros logs. destruct (truthy tag) eqn:Ht.
    + apply opened_other. unfold log_dirs in Hd. rewrite Ht in Hd. exact Hd.
    + rewrite opened_no_tag by exact Ht. reflexivity.
  - intros x items e w0 Hx. apply add_scalars_logs.
    unfold writer_of, log_dirs in *. destruct (truthy tag); [| discriminate].
    intros H. injection H as H. apply Hd. rewrite <- H.
    apply in_map, Hx.
Qed.

End FileFacts.



Lemma no_save_path_no_checkpoint
      T C TASK_NAME tag dataroot test_ratio cv_fold metric save_path only_eval w :
  truthy save_path = false ->
  let r := train_and_eval T C TASK_NAME tag dataroot test_ratio cv_fold metric
                          save_path only_eval w in
  proj see_restore (trace r) = [] /\
  proj see_save (trace r) = [] /\
  w_fs (final r) = w_fs w.
Proof.
  intros Ht. simpl.
  assert (Hres : forall X (f : Event -> list X), quiet f (resume T metric save_path)).
  { intros X f w0. rewrite resume_nothing; [reflexivity |].
    unfold checkpoint_at. rewrite Ht. reflexivity. }
  assert (Hs : forall X (f : Event -> list X) e vm res,
             quiet f (save_if_best T metric save_path e vm res)).
  { intros X f e vm res w0.
    destruct (save_if_best_silent T metric save_path e vm res w0 Ht) as [-> _].
    reflexivity. }
  split; [| split].
  - apply quiet_train_and_eval; try reflexivity; auto.
    apply quiet_run_epoch_above; [intros []; simpl; congruence | reflexivity].
  - apply quiet_train_and_eval; try reflexivity; auto.
    apply quiet_run_epoch_above; [intros []; simpl; congruence | reflexivity].
  - apply (keeps_train_and_eval T C TASK_NAME (fun fs => fs)).
    intros e vm res w0.
    destruct (save_if_best_silent T metric save_path e vm res w0 Ht) as [_ ->].
    reflexivity.
Qed.

(** Without a tag a run touches no tensorboard directory. *)
Lemma no_tag_no_logs
      T C TASK_NAME tag dataroot test_ratio cv_fold metric save_path only_eval w :
  truthy tag = false ->
  w_logs (final (train_and_eval T C TASK_NAME tag dataroot test_ratio cv_fold
                                metric save_path only_eval w)) = w_logs w.
Proof.
  intros Ht.
  apply (keeps_logs_train_and_eval T C TASK_NAME (fun logs => logs)).
  - intros logs. apply opened_no_tag, Ht.
  - intros x items e w0 _. unfold writer_of. rewrite Ht.
    rewrite add_scalars_dummy. reflexivity.
Qed.



Section IterationFacts.

Variable T : Extern.
Variable C : Config.
Variable TASK_NAME : string.

Lemma test_pass_unfold b epoch w max :
  conf_epoch C = Some max ->
  test_pass T C TASK_NAME b epoch w =
  if near_end max epoch
  then bind (run_epoch T C TASK_NAME (testloader_ (loaders b)) (criterion b) false
                       "test " epoch (nth_writer (writers b) 2) true false)
            (fun tm => ret (Some tm)) w
  else mkRun [] w (inr None).
Proof.
  intros Hmax. unfold test_pass, near_end. rewrite Hmax.
  unfold bind at 1. simpl.
  destruct (max - epoch <=? 5)%Z; [| reflexivity].
  match goal with |- match ?x with _ => _ end = _ => destruct x end.
  reflexivity.
Qed.

(** Seen by an observer of the loop's steps, a pass without a per-batch
    scheduler is its entry marker. *)
Lemma proj_pass_no_scheduler {X : Type} (f : Event -> list X)
      loader loss_fn optimizer desc epoch writer verbose w :
  f EvZeroGrad = [] ->
  (forall x l t1 t5, f (EvForward x l t1 t5) = []) ->
  (forall g, f (EvBackward g) = []) ->
  (forall c, f (EvClipGradNorm c) = []) ->
  (forall g, f (EvOptimizerStep g) = []) ->
  (forall d k v e, f (EvAddScalar d k v e) = []) ->
  proj f (trace (run_epoch T C TASK_NAME loader loss_fn optimizer desc epoch writer
                           verbose false w)) =
  f (EvRunEpoch desc epoch optimizer).
Proof.
  intros H1 H2 H3 H4 H5 H6.
  rewrite (proj_run_epoch_batches T C TASK_NAME f H6).
  destruct (enters C verbose); [| apply app_nil_r].
  rewrite quiet_for_each; [apply app_nil_r |].
  intros b s. apply quiet_batch_body_but; try assumption. discriminate.
Qed.

Lemma test_pass_proj {X : Type} (f : Event -> list X) b epoch w max :
  conf_epoch C = Some max ->
  f EvZeroGrad = [] ->
  (forall x l t1 t5, f (EvForward x l t1 t5) = []) ->
  (forall g, f (EvBackward g) = []) ->
  (forall c, f (EvClipGradNorm c) = []) ->
  (forall g, f (EvOptimizerStep g) = []) ->
  (forall d k v e, f (EvAddScalar d k v e) = []) ->
  proj f (trace (test_pass T C TASK_NAME b epoch w)) =
  if near_end max epoch then f (EvRunEpoch "test " epoch false) else [].
Proof.
  intros Hmax H1 H2 H3 H4 H5 H6. rewrite (test_pass_unfold b epoch w max Hmax).
  destruct (near_end max epoch); [| reflexivity].
  rewrite proj_bind, proj_pass_no_scheduler by assumption.
  match goal with
  | |- _ ++ match ?o with _ => _ end = _ => destruct o
  end; apply app_nil_r.
Qed.

Lemma save_if_best_trace metric save_path epoch valid_metrics result w :
  trace (save_if_best T metric save_path epoch valid_metrics result w) = [] \/
  exists obj,
    truthy save_path = true /\
    trace (save_if_best T metric save_path epoch valid_metrics result w) =
    [EvSave (get_default save_path "") obj].
Proof.
  unfold save_if_best, metrics_getitem, torch_save.
  unfold_prims. simpl.
  destruct (dict_get "best_valid" result) as [best |]; simpl;
    destruct (metric_value T valid_metrics metric) as [x | v]; simpl;
    try (destruct (value_lt T best v) as [x | [|]]; simpl);
    try (left; reflexivity);
    destruct (truthy save_path); simpl;
    try (left; reflexivity);
    right; eexists; split; reflexivity.
Qed.

(** The steps of an iteration that completes. *)
Lemma epoch_body_shape b metric save_path epoch result w max res :
  conf_epoch C = Some max ->
  outcome (epoch_body T C TASK_NAME b metric save_path epoch result w) = inr res ->
  exists train valid te w1,
    proj see_step (trace (epoch_body T C TASK_NAME b metric save_path epoch result w)) =
      [EvRunEpoch "train" epoch true; EvRunEpoch "valid" epoch false] ++
      proj see_step (trace (save_if_best T metric save_path epoch valid result w1)) ++
      (if near_end max epoch then [EvRunEpoch "test " epoch false] else []) ++
      [EvReport epoch train valid te; EvSchedulerStep (inject_Z epoch)] /\
    proj see_valid (trace (epoch_body T C TASK_NAME b metric save_path epoch result w)) =
      [valid] /\
    outcome (save_if_best T metric save_path epoch valid result w1) = inr res.
Proof.
  intros Hmax. unfold epoch_body.
  assert (P1 : forall l c o d e wr v w0,
             proj see_step (trace (run_epoch T C TASK_NAME l c o d e wr v false w0)) =
             [EvRunEpoch d e o])
    by (intros; apply proj_pass_no_scheduler; reflexivity).
  assert (P2 : forall l c o d e wr v w0,
             proj see_valid (trace (run_epoch T C TASK_NAME l c o d e wr v false w0)) = [])
    by (intros; apply proj_pass_no_scheduler; reflexivity).
  rewrite bind_model_train.
  bind_cases E1; [discriminate |].
  rewrite bind_model_eval.
  bind_cases E2; [discriminate |].
  bind_cases E3; [discriminate |].
  bind_cases E4; [discriminate |].
  intros H. injection H as <-.
  exists a, a0. eexists. eexists.
  rewrite !proj_app, !P1, !P2, (quiet_save_if_best T see_valid) by reflexivity.
  rewrite !(test_pass_proj _ b epoch _ max Hmax) by reflexivity.
  simpl.
  split; [reflexivity |].
  split; [destruct (near_end max epoch); reflexivity | exact E3].
Qed.

End IterationFacts.

Section LoopViews.

Variable T : Extern.
Variable C : Config.
Variable TASK_NAME : string.

(** A training run, seen by an observer blind to [resume], is its loop,
    unless construction or [resume] fails. *)
Lemma train_and_eval_as_loop tag dataroot test_ratio cv_fold metric save_path w :
  let r := train_and_eval T C TASK_NAME tag dataroot test_ratio cv_fold metric
                          save_path false w in
  ((forall (X : Type) (f : Event -> list X),
      quiet f (resume T metric save_path) -> proj f (trace r) = []) /\
   w_fs (final r) = w_fs w /\
   exists e, outcome r = inl e) \/
  (exists b res sv s w1,
     conf_epoch C = Some (max_epoch b) /\
     w_fs w1 = w_fs w /\
     (outcome (resume T metric save_path
                      (final (build T C tag dataroot test_ratio cv_fold w)))
      = inr (res, sv) /\ range_start T sv = inr s) /\
     let loop := for_each (epoch_body T C TASK_NAME b metric save_path)
                          (range s (max_epoch b + 1)) res w1 in
     (forall (X : Type) (f : Event -> list X),
        quiet f (resume T metric save_path) ->
        proj f (trace r) = proj f (trace loop)) /\
     outcome r = match outcome loop with
                 | inr x => inr (RetResult x)
                 | inl e => inl e
                 end /\
     w_fs (final r) = w_fs (final loop)).
Proof.
  unfold train_and_eval.
  bind_cases E1; rewrite ?trace_build; simpl.
  { left. split; [reflexivity |].
    split; [apply keeps_fs_build | eexists; reflexivity]. }
  bind_cases E2.
  { left. split; [intros X f Hq; apply Hq |].
    split; [rewrite keeps_fs_resume; apply keeps_fs_build | eexists; reflexivity]. }
  destruct a0 as [res sv]. simpl.
  destruct (range_start T sv) as [e | s] eqn:Ez.
  { left.
    bind_cases E3; rewrite (train_loop_fail T C TASK_NAME _ _ _ _ _ _ _ Ez) in *;
      [| discriminate].
    simpl. rewrite app_nil_r.
    split; [intros X f Hq; apply Hq |].
    split; [rewrite keeps_fs_resume; apply keeps_fs_build | eexists; reflexivity]. }
  right. exists a, res, sv, s.
  exists (final (resume T metric save_path
                        (final (build T C tag dataroot test_ratio cv_fold w)))).
  split; [eapply build_max_epoch, E1 |].
  split; [rewrite keeps_fs_resume; apply keeps_fs_build |].
  split; [split; [reflexivity | exact Ez] |].
  bind_cases E3; rewrite (train_loop_start T C TASK_NAME _ _ _ _ _ _ _ Ez) in *;
    rewrite E3; rewrite ?app_nil_r;
    (split; [intros X f Hq; rewrite proj_app, Hq; reflexivity |]);
    split; reflexivity.
Qed.

Lemma quiet_sched_pass l c o d e wr v :
  quiet see_scheduler (run_epoch T C TASK_NAME l c o d e wr v false).
Proof. intros w. apply proj_pass_no_scheduler; reflexivity. Qed.

(** The scheduler is advanced right after each report, to its epoch. *)
Lemma epoch_body_scheduler b metric save_path epoch result w :
  proj see_scheduler (trace (epoch_body T C TASK_NAME b metric save_path epoch result w)) =
  map (fun x => inject_Z (fst x))
      (proj see_report (trace (epoch_body T C TASK_NAME b metric save_path epoch
                                          result w))).
Proof.
  unfold epoch_body.
  assert (P1 : forall l c o d e wr v w0,
             proj see_scheduler (trace (run_epoch T C TASK_NAME l c o d e wr v false w0)) = [])
    by (intros; apply quiet_sched_pass).
  assert (P2 : forall l c o d e wr v w0,
             proj see_report (trace (run_epoch T C TASK_NAME l c o d e wr v false w0)) = [])
    by (intros; apply proj_pass_no_scheduler; reflexivity).
  assert (P3 : forall w0, proj see_scheduler (trace (test_pass T C TASK_NAME b epoch w0)) = []).
  { intros w0. unfold test_pass. apply quiet_bind; [apply quiet_lift |].
    intros m. destruct (m - epoch <=? 5)%Z; [| apply quiet_ret].
    apply quiet_bind; [apply quiet_sched_pass | intros; apply quiet_ret]. }
  assert (P4 : forall w0, proj see_report (trace (test_pass T C TASK_NAME b epoch w0)) = []).
  { intros w0. unfold test_pass. apply quiet_bind; [apply quiet_lift |].
    intros m. destruct (m - epoch <=? 5)%Z; [| apply quiet_ret].
    apply quiet_bind; [| intros; apply quiet_ret].
    intros w1. apply proj_pass_no_scheduler; reflexivity. }
  bind_cases E1; rewrite ?proj_app, ?P1, ?P2; simpl; [reflexivity |].
  bind_cases E2; rewrite ?proj_app, ?P1, ?P2; simpl; [reflexivity |].
  bind_cases E3;
    rewrite ?proj_app, ?(quiet_save_if_best T see_scheduler),
      ?(quiet_save_if_best T see_report) by reflexivity;
    simpl; [reflexivity |].
  bind_cases E4; rewrite ?proj_app, ?P3, ?P4; simpl; reflexivity.
Qed.

Lemma loop_scheduler b metric save_path es :
  forall result w,
    let loop := for_each (epoch_body T C TASK_NAME b metric save_path) es result w in
    proj see_scheduler (trace loop) =
    map (fun x => inject_Z (fst x)) (proj see_report (trace loop)).
Proof.
  induction es as [| e es IH]; intros result w; simpl; [reflexivity |].
  pose proof (epoch_body_scheduler b metric save_path e result w) as Hb.
  bind_cases E; rewrite ?proj_app, ?map_app, Hb; [reflexivity |].
  f_equal. apply IH.
Qed.

(** Every training pass is followed by its report, unless the run fails
    in that epoch. *)
Lemma loop_reports b metric save_path max es :
  conf_epoch C = Some max ->
  forall result w,
    let loop := for_each (epoch_body T C TASK_NAME b metric save_path) es result w in
    let reported := map fst (proj see_report (trace loop)) in
    let trained := proj see_train_epoch (trace loop) in
    (forall x, outcome loop = inr x -> reported = trained) /\
    (forall e, outcome loop = inl e -> exists x, trained = reported ++ [x]).
Proof.
  intros Hmax. induction es as [| e es IH]; intros result w; simpl.
  - split; [reflexivity | intros e H; discriminate].
  - destruct (epoch_body_marks T C TASK_NAME b metric save_path e result w max Hmax)
      as [Ht [[Hr [Hno _]] | [te [Hr [_ [_ [res0 Hres]]]]]]].
    + bind_cases E; [| exfalso; exact (Hno _ eq_refl)].
      rewrite Hr, Ht. split; [intros x H; discriminate |].
      intros x _. exists e. reflexivity.
    + bind_cases E; [congruence |].
      rewrite !proj_app, map_app, Hr, Ht. simpl.
      match goal with
      | |- context [for_each _ es ?s ?w1] => destruct (IH s w1) as [I1 I2]
      end.
      split.
      * intros x H. f_equal. apply (I1 x H).
      * intros x H. destruct (I2 x H) as [y Hy]. exists y. rewrite Hy. reflexivity.
Qed.

End LoopViews.

(** X9: an iteration of the training loop that completes has made, in
    this order: the training pass, the validation pass (without
    optimizer), at most one checkpoint write, at [save_path], the test
    pass when [max_epoch - epoch <= 5], the report, and the scheduler
    step to the epoch; all of them for the same epoch. *)
Theorem completed_iteration_steps
        T C TASK_NAME b metric save_path epoch result w max res :
  conf_epoch C = Some max ->
  let r := epoch_body T C TASK_NAME b metric save_path epoch result w in
  outcome r = inr res ->
  exists train valid te saves,
    proj see_step (trace r) =
      [EvRunEpoch "train" epoch true; EvRunEpoch "valid" epoch false] ++
      saves ++
      (if (max - epoch <=? 5)%Z then [EvRunEpoch "test " epoch false] else []) ++
      [EvReport epoch train valid te; EvSchedulerStep (inject_Z epoch)] /\
    (saves = [] \/
     exists obj, truthy save_path = true /\
                 saves = [EvSave (get_default save_path "") obj]).
Proof.
  intros Hmax r Hr. subst r.
  destruct (epoch_body_shape T C TASK_NAME b metric save_path epoch result w max res
                             Hmax Hr)
    as [train [valid [te [w1 [Hsteps _]]]]].
  exists train, valid, te.
  exists (proj see_step (trace (save_if_best T metric save_path epoch valid result w1))).
  split; [exact Hsteps |].
  destruct (save_if_best_trace T metric save_path epoch valid result w1)
    as [-> | [obj [Ht ->]]].
  - left. reflexivity.
  - right. exists obj. split; [exact Ht | reflexivity].
Qed.

Lemma completed_iteration_steps_witness :
  exists train valid te obj,
    proj see_step (trace (epoch_body demo_extern long_config "" demo_built "top1"
                                     (Some "ckpt.pth") 2 [] demo_world)) =
    [EvRunEpoch "train" 2 true; EvRunEpoch "valid" 2 false;
     EvSave "ckpt.pth" obj;
     EvReport 2 train valid te; EvSchedulerStep (inject_Z 2)].
Proof.
  assert (Hr : exists res,
             outcome (epoch_body demo_extern long_config "" demo_built "top1"
                                 (Some "ckpt.pth") 2 [] demo_world) = inr res)
    by (vm_compute; eexists; reflexivity).
  destruct Hr as [res Hr].
  destruct (completed_iteration_steps demo_extern long_config "" demo_built "top1"
              (Some "ckpt.pth") 2 [] demo_world 8 res eq_refl Hr)
    as [train [valid [te [saves [Hsteps Hsaves]]]]].
  destruct Hsaves as [-> | [obj [_ ->]]].
  - exfalso. revert Hsteps. vm_compute. discriminate.
  - exists train, valid, te, obj. exact Hsteps.
Defined.

(** X10: in a training run the reporter is called once for every epoch
    whose training pass was started, in order, except for the epoch in
    which the run fails, if it does; a run that returns has reported
    every epoch it trained. *)
Theorem reports_follow_training_passes
        T C TASK_NAME tag dataroot test_ratio cv_fold metric save_path w :
  let r := train_and_eval T C TASK_NAME tag dataroot test_ratio cv_fold metric
                          save_path false w in
  let reported := map fst (proj see_report (trace r)) in
  let trained := proj see_train_epoch (trace r) in
  (forall x, outcome r = inr x -> reported = trained) /\
  (reported = trained \/ exists e, trained = reported ++ [e]).
Proof.
  intros r reported trained. subst reported trained r.
  assert (Hq1 : quiet see_report (resume T metric save_path))
    by (apply quiet_resume; reflexivity).
  assert (Hq2 : quiet see_train_epoch (resume T metric save_path))
    by (apply quiet_resume; reflexivity).
  destruct (train_and_eval_as_loop T C TASK_NAME tag dataroot test_ratio cv_fold
                                   metric save_path w)
    as [[Hnil [_ [e He]]] | [b [res [sv [s [w1 [Hmax [_ [_ [Hview [Hout _]]]]]]]]]]].
  - rewrite (Hnil _ _ Hq1), (Hnil _ _ Hq2). split; [reflexivity | left; reflexivity].
  - rewrite (Hview _ _ Hq1), (Hview _ _ Hq2), Hout.
    destruct (loop_reports T C TASK_NAME b metric save_path (max_epoch b)
                           (range s (max_epoch b + 1)) Hmax res w1) as [I1 I2].
    simpl in I1, I2.
    destruct (outcome (for_each (epoch_body T C TASK_NAME b metric save_path)
                                (range s (max_epoch b + 1)) res w1)) as [e | x].
    + split; [intros y H; discriminate |].
      right. apply (I2 e eq_refl).
    + split; [intros y _; apply (I1 x eq_refl) |].
      left. apply (I1 x eq_refl).
Qed.

(** X11: the epoch-level scheduler is advanced exactly once after each
    report, to that report's epoch number, and at no other time: the
    passes of the training loop never advance it. *)
Theorem scheduler_steps_once_per_report
        T C TASK_NAME tag dataroot test_ratio cv_fold metric save_path w :
  let r := train_and_eval T C TASK_NAME tag dataroot test_ratio cv_fold metric
                          save_path false w in
  proj see_scheduler (trace r) =
  map (fun x => inject_Z (fst x)) (proj see_report (trace r)).
Proof.
  intros r. subst r.
  assert (Hq1 : quiet see_report (resume T metric save_path))
    by (apply quiet_resume; reflexivity).
  assert (Hq2 : quiet see_scheduler (resume T metric save_path))
    by (apply quiet_resume; reflexivity).
  destruct (train_and_eval_as_loop T C TASK_NAME tag dataroot test_ratio cv_fold
                                   metric save_path w)
    as [[Hnil _] | [b [res [sv [s [w1 [_ [_ [_ [Hview _]]]]]]]]]].
  - rewrite (Hnil _ _ Hq1), (Hnil _ _ Hq2). reflexivity.
  - rewrite (Hview _ _ Hq1), (Hview _ _ Hq2). apply loop_scheduler.
Qed.

Section BestBound.

Variable T : Extern.
Variable C : Config.
Variable TASK_NAME : string.

Lemma best_of_set (v : Q) (result : Dict Value) :
  best_of T (dict_set "best_valid" (VFloat v) result) = Some v.
Proof. unfold best_of. rewrite dict_get_set_same. reflexivity. Qed.

(** After the decision the tracked best is at least the epoch's value
    and at least what it was. *)
Lemma save_if_best_bound metric save_path epoch valid result w res :
  outcome (save_if_best T metric save_path epoch valid result w) = inr res ->
  exists v b',
    metric_value T valid metric = inr v /\
    best_of T res = Some b' /\ (v <= b')%Q /\
    (forall b, best_of T result = Some b -> (b <= b')%Q).
Proof.
  unfold save_if_best, metrics_getitem, best_of.
  destruct (dict_get "best_valid" result) as [best |] eqn:Eb.
  - destruct (metric_value T valid metric) as [x | v] eqn:Ev.
    + unfold_prims. simpl. discriminate.
    + destruct (value_lt T best v) as [x | [|]] eqn:El.
      * unfold_prims. simpl. rewrite El. simpl. discriminate.
      * intros H.
        assert (Hres : res = dict_set "best_valid" (VFloat v) result).
        { revert H. unfold_prims. simpl. rewrite El. simpl.
          destruct (truthy save_path); simpl; intros H; injection H as <-;
            reflexivity. }
        subst res. exists v, v. rewrite dict_get_set_same. simpl.
        split; [reflexivity |]. split; [reflexivity |].
        split; [apply Qle_refl |].
        intros b Hb. apply Qlt_le_weak.
        destruct best as [n | y | t | d]; simpl in Hb, El; try discriminate;
          try (destruct (tensor_scalar T t) as [e0 | x0]; [discriminate |]);
          injection Hb as <-; injection El as El; apply Qltb_lt, El.
      * intros H.
        assert (Hres : res = result).
        { revert H. unfold_prims. simpl. rewrite El. simpl.
          intros H; injection H as <-; reflexivity. }
        subst res. rewrite Eb.
        destruct best as [n | y | t | d]; simpl in El; try discriminate;
          try (destruct (tensor_scalar T t) as [e0 | x0] eqn:Et; [discriminate |]);
          injection El as El; apply Qltb_ge in El; simpl; rewrite ?Et;
          eexists; eexists; (split; [reflexivity |]); (split; [reflexivity |]);
          (split; [exact El |]); intros b Hb; injection Hb as <-; apply Qle_refl.
  - destruct (metric_value T valid metric) as [x | v] eqn:Ev.
    + unfold_prims. simpl. discriminate.
    + intros H.
      assert (Hres : res = dict_set "best_valid" (VFloat v) result).
      { revert H. unfold_prims. simpl.
        destruct (truthy save_path); simpl; intros H; injection H as <-;
          reflexivity. }
      subst res. exists v, v. rewrite dict_get_set_same. simpl.
      split; [reflexivity |]. split; [reflexivity |].
      split; [apply Qle_refl |]. intros b Hb. discriminate.
Qed.

Lemma loop_best_bound b metric save_path max es :
  conf_epoch C = Some max ->
  forall result w res,
    let loop := for_each (epoch_body T C TASK_NAME b metric save_path) es result w in
    outcome loop = inr res ->
    (forall x, best_of T result = Some x ->
               exists b', best_of T res = Some b' /\ (x <= b')%Q) /\
    (forall valid, In valid (proj see_valid (trace loop)) ->
                   exists v b', metric_value T valid metric = inr v /\
                                best_of T res = Some b' /\ (v <= b')%Q).
Proof.
  intros Hmax. induction es as [| e es IH]; intros result w res; simpl.
  - intros H. injection H as <-. split.
    + intros x Hx. exists x. split; [exact Hx | apply Qle_refl].
    + intros valid [].
  - bind_cases E; [discriminate |]. intros H.
    destruct (epoch_body_shape T C TASK_NAME b metric save_path e result w max a
                               Hmax E)
      as [train [valid1 [te [w1 [_ [Hv Hs]]]]]].
    apply save_if_best_bound in Hs.
    destruct Hs as [v1 [b1 [Hm1 [Hb1 [Hle1 Hmono1]]]]].
    destruct (IH _ _ _ H) as [Hmono Hall].
    destruct (Hmono b1 Hb1) as [b' [Hb' Hle']].
    split.
    + intros x Hx. exists b'. split; [exact Hb' |].
      eapply Qle_trans; [apply (Hmono1 x Hx) | exact Hle'].
    + intros valid Hin. rewrite proj_app, Hv in Hin.
      apply in_app_or in Hin. destruct Hin as [[<- | []] | Hin].
      * exists v1, b'. split; [exact Hm1 |]. split; [exact Hb' |].
        eapply Qle_trans; eassumption.
      * apply Hall, Hin.
Qed.

End BestBound.

(** X12: the best value a training run returns is an upper bound of the
    target metric of every validation result it reported. *)
Theorem returned_best_bounds_reported_values
        T C TASK_NAME tag dataroot test_ratio cv_fold metric save_path w result :
  let r := train_and_eval T C TASK_NAME tag dataroot test_ratio cv_fold metric
                          save_path false w in
  outcome r = inr (RetResult result) ->
  forall valid, In valid (proj see_valid (trace r)) ->
    exists v best,
      metric_value T valid metric = inr v /\
      best_of T result = Some best /\ (v <= best)%Q.
Proof.
  intros r Hr valid Hin. subst r.
  assert (Hq : quiet see_valid (resume T metric save_path))
    by (apply quiet_resume; reflexivity).
  destruct (train_and_eval_as_loop T C TASK_NAME tag dataroot test_ratio cv_fold
                                   metric save_path w)
    as [[_ [_ [e He]]] | [b [res [sv [s [w1 [Hmax [_ [_ [Hview [Hout _]]]]]]]]]]].
  - congruence.
  - rewrite (Hview _ _ Hq) in Hin. rewrite Hout in Hr.
    destruct (outcome (for_each (epoch_body T C TASK_NAME b metric save_path)
                                (range s (max_epoch b + 1)) res w1))
      as [e | x] eqn:E; [discriminate |].
    injection Hr as ->.
    destruct (loop_best_bound T C TASK_NAME b metric save_path (max_epoch b)
                              (range s (max_epoch b + 1)) Hmax res w1 result E)
      as [_ Hall].
    apply Hall, Hin.
Qed.

Lemma returned_best_bounds_reported_values_witness :
  let r := train_and_eval demo_extern demo_config "" None "./data" 0 0 "top1"
                          None false demo_world in
  exists valid v,
    In valid (proj see_valid (trace r)) /\
    metric_value demo_extern valid "top1" = inr v /\
    (v <= 16500 # 30000)%Q.
Proof.
  intros r.
  assert (Hsome : exists valid, In valid (proj see_valid (trace r)))
    by (vm_compute; eexists; left; reflexivity).
  destruct Hsome as [valid Hin]. exists valid.
  destruct (returned_best_bounds_reported_values demo_extern demo_config "" None
              "./data" 0 0%Z "top1" None demo_world
              [("best_valid", VFloat (16500 # 30000))]
              ltac:(vm_compute; reflexivity) valid Hin)
    as [v [best [Hv [Hb Hle]]]].
  exists v. split; [exact Hin |]. split; [exact Hv |].
  injection Hb as <-. exact Hle.
Defined.

Lemma range_empty (a b : Z) : (b <= a)%Z -> range a b = [].
Proof.
  intros H. unfold range. replace (Z.to_nat (b - a)) with O by lia. reflexivity.
Qed.

Lemma log_open_effect (d x : string) logs :
  (dict_get d (log_open x logs) = dict_get d logs) \/
  (d = x /\ dict_get d logs = None /\ dict_get d (log_open x logs) = Some []).
Proof.
  unfold log_open. destruct (dict_get x logs) as [l |] eqn:E; [left; reflexivity |].
  destruct (String.eqb d x) eqn:Ed.
  - apply String.eqb_eq in Ed. subst x. right.
    split; [reflexivity |]. split; [exact E | apply dict_get_set_same].
  - left. apply dict_get_set_other, Ed.
Qed.

(** Making the writers of a run makes the directories that are missing
    and leaves everything else as it is. *)
Lemma opened_effect (d : string) tag l logs :
  dict_get d (opened tag l logs) = dict_get d logs \/
  (truthy tag = true /\ In d (map (log_dir tag) l) /\
   dict_get d logs = None /\ dict_get d (opened tag l logs) = Some []).
Proof.
  unfold opened. destruct (truthy tag); [| left; reflexivity].
  revert logs. induction l as [| x l IH]; intros logs; simpl; [left; reflexivity |].
  destruct (IH (log_open (log_dir tag x) logs)) as [H | [_ [Hin [Hn Hs]]]];
    destruct (log_open_effect d (log_dir tag x) logs) as [Ho | [Hd [Hno Ho]]].
  - left. rewrite H. exact Ho.
  - right. split; [reflexivity |]. split; [left; symmetry; exact Hd |].
    split; [exact Hno | rewrite H; exact Ho].
  - right. split; [reflexivity |]. split; [right; exact Hin |].
    split; [rewrite <- Ho; exact Hn | exact Hs].
  - congruence.
Qed.

Section Finished.

Variable T : Extern.
Variable C : Config.
Variable TASK_NAME : string.

(** A run that resumes after its last epoch writes to the logs what
    construction writes. *)
Lemma finished_run_logs
      tag dataroot test_ratio cv_fold metric save_path w max data N :
  conf_epoch C = Some max ->
  checkpoint_at save_path (w_fs w) = Some data ->
  dict_get "epoch" data = Some (VInt N) ->
  (max <= N)%Z ->
  w_logs (final (train_and_eval T C TASK_NAME tag dataroot test_ratio cv_fold
                                metric save_path false w)) =
  w_logs (final (build T C tag dataroot test_ratio cv_fold w)).
Proof.
  intros Hmax Hck He Hle.
  assert (Hk : keeps w_logs (resume T metric save_path)).
  { pose_keeps w_logs. unfold resume. quiet_tac. }
  unfold train_and_eval. rewrite final_bind.
  destruct (outcome (build T C tag dataroot test_ratio cv_fold w)) as [e | b] eqn:E1;
    [reflexivity |].
  pose proof (build_max_epoch T C tag dataroot test_ratio cv_fold w b E1) as Hb.
  rewrite Hmax in Hb. injection Hb as Hb.
  rewrite final_bind.
  destruct (outcome (resume T metric save_path
                            (final (build T C tag dataroot test_ratio cv_fold w))))
    as [e | [res sv]] eqn:E2; [apply Hk |].
  pose proof E2 as Hs. apply resume_start in Hs.
  rewrite keeps_fs_build, Hck, He in Hs. simpl in Hs. injection Hs as <-.
  simpl. rewrite final_bind.
  rewrite (train_loop_start T C TASK_NAME b metric save_path (VInt (N + 1)) (N + 1))
    by reflexivity.
  rewrite range_empty by lia. simpl. apply Hk.
Qed.

End Finished.



(** ** Logging *)

Section Logging.

Variable T : Extern.
Variable C : Config.
Variable TASK_NAME : string.

Lemma build_writers tag dataroot test_ratio cv_fold w b :
  outcome (build T C tag dataroot test_ratio cv_fold w) = inr b ->
  truthy tag = false ->
  writers b = [SummaryWriterDummy; SummaryWriterDummy; SummaryWriterDummy].
Proof.
  intros H Ht. rewrite (build_writers_of T C tag dataroot test_ratio cv_fold w b H).
  unfold writer_of. rewrite Ht. reflexivity.
Qed.

Lemma quiet_scalar_pass l c o d e wr v s :
  (forall dir, wr <> Some (SummaryWriter dir)) ->
  quiet see_scalar (run_epoch T C TASK_NAME l c o d e wr v s).
Proof.
  intros Hw.
  assert (Ha : forall items, quiet see_scalar (add_scalars wr items e)).
  { induction items as [| [key value] rest IH]; simpl; quiet_tac.
    destruct wr as [[| dir] |]; simpl; auto with quiet.
    exfalso. exact (Hw dir eq_refl). }
  assert (Hb : forall b st, quiet see_scalar
                                  (batch_body T C c o e v s (List.length l) b st))
    by (intros; apply quiet_batch_body_but; reflexivity).
  unfold run_epoch, epoch_end. quiet_tac.
Qed.

Lemma quiet_scalar_train_and_eval
      tag dataroot test_ratio cv_fold metric save_path only_eval :
  truthy tag = false ->
  quiet see_scalar (train_and_eval T C TASK_NAME tag dataroot test_ratio cv_fold
                                   metric save_path only_eval).
Proof.
  intros Ht w. unfold train_and_eval.
  rewrite proj_bind, quiet_build.
  destruct (outcome (build T C tag dataroot test_ratio cv_fold w)) as [e | b] eqn:E;
    [reflexivity |].
  pose proof (build_writers tag dataroot test_ratio cv_fold w b E Ht) as Hw.
  simpl.
  assert (Hp : forall l c o d e i v s,
             quiet see_scalar (run_epoch T C TASK_NAME l c o d e
                                         (nth_writer (writers b) i) v s)).
  { intros. apply quiet_scalar_pass. intros dir. rewrite Hw.
    unfold nth_writer.
    destruct i as [| [| [| i]]]; simpl; try discriminate.
    destruct i; discriminate. }
  assert (Hn : forall l c o d e v s,
             quiet see_scalar (run_epoch T C TASK_NAME l c o d e None v s))
    by (intros; apply quiet_scalar_pass; discriminate).
  assert (Hres : quiet see_scalar (resume T metric save_path))
    by (apply quiet_resume; reflexivity).
  assert (Hs : forall e vm res,
             quiet see_scalar (save_if_best T metric save_path e vm res))
    by (intros; apply quiet_save_if_best; reflexivity).
  pose proof (quiet_scheduler_step T see_scalar) as Hq.
  match goal with
  | |- proj see_scalar (trace (?m _)) = [] => assert (Hm : quiet see_scalar m)
  end.
  { unfold eval_only, train_loop, epoch_body, test_pass. quiet_tac. }
  apply Hm.
Qed.

End Logging.

(** X14: without a tag ([None] or the empty string) nothing is sent to
    tensorboard: no scalar is logged anywhere in the run. *)
Theorem no_tag_no_tensorboard
        T C TASK_NAME tag dataroot test_ratio cv_fold metric save_path only_eval w :
  truthy tag = false ->
  proj see_scalar
       (trace (train_and_eval T C TASK_NAME tag dataroot test_ratio cv_fold metric
                              save_path only_eval w)) = [].
Proof.
  intros Ht. apply quiet_scalar_train_and_eval, Ht.
Qed.

Lemma no_tag_no_tensorboard_witness :
  proj see_scalar
       (trace (train_and_eval demo_extern demo_config "" (Some "") "./data" 0 0
                              "top1" None false demo_world)) = [].
Proof.
  apply (no_tag_no_tensorboard demo_extern demo_config "" (Some "") "./data" 0 0%Z
           "top1" None false demo_world).
  reflexivity.
Defined.

(** ** The entry point *)

Lemma contains_slash_cons (c : ascii) (rest : string) :
  str_contains "/" (String c rest) =
  if Ascii.eqb c "/" then true else str_contains "/" rest.
Proof.
  unfold str_contains. cbn [String.index prefix].
  destruct (ascii_dec "/" c) as [<- | Hn].
  - destruct rest; reflexivity.
  - assert (E : Ascii.eqb c "/" = false)
      by (apply Ascii.eqb_neq; congruence).
    rewrite E. destruct (String.index 0 "/" rest); reflexivity.
Qed.

Lemma contains_slash_without (s : string) :
  without "/" s -> str_contains "/" s = false.
Proof.
  induction s as [| c rest IH]; simpl; intros H; [reflexivity |].
  destruct H as [Hc Hr]. rewrite contains_slash_cons.
  apply Ascii.eqb_neq in Hc. rewrite Hc. apply IH, Hr.
Qed.

Lemma contains_slash_app (a b : string) :
  str_contains "/" (String.append a (String "/" b)) = true.
Proof.
  induction a as [| c rest IH]; simpl.
  - rewrite contains_slash_cons. reflexivity.
  - rewrite contains_slash_cons, IH. destruct (Ascii.eqb c "/"); reflexivity.
Qed.

Lemma basename_without (s : string) : without "/" s -> basename s = s.
Proof.
  destruct s as [| c rest]; simpl; intros H; [reflexivity |].
  destruct H as [Hc Hr]. rewrite (contains_slash_without _ Hr).
  apply Ascii.eqb_neq in Hc. rewrite Hc. reflexivity.
Qed.

(** The directories of a path are dropped. *)
Lemma basename_app (dir name : string) :
  without "/" name -> basename (String.append dir (String "/" name)) = name.
Proof.
  intros Hn. induction dir as [| c rest IH]; simpl.
  - rewrite (contains_slash_without _ Hn). reflexivity.
  - rewrite contains_slash_app. exact IH.
Qed.

Lemma basename_no_slash (p : string) : without "/" (basename p).
Proof.
  induction p as [| c rest IH]; simpl; [exact I |].
  destruct (str_contains "/" rest) eqn:E; [exact IH |].
  assert (Hr : without "/" rest).
  { clear IH. induction rest as [| x r IHr]; simpl; [exact I |].
    rewrite contains_slash_cons in E.
    destruct (Ascii.eqb x "/") eqn:Ex; [discriminate |].
    apply Ascii.eqb_neq in Ex. split; [exact Ex | apply IHr, E]. }
  destruct (Ascii.eqb c "/") eqn:Ec; [exact Hr |].
  apply Ascii.eqb_neq in Ec. split; assumption.
Qed.

Lemma before_dot_app (stem ext : string) :
  without "." stem -> before_dot (String.append stem (String "." ext)) = stem.
Proof.
  induction stem as [| c rest IH]; simpl; intros H; [reflexivity |].
  destruct H as [Hc Hr]. apply Ascii.eqb_neq in Hc. rewrite Hc.
  f_equal. apply IH, Hr.
Qed.

Lemma before_dot_clean (c : ascii) (s : string) :
  without c s -> without c (before_dot s).
Proof.
  induction s as [| x rest IH]; simpl; intros H; [exact I |].
  destruct H as [Hx Hr]. destruct (Ascii.eqb x "."); simpl; [exact I |].
  split; [exact Hx | apply IH, Hr].
Qed.

Lemma before_dot_no_dot (s : string) : without "." (before_dot s).
Proof.
  induction s as [| x rest IH]; simpl; [exact I |].
  destruct (Ascii.eqb x ".") eqn:E; simpl; [exact I |].
  apply Ascii.eqb_neq in E. split; assumption.
Qed.

Lemma without_app (c : ascii) (a b : string) :
  without c a -> without c b -> without c (String.append a b).
Proof.
  induction a as [| x rest IH]; simpl; intros Ha Hb; [exact Hb |].
  destruct Ha as [Hx Hr]. split; [exact Hx | apply IH; assumption].
Qed.

(** X15: run on the configuration file [dir/stem.ext], the script calls
    [train_and_eval] with the tag [stem]: the directories and everything
    from the first dot of the file name on are dropped.  Whatever the
    path, the tag holds neither a slash nor a dot. *)
Theorem main_tag_is_config_stem T C0 load TASK_NAME dir stem ext w :
  without "/" stem -> without "." stem -> without "/" ext ->
  let p := String.append dir (String "/" (String.append stem (String "." ext))) in
  main T C0 load TASK_NAME (Some p) w =
  train_and_eval T (load p) TASK_NAME (Some stem) "./data" 0 0 "last" None false w /\
  (forall q, without "/" (before_dot (basename q)) /\
             without "." (before_dot (basename q))).
Proof.
  intros Hs Hd He p. split.
  - unfold main.
    assert (Hp : truthy (Some p) = true) by (subst p; destruct dir; reflexivity).
    rewrite Hp. simpl get_default.
    subst p. rewrite basename_app, before_dot_app; [reflexivity | exact Hd |].
    apply without_app; [exact Hs |]. simpl. split; [discriminate | exact He].
  - intros q. split.
    + apply before_dot_clean, basename_no_slash.
    + apply before_dot_no_dot.
Qed.

Lemma main_tag_is_config_stem_witness :
  main demo_extern adam_config (fun _ => demo_config) ""
       (Some "confs/wresnet28x10_cifar10_b256.yaml") demo_world =
  train_and_eval demo_extern demo_config "" (Some "wresnet28x10_cifar10_b256")
                 "./data" 0 0 "last" None false demo_world.
Proof.
  apply (main_tag_is_config_stem demo_extern adam_config (fun _ => demo_config) ""
           "confs" "wresnet28x10_cifar10_b256" "yaml" demo_world).
  - repeat split; discriminate.
  - repeat split; discriminate.
  - repeat split; discriminate.
Defined.


